(** * Parametric map construction (highdicom.pm.sop)

    A shallow embedding of [ParametricMap.__init__], [_create_frame_items],
    [_get_pixel_data_type_and_attr] and [_encode_frame], and the properties
    of the assembled instance: frame order, placement of the real world
    value mappings, pixel representation, pixel data and the order of the
    argument checks.

    Conventions.
    - A raised Python exception is the [Raise] branch of [result]; the
      exception carries its class and, for the messages of this module, a
      tag naming the message.
    - A numpy array is a data type, a shape and its samples in row-major
      order.  A sample of an integer type is its value; a sample of any
      other type is its bit pattern read as an unsigned integer.
    - A value passed as [real_world_value_mappings] is a [pyobj]: a
      mapping, another data set, a list or tuple, or a number.  Where the
      code assigns such a value to the attribute
      [RealWorldValueMappingSequence] of a pydicom data set, pydicom
      builds a sequence from it and raises [TypeError] unless it is a list
      or tuple of data sets: [pydicom_Sequence].
    - The window centre and the window width are rational numbers: the
      numbers of Python that are neither infinite nor NaN.
    - The collaborators of the module (geometry provider, frame codec,
      byte encapsulation, numpy's casts from non-integer types) are the
      fields of the class [Collaborators].
    - The header attributes that the constructor copies from the source
      image and passes to the base class (patient, study, equipment) are
      not part of the model.  The references to the source images are
      computed beside the instance, by [source_image_references] and
      [referenced_series_sequence].

    The constructor of the structured report, [Comprehensive3DSR.__init__]
    of [highdicom.sr.sop], is embedded in the module [SR], with exceptions
    and collaborators of its own. *)

From Stdlib Require Import String Ascii ZArith QArith List Bool Lia.
Import ListNotations.
Local Open Scope Z_scope.

(** ** Exceptions and results *)

(** The messages of the exceptions raised in [highdicom/pm/sop.py]. *)
Inductive message : Type :=
| MsgNoSourceImage        (* At least one source image is required *)
| MsgSourceImagesDiffer   (* Source images must all be part of the same series ... *)
| MsgOneMultiframeSource  (* Only one source image should be provided ... *)
| MsgTransferSyntax       (* Transfer syntax ... is not supported. *)
| MsgWindowWidth          (* Window width must be greater than zero. *)
| MsgFlatMappings         (* ... 2D or 3D array ... must be a flat sequence ... *)
| MsgNestedMappings       (* ... 4D array ... must be a nested sequence ... *)
| MsgArrayRank            (* Pixel array must be a 2D, 3D, or 4D array. *)
| MsgMappingCount         (* Number of RealWorldValueMapping items ... does not match ... *)
| MsgPlaneCountSource     (* Number of plane positions in source image(s) does not match ... *)
| MsgPlaneCountArgument   (* Number of PlanePositionSequence items ... does not match ... *)
| MsgFloatType            (* Unsupported floating-point type for pixel data ... *)
| MsgUnsignedType         (* Unsupported unsigned integer type for pixel data ... *)
| MsgSignedType           (* Unsupported signed integer type for pixel data ... *)
| MsgDataType             (* Unsupported data type for pixel data. ... *)
| MsgSinglePlane          (* Only single frame can be encoded at at time ... *)
| MsgNotSubscriptable     (* object is not subscriptable *)
| MsgNoLength             (* object has no len() *)
| MsgSequenceContents     (* Sequence contents must be Dataset instances. *)
| MsgSequenceIterable     (* The Sequence constructor requires an iterable *)
| MsgNotIterable.         (* object is not iterable *)

Inductive exception : Type :=
| ValueError (msg : message)
| TypeError (msg : message)
| IndexError
| KeyError
| AttributeError
| CodecError.

Inductive result (A : Type) : Type :=
| Ok (a : A)
| Raise (e : exception).

Arguments Ok {A} a.
Arguments Raise {A} e.

Definition bind {A B : Type} (c : result A) (k : A -> result B) : result B :=
  match c with
  | Ok a => k a
  | Raise e => Raise e
  end.

Declare Scope result_scope.
Delimit Scope result_scope with result.
Notation "x <- c ;; k" := (bind c (fun x => k))
  (at level 61, c at next level, right associativity) : result_scope.
Notation "' p <- c ;; k" := (bind c (fun x => let p := x in k))
  (at level 61, p pattern, c at next level, right associativity) : result_scope.
Notation "c ;;; k" := (bind c (fun _ => k))
  (at level 61, right associativity) : result_scope.
Local Open Scope result_scope.

(** [if cond: raise e] *)
Definition raise_if (cond : bool) (e : exception) : result unit :=
  if cond then Raise e else Ok tt.

(** [for i in range(n): s = body(i, s)], stopping at the first exception. *)
Fixpoint for_each {S : Type} (l : list nat) (body : nat -> S -> result S)
  (s : S) : result S :=
  match l with
  | [] => Ok s
  | i :: l' => s' <- body i s ;; for_each l' body s'
  end.

Definition for_range {S : Type} (n : nat) (body : nat -> S -> result S)
  (s : S) : result S :=
  for_each (seq 0 n) body s.

(** The failure kinds of the specification, and the exceptions of the
    module that stand for each of them. *)
Inductive failure : Type :=
| InconsistentSourceImages
| UnsupportedStorageSyntax
| InvalidWindow
| InvalidArrayRank
| UnsupportedElementType
| PlaneCountMismatch
| MappingShapeMismatch
| NotASinglePlane.

Definition failure_of (e : exception) : option failure :=
  match e with
  | ValueError MsgNoSourceImage
  | ValueError MsgSourceImagesDiffer
  | ValueError MsgOneMultiframeSource => Some InconsistentSourceImages
  | ValueError MsgTransferSyntax => Some UnsupportedStorageSyntax
  | ValueError MsgWindowWidth => Some InvalidWindow
  | ValueError MsgArrayRank => Some InvalidArrayRank
  | ValueError MsgFloatType
  | ValueError MsgUnsignedType
  | ValueError MsgSignedType
  | ValueError MsgDataType => Some UnsupportedElementType
  | ValueError MsgPlaneCountSource
  | ValueError MsgPlaneCountArgument => Some PlaneCountMismatch
  | TypeError MsgFlatMappings
  | TypeError MsgNestedMappings
  | ValueError MsgMappingCount => Some MappingShapeMismatch
  | ValueError MsgSinglePlane => Some NotASinglePlane
  | _ => None
  end.

(** ** Transfer syntaxes (pydicom.uid) *)

Definition UID : Type := string.

Definition ImplicitVRLittleEndian : UID := "1.2.840.10008.1.2"%string.
Definition ExplicitVRLittleEndian : UID := "1.2.840.10008.1.2.1"%string.
Definition ExplicitVRBigEndian : UID := "1.2.840.10008.1.2.2"%string.
Definition DeflatedExplicitVRLittleEndian : UID := "1.2.840.10008.1.2.1.99"%string.
Definition JPEG2000Lossless : UID := "1.2.840.10008.1.2.4.90"%string.
Definition RLELossless : UID := "1.2.840.10008.1.2.5"%string.

Definition uid_in (u : UID) (l : list UID) : bool := existsb (String.eqb u) l.

(** [UID.is_encapsulated]: every transfer syntax but the four that store
    the pixel data natively. *)
Definition is_encapsulated (u : UID) : bool :=
  negb (uid_in u [ImplicitVRLittleEndian; ExplicitVRLittleEndian;
                  ExplicitVRBigEndian; DeflatedExplicitVRLittleEndian]).

(** ** numpy arrays *)

Record dtype : Type := {
  kind : ascii;       (* 'i', 'u', 'f', 'b', 'c', ... *)
  itemsize : Z;       (* bytes per sample *)
  swapped : bool      (* byte order opposite to the host's *)
}.

Definition np_int8 : dtype := {| kind := "i"; itemsize := 1; swapped := false |}.
Definition np_int16 : dtype := {| kind := "i"; itemsize := 2; swapped := false |}.
Definition np_uint8 : dtype := {| kind := "u"; itemsize := 1; swapped := false |}.
Definition np_uint16 : dtype := {| kind := "u"; itemsize := 2; swapped := false |}.
Definition np_float32 : dtype := {| kind := "f"; itemsize := 4; swapped := false |}.
Definition np_float64 : dtype := {| kind := "f"; itemsize := 8; swapped := false |}.

(** [d1 == d2]: same kind, same width and, for samples of more than one
    byte, the same byte order. *)
Definition dtype_eqb (d1 d2 : dtype) : bool :=
  Ascii.eqb (kind d1) (kind d2)
  && (itemsize d1 =? itemsize d2)
  && ((itemsize d1 <=? 1) || Bool.eqb (swapped d1) (swapped d2)).

Definition dtype_in (d : dtype) (l : list dtype) : bool := existsb (dtype_eqb d) l.

(** [d.name] as the pair of its stem and its width in bits:
    ['float32'] is [("float", 32)].  The name ignores the byte order. *)
Definition dtype_name (d : dtype) : string * Z :=
  ((if Ascii.eqb (kind d) "f" then "float"
    else if Ascii.eqb (kind d) "i" then "int"
    else if Ascii.eqb (kind d) "u" then "uint"
    else String (kind d) EmptyString)%string,
   8 * itemsize d).

Definition name_eqb (n1 n2 : string * Z) : bool :=
  String.eqb (fst n1) (fst n2) && (snd n1 =? snd n2).

Record ndarray : Type := {
  dt : dtype;
  shape : list nat;
  data : list Z
}.

Definition ndim (a : ndarray) : nat := length (shape a).
Definition dim (a : ndarray) (k : nat) : nat := nth k (shape a) 0%nat.

(** [a[np.newaxis, ...]] and [a[..., np.newaxis]]: the samples stay. *)
Definition newaxis_front (a : ndarray) : ndarray :=
  {| dt := dt a; shape := 1%nat :: shape a; data := data a |}.
Definition newaxis_back (a : ndarray) : ndarray :=
  {| dt := dt a; shape := shape a ++ [1%nat]; data := data a |}.

(** [a[i, r, c, j]] of an array of shape [(n, R, C, m)]. *)
Definition item4 (a : ndarray) (i r c j : nat) : Z :=
  nth (((i * dim a 1 + r) * dim a 2 + c) * dim a 3 + j)%nat (data a) 0.

(** [a[i, :, :, j]]: the plane of shape [(R, C)]. *)
Definition plane (a : ndarray) (i j : nat) : ndarray :=
  {| dt := dt a;
     shape := [dim a 1; dim a 2];
     data := flat_map (fun r => map (fun c => item4 a i r c j) (seq 0 (dim a 2)))
                      (seq 0 (dim a 1)) |}.

Definition wrap_unsigned (bits v : Z) : Z := v mod 2 ^ bits.
Definition wrap_signed (bits v : Z) : Z :=
  (v + 2 ^ (bits - 1)) mod 2 ^ bits - 2 ^ (bits - 1).

Definition is_integer (d : dtype) : bool :=
  Ascii.eqb (kind d) "i" || Ascii.eqb (kind d) "u".

(** ** Bytes *)

Definition bytes : Type := list Z.

Fixpoint le_bytes (width : nat) (v : Z) : bytes :=
  match width with
  | O => []
  | S w => v mod 256 :: le_bytes w (v / 256)
  end.

(** [b''.join(frames)] *)
Definition join (frames : list bytes) : bytes := concat frames.

(** The samples of the array are well formed: as many as the shape says,
    each in the range of the data type (integer types). *)
Definition in_range (d : dtype) (v : Z) : bool :=
  if Ascii.eqb (kind d) "i"
  then (- 2 ^ (8 * itemsize d - 1) <=? v) && (v <? 2 ^ (8 * itemsize d - 1))
  else (0 <=? v) && (v <? 2 ^ (8 * itemsize d)).

Definition ndarray_ok (a : ndarray) : bool :=
  (length (data a) =? fold_right Nat.mul 1 (shape a))%nat
  && forallb (in_range (dt a)) (data a).

(** ** Source images (pydicom data sets) *)

Module Src.
Record Dataset : Type := {
  StudyInstanceUID : string;
  SeriesInstanceUID : string;
  Rows : Z;
  Columns : Z;
  FrameOfReferenceUID : string;
  NumberOfFrames : option Z;                       (* [None]: attribute absent *)
  has_ImageOrientationSlide : bool;
  has_ImageCenterPointCoordinatesSequence : bool
}.
End Src.

Definition criteria : Type := (string * string * Z * Z * string)%type.

Definition criteria_eq_dec (x y : criteria) : {x = y} + {x <> y}.
Proof. repeat decide equality. Defined.

Definition criteria_of (image : Src.Dataset) : criteria :=
  (Src.StudyInstanceUID image, Src.SeriesInstanceUID image, Src.Rows image,
   Src.Columns image, Src.FrameOfReferenceUID image).

Definition hasattr {A : Type} (field : option A) : bool :=
  match field with Some _ => true | None => false end.

Definition getattr {A : Type} (field : option A) : result A :=
  match field with Some v => Ok v | None => Raise AttributeError end.

(** [l[k]] on a list *)
Definition index {A : Type} (l : list A) (k : nat) : result A :=
  match nth_error l k with Some x => Ok x | None => Raise IndexError end.

(** [try: c  except IndexError: raise e] *)
Definition except_IndexError {A : Type} (c : result A) (e : exception) : result A :=
  match c with
  | Raise IndexError => Raise e
  | _ => c
  end.

Inductive CoordinateSystemNames : Type := PATIENT | SLIDE.

Inductive _PixelDataType : Type := SHORT | USHORT | SINGLE | DOUBLE.

Definition _pixel_data_type_map (t : _PixelDataType) : string :=
  match t with
  | SHORT => "PixelData"
  | USHORT => "PixelData"
  | SINGLE => "FloatPixelData"
  | DOUBLE => "DoubleFloatPixelData"
  end.

Definition _get_pixel_data_type_and_attr (pixel_array : ndarray)
  : result (_PixelDataType * string) :=
  let d := dt pixel_array in
  if Ascii.eqb (kind d) "f" then
    if name_eqb (dtype_name d) ("float"%string, 32) then
      Ok (SINGLE, _pixel_data_type_map SINGLE)
    else if name_eqb (dtype_name d) ("float"%string, 64) then
      Ok (DOUBLE, _pixel_data_type_map DOUBLE)
    else Raise (ValueError MsgFloatType)
  else if Ascii.eqb (kind d) "u" then
    if negb (dtype_in d [np_uint8; np_uint16]) then Raise (ValueError MsgUnsignedType)
    else Ok (USHORT, _pixel_data_type_map USHORT)
  else if Ascii.eqb (kind d) "i" then
    if negb (dtype_in d [np_int8; np_int16]) then Raise (ValueError MsgSignedType)
    else Ok (SHORT, _pixel_data_type_map SHORT)
  else Raise (ValueError MsgDataType).

(** Lines 240-259: the transfer syntaxes that can carry the array. *)
Definition supported_transfer_syntaxes (pixel_array : ndarray) : list UID :=
  [ImplicitVRLittleEndian; ExplicitVRLittleEndian]
  ++ (if is_integer (dt pixel_array) then [JPEG2000Lossless; RLELossless] else []).

Definition transfer_syntax_check (pixel_array : ndarray) (transfer_syntax_uid : UID)
  : result unit :=
  raise_if (negb (uid_in transfer_syntax_uid (supported_transfer_syntaxes pixel_array)))
           (ValueError MsgTransferSyntax).

(** Lines 261-262.  The window centre and width are rational numbers here:
    the values of Python's numbers that are neither infinite nor NaN (a NaN
    is not refused by the comparison of line 261, which is false for it). *)
Definition window_check (window_width : Q) : result unit :=
  raise_if (Qle_bool window_width 0) (ValueError MsgWindowWidth).

(** Lines 208-238: the checks of the source images; returns [src_img] and
    [is_multiframe]. *)
Definition source_image_checks (source_images : list Src.Dataset)
  : result (Src.Dataset * bool) :=
  raise_if (length source_images =? 0)%nat (ValueError MsgNoSourceImage) ;;;
  let uniqueness_criteria := nodup criteria_eq_dec (map criteria_of source_images) in
  raise_if (1 <? length uniqueness_criteria)%nat (ValueError MsgSourceImagesDiffer) ;;;
  src_img <- index source_images 0 ;;
  let is_multiframe := hasattr (Src.NumberOfFrames src_img) in
  raise_if (is_multiframe && (1 <? length source_images)%nat)
           (ValueError MsgOneMultiframeSource) ;;;
  Ok (src_img, is_multiframe).

Definition coordinate_system_of (src_img : Src.Dataset) : CoordinateSystemNames :=
  if Src.has_ImageOrientationSlide src_img
     || Src.has_ImageCenterPointCoordinatesSequence src_img
  then SLIDE else PATIENT.

(** ** Collaborators

    What the module calls and does not define: the content items of
    [highdicom.content] and [highdicom.pm.content], the geometry provider
    ([DimensionIndexSequence] and the geometry of the source image), the
    frame codec [highdicom.frame.encode_frame], [pydicom.encaps.encapsulate],
    numpy's casts that involve a type that is not an integer type, and the
    byte order of the host. *)
Class Collaborators : Type := {
  RealWorldValueMapping : Type;
  PlanePosition : Type;        (* a PlanePositionSequence *)
  PixelMeasures : Type;        (* a PixelMeasuresSequence *)
  PlaneOrientation : Type;     (* a PlaneOrientationSequence *)
  get_plane_positions_of_image : Src.Dataset -> list PlanePosition;
  get_plane_positions_of_series : list Src.Dataset -> list PlanePosition;
  get_index_values : CoordinateSystemNames -> list PlanePosition -> list (list Z);
  source_pixel_measures : bool -> Src.Dataset -> PixelMeasures;
  source_plane_orientation :
    bool -> CoordinateSystemNames -> Src.Dataset -> PlaneOrientation;
  encode_frame : ndarray -> UID -> Z -> Z -> string -> Z -> result bytes;
  encapsulate : list bytes -> bytes;
  numpy_cast : dtype -> dtype -> Z -> Z;
  big_endian_host : bool
}.

Section ParametricMap.

Context {env : Collaborators}.

(** ** Python values passed as [real_world_value_mappings] *)

#[local] Set Warnings "-register-all".
Inductive pyobj : Type :=
| Mapping (item : RealWorldValueMapping)   (* a RealWorldValueMapping data set *)
| PlainDataset                             (* any other pydicom data set *)
| Sequence (items : list pyobj)            (* a list or tuple *)
| Other.                                   (* a non-zero number: an object that is true
                                              and neither iterable nor subscriptable *)

(** [o[k]].  A [RealWorldValueMapping] is a pydicom data set: an integer
    key is looked up as a tag and raises [KeyError]. *)
Definition getitem (o : pyobj) (k : nat) : result pyobj :=
  match o with
  | Sequence items => index items k
  | Mapping _ | PlainDataset => Raise KeyError
  | Other => Raise (TypeError MsgNotSubscriptable)
  end.

(** [len(o)], applied by the constructor to sequences only. *)
Definition len (o : pyobj) : result nat :=
  match o with
  | Sequence items => Ok (length items)
  | _ => Raise (TypeError MsgNoLength)
  end.

Definition isinstance_RealWorldValueMapping (o : pyobj) : bool :=
  match o with Mapping _ => true | _ => false end.

Definition isinstance_Dataset (o : pyobj) : bool :=
  match o with Mapping _ | PlainDataset => true | _ => false end.

(** [pydicom.sequence.Sequence(iterable)], which pydicom calls when a value
    is assigned to an attribute of value representation SQ, such as
    [RealWorldValueMappingSequence] (lines 388 and 629): a data set is
    refused, and every item of the iterable has to be a data set. *)
Definition pydicom_Sequence (iterable : pyobj) : result pyobj :=
  match iterable with
  | Mapping _ | PlainDataset => Raise (TypeError MsgSequenceIterable)
  | Sequence items =>
      raise_if (negb (forallb isinstance_Dataset items))
               (TypeError MsgSequenceContents) ;;;
      Ok iterable
  | Other => Raise (TypeError MsgNotIterable)
  end.

(** ** numpy casts and serialisation *)

Definition cast (src tgt : dtype) (v : Z) : Z :=
  if is_integer src && is_integer tgt then
    if Ascii.eqb (kind tgt) "u" then wrap_unsigned (8 * itemsize tgt) v
    else wrap_signed (8 * itemsize tgt) v
  else numpy_cast src tgt v.

Definition astype (a : ndarray) (target : dtype) : ndarray :=
  {| dt := target; shape := shape a; data := map (cast (dt a) target) (data a) |}.

(** [a + 2 ** 16 / 2] on an [int16] array.  Python's [/] yields the float
    [32768.0] and numpy a floating array whose values are the integers
    [v + 32768]; they are below [2 ^ 24], so binary floating point holds
    them exactly and the cast to [uint16] that follows returns them.  The
    sum is kept here as an array of wide integers with the same values. *)
Definition wide : dtype := {| kind := "i"; itemsize := 8; swapped := false |}.

Definition add_scalar (a : ndarray) (s : Z) : ndarray :=
  {| dt := wide; shape := shape a; data := map (fun v => v + s) (data a) |}.

Definition flatten (a : ndarray) : ndarray :=
  {| dt := dt a; shape := [length (data a)]; data := data a |}.

Definition sample_bytes (d : dtype) (v : Z) : bytes :=
  let b := le_bytes (Z.to_nat (itemsize d)) v in
  if xorb big_endian_host (swapped d) then rev b else b.

Definition tobytes (a : ndarray) : bytes := flat_map (sample_bytes (dt a)) (data a).

(** [numpy.frombuffer(buf, dtype=numpy.uint16)]: the buffer read again as
    unsigned 16-bit samples in the byte order of the host. *)
Fixpoint frombuffer_uint16 (buf : bytes) : list Z :=
  match buf with
  | b0 :: b1 :: rest =>
      (if big_endian_host then 256 * b0 + b1 else b0 + 256 * b1)
      :: frombuffer_uint16 rest
  | _ => []
  end.

(** ** The instance under construction *)

Record sffg : Type := {
  sffg_RealWorldValueMappingSequence : option pyobj;   (* [None]: not set *)
  sffg_PixelMeasuresSequence : PixelMeasures;
  sffg_PlaneOrientationSequence : PlaneOrientation;
  RescaleIntercept : Z;
  RescaleSlope : Z;
  RescaleType : string;
  WindowCenter : Q;
  WindowWidth : Q;
  VOILUTFunction : string;
  FrameType : list string
}.

Record pffg : Type := {
  pffg_PlanePositionSlideSequence : option PlanePosition;
  pffg_PlanePositionSequence : option PlanePosition;
  pffg_DimensionIndexValues : list Z;
  pffg_RealWorldValueMappingSequence : option pyobj    (* [None]: not set *)
}.

Record ParametricMap : Type := {
  TransferSyntaxUID : UID;                  (* file_meta.TransferSyntaxUID *)
  ImageType : list string;
  SamplesPerPixel : Z;
  PhotometricInterpretation : string;
  Rows : nat;
  Columns : nat;
  SharedFunctionalGroupsSequence : list sffg;
  BitsAllocated : option Z;
  BitsStored : option Z;
  HighBit : option Z;
  PixelRepresentation : option Z;
  NumberOfFrames : option nat;
  PerFrameFunctionalGroupsSequence : option (list pffg);
  PixelData : option bytes;
  FloatPixelData : option bytes;
  DoubleFloatPixelData : option bytes
}.

(** [setattr(self, pixel_data_attr, pixel_data)] together with the two
    assignments before it (lines 556-563). *)
Definition set_frames (self : ParametricMap) (number_of_frames : nat)
  (per_frame_func_groups : list pffg) (pixel_data_attr : string)
  (pixel_data : bytes) : ParametricMap :=
  let is_attr name := String.eqb pixel_data_attr name in
  {| TransferSyntaxUID := TransferSyntaxUID self;
     ImageType := ImageType self;
     SamplesPerPixel := SamplesPerPixel self;
     PhotometricInterpretation := PhotometricInterpretation self;
     Rows := Rows self;
     Columns := Columns self;
     SharedFunctionalGroupsSequence := SharedFunctionalGroupsSequence self;
     BitsAllocated := BitsAllocated self;
     BitsStored := BitsStored self;
     HighBit := HighBit self;
     PixelRepresentation := PixelRepresentation self;
     NumberOfFrames := Some number_of_frames;
     PerFrameFunctionalGroupsSequence := Some per_frame_func_groups;
     PixelData := if is_attr "PixelData"%string then Some pixel_data else PixelData self;
     FloatPixelData :=
       if is_attr "FloatPixelData"%string then Some pixel_data else FloatPixelData self;
     DoubleFloatPixelData :=
       if is_attr "DoubleFloatPixelData"%string then Some pixel_data
       else DoubleFloatPixelData self |}.

(** ** [_encode_frame] *)

Definition _encode_frame (self : ParametricMap) (pixel_array : ndarray) : result bytes :=
  if negb (ndim pixel_array =? 2)%nat then Raise (ValueError MsgSinglePlane)
  else if is_encapsulated (TransferSyntaxUID self) then
    let samples := astype pixel_array np_uint16 in
    bits_allocated <- getattr (BitsAllocated self) ;;
    bits_stored <- getattr (BitsStored self) ;;
    pixel_representation <- getattr (PixelRepresentation self) ;;
    encode_frame samples (TransferSyntaxUID self) bits_allocated bits_stored
                 (PhotometricInterpretation self) pixel_representation
  else if dtype_eqb (dt pixel_array) np_uint8 then
    Ok (tobytes (flatten (astype pixel_array np_uint16)))
  else if Ascii.eqb (kind (dt pixel_array)) "i" then
    let pixel_array := add_scalar (astype pixel_array np_int16) (2 ^ 16 / 2) in
    Ok (tobytes (flatten (astype pixel_array np_uint16)))
  else
    Ok (tobytes (flatten pixel_array)).

(** ** [_create_frame_items] *)

Definition _create_frame_items (self : ParametricMap) (pixel_array : ndarray)
  (pixel_data_type : _PixelDataType) (real_world_value_mappings : pyobj)
  (coordinate_system : CoordinateSystemNames) (plane_positions : list PlanePosition)
  : result (list bytes * list pffg) :=
  let spatial_index_values := get_index_values coordinate_system plane_positions in
  let has_multiple_mappings := (1 <? dim pixel_array 3)%nat in
  for_range (dim pixel_array 0) (fun i =>
    for_range (dim pixel_array 3) (fun j acc =>
      let '(frames, per_frame_functional_groups) := acc in
      position <- index plane_positions i ;;
      index_values <- index spatial_index_values i ;;
      mapping <- (if has_multiple_mappings
                  then m <- getitem real_world_value_mappings j ;;
                       m <- pydicom_Sequence m ;;
                       Ok (Some m)
                  else Ok None) ;;
      let pffg_item :=
        {| pffg_PlanePositionSlideSequence :=
             match coordinate_system with SLIDE => Some position | PATIENT => None end;
           pffg_PlanePositionSequence :=
             match coordinate_system with SLIDE => None | PATIENT => Some position end;
           pffg_DimensionIndexValues := index_values;
           pffg_RealWorldValueMappingSequence := mapping |} in
      frame <- _encode_frame self (plane pixel_array i j) ;;
      Ok (frames ++ [frame], per_frame_functional_groups ++ [pffg_item])))
    ([], []).

(** ** [__init__] *)

Record arguments : Type := {
  source_images : list Src.Dataset;
  pixel_array : ndarray;
  real_world_value_mappings : pyobj;
  window_center : Q;
  window_width : Q;
  transfer_syntax_uid : UID;
  pixel_measures : option PixelMeasures;
  plane_orientation : option PlaneOrientation;
  plane_positions : option (list PlanePosition)
}.

(** Lines 376-437: the mappings against the rank and the last dimension of
    the array.  Returns the value of the shared
    [RealWorldValueMappingSequence] (if set), the array with four
    dimensions and the nested mappings. *)
Definition mapping_checks (pixel_array : ndarray) (real_world_value_mappings : pyobj)
  : result (option pyobj * ndarray * pyobj) :=
  '(shared, pixel_array, real_world_value_mappings) <-
    (if (ndim pixel_array =? 2)%nat || (ndim pixel_array =? 3)%nat then
       shared <- pydicom_Sequence real_world_value_mappings ;;
       let shared := Some shared in
       first <- except_IndexError (getitem real_world_value_mappings 0)
                                  (TypeError MsgFlatMappings) ;;
       raise_if (negb (isinstance_RealWorldValueMapping first))
                (TypeError MsgFlatMappings) ;;;
       let pixel_array :=
         if (ndim pixel_array =? 2)%nat then newaxis_back (newaxis_front pixel_array)
         else if (ndim pixel_array =? 3)%nat then newaxis_back pixel_array
         else pixel_array in
       Ok (shared, pixel_array, Sequence [real_world_value_mappings])
     else if (ndim pixel_array =? 4)%nat then
       first <- except_IndexError
                  (channel <- getitem real_world_value_mappings 0 ;; getitem channel 0)
                  (TypeError MsgNestedMappings) ;;
       raise_if (negb (isinstance_RealWorldValueMapping first))
                (TypeError MsgNestedMappings) ;;;
       Ok (None, pixel_array, real_world_value_mappings)
     else Raise (ValueError MsgArrayRank)) ;;
  count <- len real_world_value_mappings ;;
  raise_if (negb (count =? dim pixel_array 3)%nat) (ValueError MsgMappingCount) ;;;
  Ok (shared, pixel_array, real_world_value_mappings).

(** Lines 439-461: the plane positions, given or taken from the source
    images, against the first dimension of the array. *)
Definition plane_position_checks (is_multiframe : bool) (src_img : Src.Dataset)
  (source_images : list Src.Dataset) (pixel_array : ndarray)
  (plane_positions : option (list PlanePosition)) : result (list PlanePosition) :=
  match plane_positions with
  | None =>
      let plane_positions :=
        if is_multiframe then get_plane_positions_of_image src_img
        else get_plane_positions_of_series source_images in
      raise_if (negb (length plane_positions =? dim pixel_array 0)%nat)
               (ValueError MsgPlaneCountSource) ;;;
      Ok plane_positions
  | Some plane_positions =>
      raise_if (negb (length plane_positions =? dim pixel_array 0)%nat)
               (ValueError MsgPlaneCountArgument) ;;;
      Ok plane_positions
  end.

(** The local variables of the constructor that the frame loop reads. *)
Record locals : Type := {
  loc_pixel_array : ndarray;
  loc_pixel_data_type : _PixelDataType;
  loc_pixel_data_attr : string;
  loc_real_world_value_mappings : pyobj;
  loc_coordinate_system : CoordinateSystemNames;
  loc_plane_positions : list PlanePosition
}.

(** Lines 208-547: everything the constructor does before it creates the
    frame items. *)
Definition init_setup (args : arguments) : result (ParametricMap * locals) :=
  '(src_img, is_multiframe) <- source_image_checks (source_images args) ;;
  transfer_syntax_check (pixel_array args) (transfer_syntax_uid args) ;;;
  window_check (window_width args) ;;;
  let pixel_array :=
    if (ndim (pixel_array args) =? 2)%nat then newaxis_front (pixel_array args)
    else pixel_array args in
  let coordinate_system := coordinate_system_of src_img in
  let image_type := ["DERIVED"; "PRIMARY"]%string in
  '(shared, pixel_array, real_world_value_mappings) <-
    mapping_checks pixel_array (real_world_value_mappings args) ;;
  plane_positions <-
    plane_position_checks is_multiframe src_img (source_images args) pixel_array
                          (plane_positions args) ;;
  let pixel_measures :=
    match pixel_measures args with
    | None => source_pixel_measures is_multiframe src_img
    | Some given => given
    end in
  let plane_orientation :=
    match plane_orientation args with
    | None => source_plane_orientation is_multiframe coordinate_system src_img
    | Some given => given
    end in
  let sffg_item :=
    {| sffg_RealWorldValueMappingSequence := shared;
       sffg_PixelMeasuresSequence := pixel_measures;
       sffg_PlaneOrientationSequence := plane_orientation;
       RescaleIntercept :=
         if Ascii.eqb (kind (dt pixel_array)) "i" then 2 ^ 16 / 2 else 0;
       RescaleSlope := 1;
       RescaleType := "US";
       WindowCenter := window_center args;
       WindowWidth := window_width args;
       VOILUTFunction := "LINEAR_EXACT";
       FrameType := image_type |} in
  '(pixel_data_type, pixel_data_attr) <- _get_pixel_data_type_and_attr pixel_array ;;
  let is_short :=
    match pixel_data_type with SHORT | USHORT => true | _ => false end in
  let bits_allocated :=
    match pixel_data_type with
    | SHORT | USHORT => 16
    | SINGLE => 32
    | DOUBLE => 64
    end in
  let self :=
    {| TransferSyntaxUID := transfer_syntax_uid args;
       ImageType := image_type;
       SamplesPerPixel := 1;
       PhotometricInterpretation := "MONOCHROME2";
       Rows := dim pixel_array 1;
       Columns := dim pixel_array 2;
       SharedFunctionalGroupsSequence := [sffg_item];
       BitsAllocated := Some bits_allocated;
       BitsStored := if is_short then Some bits_allocated else None;
       HighBit := if is_short then Some (bits_allocated - 1) else None;
       PixelRepresentation := if is_short then Some 0 else None;
       NumberOfFrames := None;
       PerFrameFunctionalGroupsSequence := None;
       PixelData := None;
       FloatPixelData := None;
       DoubleFloatPixelData := None |} in
  Ok (self,
      {| loc_pixel_array := pixel_array;
         loc_pixel_data_type := pixel_data_type;
         loc_pixel_data_attr := pixel_data_attr;
         loc_real_world_value_mappings := real_world_value_mappings;
         loc_coordinate_system := coordinate_system;
         loc_plane_positions := plane_positions |}).

Definition __init__ (args : arguments) : result ParametricMap :=
  '(self, loc) <- init_setup args ;;
  '(frames, per_frame_func_groups) <-
    _create_frame_items self (loc_pixel_array loc) (loc_pixel_data_type loc)
                        (loc_real_world_value_mappings loc)
                        (loc_coordinate_system loc) (loc_plane_positions loc) ;;
  let pixel_data :=
    if is_encapsulated (TransferSyntaxUID self) then encapsulate frames
    else join frames in
  Ok (set_frames self (length frames) per_frame_func_groups
                 (loc_pixel_data_attr loc) pixel_data).

End ParametricMap.

(** ** Vocabulary of the statements *)

(** The results of [f] on the items of [l], in order; the first exception
    wins. *)
Fixpoint traverse {A B : Type} (f : A -> result B) (l : list A) : result (list B) :=
  match l with
  | [] => Ok []
  | a :: l' => b <- f a ;; bs <- traverse f l' ;; Ok (b :: bs)
  end.

(** The array with its four dimensions [(n, r, c, m)]: a 2D array is one
    position and one channel, a 3D array is one channel. *)
Definition as_4d (a : ndarray) : ndarray :=
  if (ndim a =? 2)%nat then newaxis_back (newaxis_front a)
  else if (ndim a =? 3)%nat then newaxis_back a
  else a.

(** One more frame and one more per-frame item at the end of the two
    lists of the frame loop. *)
Definition snoc_pair {A B : Type} (acc : list A * list B) (x : A * B)
  : list A * list B :=
  (fst acc ++ [fst x], snd acc ++ [snd x]).

(** The representation that the specification assigns to a data type, by
    the kind and the width of its elements alone: signed short for signed
    integers of 8 or 16 bits, unsigned short for unsigned integers of 8 or
    16 bits, single for floats of 32 bits, double for floats of 64 bits,
    none for any other kind or width.  The byte order plays no part. *)
Definition representation_of (d : dtype) : option _PixelDataType :=
  if Ascii.eqb (kind d) "i" && ((itemsize d =? 1) || (itemsize d =? 2)) then Some SHORT
  else if Ascii.eqb (kind d) "u" && ((itemsize d =? 1) || (itemsize d =? 2))
       then Some USHORT
  else if Ascii.eqb (kind d) "f" && (itemsize d =? 4) then Some SINGLE
  else if Ascii.eqb (kind d) "f" && (itemsize d =? 8) then Some DOUBLE
  else None.

(** A 16-bit integer type in the byte order opposite to the host's, such as
    ['>i2'] or ['>u2'] on a little-endian host. *)
Definition is_swapped_short (d : dtype) : bool :=
  is_integer d && (itemsize d =? 2) && swapped d.

Section Vocabulary.

Context {env : Collaborators}.

(** One turn of the loop of [_create_frame_items]: the encoded frame and
    the per-frame item of position [i] and channel [j]. *)
Definition frame_item (self : ParametricMap) (pixel_array : ndarray)
  (real_world_value_mappings : pyobj) (coordinate_system : CoordinateSystemNames)
  (plane_positions : list PlanePosition) (i j : nat) : result (bytes * pffg) :=
  position <- index plane_positions i ;;
  index_values <- index (get_index_values coordinate_system plane_positions) i ;;
  mapping <- (if (1 <? dim pixel_array 3)%nat
              then m <- getitem real_world_value_mappings j ;;
                   m <- pydicom_Sequence m ;;
                   Ok (Some m)
              else Ok None) ;;
  frame <- _encode_frame self (plane pixel_array i j) ;;
  Ok (frame,
      {| pffg_PlanePositionSlideSequence :=
           match coordinate_system with SLIDE => Some position | PATIENT => None end;
         pffg_PlanePositionSequence :=
           match coordinate_system with SLIDE => None | PATIENT => Some position end;
         pffg_DimensionIndexValues := index_values;
         pffg_RealWorldValueMappingSequence := mapping |}).

(** [frame] and [item] are the records of plane position [i] and channel
    [j]: the frame encodes the plane [pixel_array[i, :, :, j]], and the item
    holds the [i]-th plane position under the attribute of the coordinate
    system, the dimension index values of that position and, when there are
    several channels, the mappings of channel [j]. *)
Definition frame_record (self : ParametricMap) (loc : locals) (i j : nat)
  (frame : bytes) (item : pffg) : Prop :=
  _encode_frame self (plane (loc_pixel_array loc) i j) = Ok frame
  /\ (exists position,
        nth_error (loc_plane_positions loc) i = Some position
        /\ match loc_coordinate_system loc with
           | SLIDE => pffg_PlanePositionSlideSequence item = Some position
                      /\ pffg_PlanePositionSequence item = None
           | PATIENT => pffg_PlanePositionSequence item = Some position
                        /\ pffg_PlanePositionSlideSequence item = None
           end)
  /\ nth_error (get_index_values (loc_coordinate_system loc) (loc_plane_positions loc)) i
     = Some (pffg_DimensionIndexValues item)
  /\ (if (1 <? dim (loc_pixel_array loc) 3)%nat
      then exists mapping,
             getitem (loc_real_world_value_mappings loc) j = Ok mapping
             /\ pffg_RealWorldValueMappingSequence item = Some mapping
      else pffg_RealWorldValueMappingSequence item = None).

(** Every entry of the nested mappings is a list or tuple of data sets:
    what pydicom asks of the value that line 629 assigns to the
    [RealWorldValueMappingSequence] of a per-frame item. *)
Definition channels_are_sequences (real_world_value_mappings : pyobj) : bool :=
  match real_world_value_mappings with
  | Sequence channels =>
      forallb (fun channel =>
                 match channel with
                 | Sequence items => forallb isinstance_Dataset items
                 | _ => false
                 end) channels
  | _ => false
  end.

(** The plane positions the constructor works with: those given, or those
    of the source image(s). *)
Definition positions_of (args : arguments) (is_multiframe : bool)
  (src_img : Src.Dataset) : list PlanePosition :=
  match plane_positions args with
  | Some given => given
  | None =>
      if is_multiframe then get_plane_positions_of_image src_img
      else get_plane_positions_of_series (source_images args)
  end.

End Vocabulary.

(** ** Concrete collaborators and inputs

    Mappings are named by a string and a plane position is its slice
    coordinate.  The codec keeps the 16-bit samples as they are, so that the
    samples handed to it can be read back from the pixel data. *)
Module Example.

Definition raw_codec (samples : ndarray) (transfer_syntax_uid : UID)
  (bits_allocated bits_stored : Z) (photometric_interpretation : string)
  (pixel_representation : Z) : result bytes :=
  Ok (flat_map (le_bytes 2) (data samples)).

Definition env : Collaborators :=
  {| RealWorldValueMapping := string;
     PlanePosition := Z;
     PixelMeasures := unit;
     PlaneOrientation := unit;
     get_plane_positions_of_image := fun image =>
       match Src.NumberOfFrames image with
       | Some frames => map Z.of_nat (seq 0 (Z.to_nat frames))
       | None => []
       end;
     get_plane_positions_of_series := fun images =>
       map Z.of_nat (seq 0 (length images));
     get_index_values := fun _ positions =>
       map (fun k => [Z.of_nat k + 1]) (seq 0 (length positions));
     source_pixel_measures := fun _ _ => tt;
     source_plane_orientation := fun _ _ _ => tt;
     encode_frame := raw_codec;
     encapsulate := @concat Z;
     numpy_cast := fun _ _ v => v;
     big_endian_host := false |}.

Definition image : Src.Dataset :=
  {| Src.StudyInstanceUID := "1.2.3";
     Src.SeriesInstanceUID := "1.2.3.4";
     Src.Rows := 4;
     Src.Columns := 4;
     Src.FrameOfReferenceUID := "1.2.3.5";
     Src.NumberOfFrames := None;
     Src.has_ImageOrientationSlide := false;
     Src.has_ImageCenterPointCoordinatesSequence := false |}.

Definition rwvm (label : string) : @pyobj env := @Mapping env label.

Definition array (d : dtype) (dims : list nat) (samples : list Z) : ndarray :=
  {| dt := d; shape := dims; data := samples |}.

Definition build (a : ndarray) (mappings : @pyobj env) (width : Q)
  (syntax : UID) (positions : option (list Z)) : @arguments env :=
  {| source_images := [image];
     pixel_array := a;
     real_world_value_mappings := mappings;
     window_center := 128;
     window_width := width;
     transfer_syntax_uid := syntax;
     pixel_measures := None;
     plane_orientation := None;
     plane_positions := positions |}.

(** uint8, shape (3, 4, 4, 1), three plane positions, one mapping. *)
Definition uint8_3441 : @arguments env :=
  build (array np_uint8 [3; 4; 4; 1]%nat (map Z.of_nat (seq 0 48)))
        (Sequence [Sequence [rwvm "identity"]]) 256 ImplicitVRLittleEndian
        (Some [0; 1; 2]).

(** int16, shape (2, 1, 2, 2), two plane positions, two channels. *)
Definition int16_2122 : @arguments env :=
  build (array np_int16 [2; 1; 2; 2]%nat [-32768; -1; 0; 1; 2; 3; 32767; 4])
        (Sequence [Sequence [rwvm "linear"]; Sequence [rwvm "log"]]) 2
        ExplicitVRLittleEndian (Some [10; 20]).

(** int16, shape (1, 2), one mapping in a flat sequence, RLE Lossless. *)
Definition int16_rle : @arguments env :=
  build (array np_int16 [1; 2]%nat [-1; 0]) (Sequence [rwvm "identity"]) 2
        RLELossless (Some [0]).

(** The same array stored natively. *)
Definition int16_native : @arguments env :=
  build (array np_int16 [1; 2]%nat [-1; 0]) (Sequence [rwvm "identity"]) 2
        ImplicitVRLittleEndian (Some [0]).

(** float32, shape (1, 2), RLE Lossless requested. *)
Definition float32_rle : @arguments env :=
  build (array np_float32 [1; 2]%nat [0; 1065353216]) (Sequence [rwvm "identity"]) 2
        RLELossless (Some [0]).

(** The same request without any source image. *)
Definition float32_rle_no_source : @arguments env :=
  {| source_images := [];
     pixel_array := pixel_array float32_rle;
     real_world_value_mappings := real_world_value_mappings float32_rle;
     window_center := 128;
     window_width := 2;
     transfer_syntax_uid := RLELossless;
     pixel_measures := None;
     plane_orientation := None;
     plane_positions := Some [0] |}.

(** Window width 0, with a supported and with an unsupported transfer syntax. *)
Definition zero_width : @arguments env :=
  build (array np_uint8 [1; 2]%nat [1; 2]) (Sequence [rwvm "identity"]) 0
        ImplicitVRLittleEndian (Some [0]).

Definition zero_width_big_endian : @arguments env :=
  build (array np_uint8 [1; 2]%nat [1; 2]) (Sequence [rwvm "identity"]) 0
        ExplicitVRBigEndian (Some [0]).



(** uint8, shape (2, 1, 1, 1), with a single plane position; then the same
    with two nested mappings for the single channel. *)
Definition one_position_for_two_planes : @arguments env :=
  build (array np_uint8 [2; 1; 1; 1]%nat [1; 2]) (Sequence [Sequence [rwvm "identity"]])
        2 ImplicitVRLittleEndian (Some [0]).

Definition one_position_two_mappings : @arguments env :=
  build (array np_uint8 [2; 1; 1; 1]%nat [1; 2])
        (Sequence [Sequence [rwvm "first"]; Sequence [rwvm "second"]])
        2 ImplicitVRLittleEndian (Some [0]).

End Example.

(** ** Further inputs *)
Module Input.

(** uint8, shape (2,): a one-dimensional array. *)
Definition uint8_1d : @arguments Example.env :=
  Example.build (Example.array np_uint8 [2]%nat [1; 2])
                (Sequence [Example.rwvm "identity"]) 2 ImplicitVRLittleEndian (Some [0]).

(** float32, shape (1, 2), stored natively. *)
Definition float32_native : @arguments Example.env :=
  Example.build (Example.array np_float32 [1; 2]%nat [0; 1065353216])
                (Sequence [Example.rwvm "identity"]) 2 ImplicitVRLittleEndian (Some [0]).

(** float32 in the byte order opposite to the host's, shape (1, 2). *)
Definition float32_swapped : ndarray :=
  {| dt := {| kind := "f"; itemsize := 4; swapped := true |};
     shape := [1; 2]%nat;
     data := [0; 1065353216] |}.



(** int16, shape (2, 1, 2, 2), two channels, RLE Lossless. *)
Definition int16_rle_2122 : @arguments Example.env :=
  Example.build (pixel_array Example.int16_2122)
                (real_world_value_mappings Example.int16_2122) 2
                RLELossless (Some [10; 20]).

(** int16 in the byte order opposite to the host's (['>i2'] on a
    little-endian host), shape (1, 2); otherwise the arguments of
    [Example.int16_native]. *)
Definition int16_swapped : @arguments Example.env :=
  Example.build (Example.array {| kind := "i"; itemsize := 2; swapped := true |}
                               [1; 2]%nat [-1; 0])
                (Sequence [Example.rwvm "identity"]) 2 ImplicitVRLittleEndian (Some [0]).



End Input.

(** The call returned and did not raise. *)
Definition returns {A : Type} (r : result A) : bool :=
  match r with Ok _ => true | Raise _ => false end.

(** ** Grouping by series

    [collections.defaultdict(list)] filled by [d[key].append(value)], as an
    association list with the keys in the order of their first insertion,
    which is the order in which [d.items()] yields them. *)
Fixpoint append_to {V : Type} (d : list (string * list V)) (key : string) (value : V)
  : list (string * list V) :=
  match d with
  | [] => [(key, [value])]
  | (k, values) :: d' =>
      if String.eqb k key then (k, values ++ [value]) :: d'
      else (k, values) :: append_to d' key value
  end.

(** The keys without repetition, in the order of their first occurrence. *)
Definition distinct (keys : list string) : list string :=
  fold_left (fun seen k => if existsb (String.eqb k) seen then seen else seen ++ [k])
            keys [].

(** A reference to a SOP instance: the data set with the two attributes
    that both modules build for every instance they refer to. *)
Record SOPReference : Type := {
  ReferencedSOPClassUID : string;
  ReferencedSOPInstanceUID : string
}.

(** ** References to the source images (pm/sop.py, lines 319-338)

    The SOP class and the SOP instance of a source image are attributes that
    [Src.Dataset] does not hold; they are given as functions. *)
Section GeneralReference.

Variable SOPClassUID : Src.Dataset -> string.
Variable SOPInstanceUID : Src.Dataset -> string.

Record ReferencedSeries : Type := {
  SeriesInstanceUID : string;
  ReferencedInstanceSequence : list SOPReference
}.

(** Lines 320-327: [SourceImageSequence] and [referenced_series]. *)
Definition source_image_references (source_images : list Src.Dataset)
  : list SOPReference * list (string * list SOPReference) :=
  fold_left
    (fun '(SourceImageSequence, referenced_series) s_img =>
       let ref := {| ReferencedSOPClassUID := SOPClassUID s_img;
                     ReferencedSOPInstanceUID := SOPInstanceUID s_img |} in
       (SourceImageSequence ++ [ref],
        append_to referenced_series (Src.SeriesInstanceUID s_img) ref))
    source_images ([], []).

(** Lines 330-338: [ReferencedSeriesSequence]. *)
Definition referenced_series_sequence
  (referenced_series : list (string * list SOPReference)) : list ReferencedSeries :=
  map (fun '(series_instance_uid, referenced_images) =>
         {| SeriesInstanceUID := series_instance_uid;
            ReferencedInstanceSequence := referenced_images |})
      referenced_series.

End GeneralReference.

(** * Comprehensive 3D SR documents (highdicom.sr.sop)

    A shallow embedding of [Comprehensive3DSR.__init__].  The constructor of
    the base class and [fix_meta_info] (lines 104-114), the value
    representation of the verification time (line 148), the copy of the
    content items (lines 157-161) and [copy_attributes_from] (line 221) are
    collaborators, each of which may raise.  The data sets of the evidence
    and of the previous versions hold the four attributes that the
    constructor reads. *)
Module SR.

Inductive message : Type :=
| MsgObserverName    (* Verifying Observer Name must be specified ... *)
| MsgOrganization    (* Verifying Organization must be specified ... *)
| MsgEvidenceStudy   (* Referenced data sets must all belong to the same study. *)
| MsgPreviousStudy.  (* Previous version data sets must belong to the same study. *)

Inductive exception : Type :=
| ValueError (msg : message)
| NameError (name : string)
| IndexError
| Failure (what : string).   (* raised by a collaborator *)

Inductive result (A : Type) : Type :=
| Ok (a : A)
| Raise (e : exception).

Arguments Ok {A} a.
Arguments Raise {A} e.

Definition bind {A B : Type} (c : result A) (k : A -> result B) : result B :=
  match c with
  | Ok a => k a
  | Raise e => Raise e
  end.

Declare Scope sr_scope.
Delimit Scope sr_scope with sr.
Notation "x <- c ;; k" := (bind c (fun x => k))
  (at level 61, c at next level, right associativity) : sr_scope.
Notation "' p <- c ;; k" := (bind c (fun x => let p := x in k))
  (at level 61, p pattern, c at next level, right associativity) : sr_scope.
Notation "c ;;; k" := (bind c (fun _ => k))
  (at level 61, right associativity) : sr_scope.
Local Open Scope sr_scope.

Definition raise_if (cond : bool) (e : exception) : result unit :=
  if cond then Raise e else Ok tt.

(** [l[k]] on a list *)
Definition index {A : Type} (l : list A) (k : nat) : result A :=
  match nth_error l k with Some x => Ok x | None => Raise IndexError end.

(** A name that is bound nowhere: reading it raises [NameError]. *)
Definition unbound {A : Type} (name : string) : result A := Raise (NameError name).

Definition is_None {A : Type} (value : option A) : bool :=
  match value with None => true | Some _ => false end.

Module Evd.
Record Dataset : Type := {
  StudyInstanceUID : string;
  SeriesInstanceUID : string;
  SOPClassUID : string;
  SOPInstanceUID : string
}.
End Evd.

Record series_item : Type := {
  series_SeriesInstanceUID : string;
  series_ReferencedSOPSequence : list SOPReference
}.

Record study_item : Type := {
  study_StudyInstanceUID : string;
  study_ReferencedSeriesSequence : list series_item
}.

Record observer_item : Type := {
  VerifyingObserverName : string;
  VerifyingOrganization : string
}.

Class Environment : Type := {
  Content : Type;
  Code : Type;
  RequestedProcedure : Type;
  construct : result unit;                           (* lines 104-114 *)
  verification_date_time : result unit;              (* [DT(now)], line 148 *)
  add_content : Content -> result unit;              (* lines 157-161 *)
  copy_attributes_from : Evd.Dataset -> result unit  (* line 221 *)
}.

Section Comprehensive3DSR.

Context {environment : Environment}.

Record Comprehensive3DSR : Type := {
  SOPInstanceUID : string;
  Modality : string;
  SeriesDescription : string;
  SeriesInstanceUID : string;
  SeriesNumber : Z;
  InstanceNumber : Z;
  Manufacturer : string;
  InstitutionName : option string;                   (* [None]: not set *)
  InstitutionalDepartmentName : option string;
  CompletionFlag : string;
  VerificationFlag : string;
  VerifyingObserverSequence : option (list observer_item);
  PreliminaryFlag : string;
  ReferencedRequestSequence : option (list RequestedProcedure);
  CurrentRequestedProcedureEvidenceSequence : option (list study_item);
  PertinentOtherEvidenceSequence : option (list study_item);
  PredecessorDocumentsSequence : option (list study_item);
  PerformedProcedureCodeSequence : list Code;
  ReferencedPerformedProcedureStepSequence : list unit
}.

Record arguments : Type := {
  evidence : list Evd.Dataset;
  content : Content;
  series_instance_uid : string;
  series_number : Z;
  series_description : string;
  sop_instance_uid : string;
  instance_number : Z;
  manufacturer : string;
  is_complete : bool;
  is_final : bool;
  is_verified : bool;
  institution_name : option string;
  institutional_department_name : option string;
  verifying_observer_name : option string;
  verifying_organization : option string;
  performed_procedure_codes : option (list Code);
  requested_procedures : option (list RequestedProcedure);
  previous_versions : option (list Evd.Dataset);
  record_evidence : bool
}.

Definition reference_of (instance : Evd.Dataset) : SOPReference :=
  {| ReferencedSOPClassUID := Evd.SOPClassUID instance;
     ReferencedSOPInstanceUID := Evd.SOPInstanceUID instance |}.

(** Lines 164-174 and 192-202: the loop over the instances, each checked
    against the study of the first item of [evidence] and added to the
    collection under its series. *)
Fixpoint collect (evidence : list Evd.Dataset) (e : exception)
  (instances : list Evd.Dataset) (collection : list (string * list SOPReference))
  : result (list (string * list SOPReference)) :=
  match instances with
  | [] => Ok collection
  | instance :: rest =>
      first <- index evidence 0 ;;
      raise_if (negb (String.eqb (Evd.StudyInstanceUID instance)
                                 (Evd.StudyInstanceUID first))) e ;;;
      collect evidence e rest
              (append_to collection (Evd.SeriesInstanceUID instance)
                         (reference_of instance))
  end.

(** Lines 175-182 and 203-210: the study item with one series item for every
    key of the collection. *)
Definition study_item_of (study_instance_uid : string)
  (collection : list (string * list SOPReference)) : study_item :=
  {| study_StudyInstanceUID := study_instance_uid;
     study_ReferencedSeriesSequence :=
       map (fun '(series_uid, instance_items) =>
              {| series_SeriesInstanceUID := series_uid;
                 series_ReferencedSOPSequence := instance_items |})
           collection |}.

(** The series items of a list of instances: one for every series, in the
    order in which the series first occur, each with the references to the
    instances of its series in the order of the list. *)
Definition by_series (instances : list Evd.Dataset) : list series_item :=
  map (fun series_uid =>
         {| series_SeriesInstanceUID := series_uid;
            series_ReferencedSOPSequence :=
              map reference_of
                  (filter (fun instance =>
                             String.eqb (Evd.SeriesInstanceUID instance) series_uid)
                          instances) |})
      (distinct (map Evd.SeriesInstanceUID instances)).

(** All instances are of the study of [first]. *)
Definition same_study (first : Evd.Dataset) (instances : list Evd.Dataset) : bool :=
  forallb (fun instance =>
             String.eqb (Evd.StudyInstanceUID instance) (Evd.StudyInstanceUID first))
          instances.

Definition __init__ (args : arguments) : result Comprehensive3DSR :=
  construct ;;;
  let institutional_department :=
    match institution_name args with
    | Some _ => institutional_department_name args
    | None => None
    end in
  let completion_flag := (if is_complete args then "COMPLETE" else "PARTIAL")%string in
  '(verification_flag, verifying_observers) <-
    (if is_verified args then
       raise_if (is_None (verifying_observer_name args)) (ValueError MsgObserverName) ;;;
       raise_if (is_None (verifying_organization args)) (ValueError MsgOrganization) ;;;
       verification_date_time ;;;
       observer_item <- unbound "observer_item"%string ;;
       Ok ("VERIFIED"%string, Some [observer_item])
     else Ok ("UNVERIFIED"%string, None)) ;;
  let preliminary_flag := (if is_final args then "FINAL" else "PRELIMINARY")%string in
  add_content (content args) ;;;
  evd_collection <-
    collect (evidence args) (ValueError MsgEvidenceStudy) (evidence args) [] ;;
  first <- index (evidence args) 0 ;;
  let evd_study_item := study_item_of (Evd.StudyInstanceUID first) evd_collection in
  let '(referenced_requests, current_evidence, other_evidence) :=
    match requested_procedures args with
    | Some requested => (Some requested, Some [evd_study_item], None)
    | None =>
        (None, None, if record_evidence args then Some [evd_study_item] else None)
    end in
  predecessors <-
    match previous_versions args with
    | Some previous =>
        pre_collection <-
          collect (evidence args) (ValueError MsgPreviousStudy) previous [] ;;
        first_previous <- index previous 0 ;;
        Ok (Some [study_item_of (Evd.StudyInstanceUID first_previous) pre_collection])
    | None => Ok None
    end ;;
  source <- index (evidence args) 0 ;;
  copy_attributes_from source ;;;
  Ok {| SOPInstanceUID := sop_instance_uid args;
        Modality := "SR"%string;
        SeriesDescription := series_description args;
        SeriesInstanceUID := series_instance_uid args;
        SeriesNumber := series_number args;
        InstanceNumber := instance_number args;
        Manufacturer := manufacturer args;
        InstitutionName := institution_name args;
        InstitutionalDepartmentName := institutional_department;
        CompletionFlag := completion_flag;
        VerificationFlag := verification_flag;
        VerifyingObserverSequence := verifying_observers;
        PreliminaryFlag := preliminary_flag;
        ReferencedRequestSequence := referenced_requests;
        CurrentRequestedProcedureEvidenceSequence := current_evidence;
        PertinentOtherEvidenceSequence := other_evidence;
        PredecessorDocumentsSequence := predecessors;
        PerformedProcedureCodeSequence :=
          match performed_procedure_codes args with
          | Some codes => codes
          | None => []
          end;
        ReferencedPerformedProcedureStepSequence := [] |}.

End Comprehensive3DSR.

(** Concrete collaborators that return, and a report with evidence from two
    series of one study. *)
Module Example.

Local Open Scope string_scope.

Definition environment : Environment :=
  {| Content := unit;
     Code := string;
     RequestedProcedure := string;
     construct := Ok tt;
     verification_date_time := Ok tt;
     add_content := fun _ => Ok tt;
     copy_attributes_from := fun _ => Ok tt |}.

Definition instance (study series sop : string) : Evd.Dataset :=
  {| Evd.StudyInstanceUID := study;
     Evd.SeriesInstanceUID := series;
     Evd.SOPClassUID := "1.2.840.10008.5.1.4.1.1.2";
     Evd.SOPInstanceUID := sop |}.

Definition report (instances : list Evd.Dataset) (verified : bool)
  (requested : option (list string)) (previous : option (list Evd.Dataset))
  : @arguments environment :=
  {| evidence := instances;
     content := (tt : @Content environment);
     series_instance_uid := "1.2.3.9";
     series_number := 1;
     series_description := "report";
     sop_instance_uid := "1.2.3.9.1";
     instance_number := 1;
     manufacturer := "manufacturer";
     is_complete := true;
     is_final := true;
     is_verified := verified;
     institution_name := None;
     institutional_department_name := Some "radiology";
     verifying_observer_name := Some "observer";
     verifying_organization := Some "organization";
     performed_procedure_codes := None;
     requested_procedures := requested;
     previous_versions := previous;
     record_evidence := true |}.

(** Three instances of one study: two of series A around one of series B. *)
Definition three_instances : list Evd.Dataset :=
  [instance "1.2.3" "A" "1"; instance "1.2.3" "B" "2"; instance "1.2.3" "A" "3"].


Definition verified : @arguments environment :=
  report three_instances true None None.

Definition without_evidence : @arguments environment :=
  report [] false None None.


Definition with_no_previous : @arguments environment :=
  report three_instances false None (Some []).

End Example.

End SR.

(** * Properties *)

(** ** Results and loops *)

Ltac bind_ok H :=
  match type of H with
  | bind ?c _ = Ok _ =>
      let E := fresh "E" in
      destruct c eqn:E; [cbn [bind] in H | discriminate H]
  end.

Lemma raise_if_ok (cond : bool) (e : exception) :
  raise_if cond e = Ok tt <-> cond = false.
Proof. unfold raise_if; destruct cond; split; congruence. Qed.

Lemma raise_if_ok_inv (cond : bool) (e : exception) (u : unit) :
  raise_if cond e = Ok u -> cond = false.
Proof. unfold raise_if; destruct cond; congruence. Qed.

Lemma raise_if_true (cond : bool) (e : exception) :
  cond = true -> raise_if cond e = Raise e.
Proof. intros ->; reflexivity. Qed.

Lemma index_ok {A : Type} (l : list A) (k : nat) (x : A) :
  index l k = Ok x <-> nth_error l k = Some x.
Proof. unfold index; destruct (nth_error l k); split; congruence. Qed.

Lemma traverse_length {A B : Type} (f : A -> result B) (l : list A) (bs : list B) :
  traverse f l = Ok bs -> length bs = length l.
Proof.
  revert bs; induction l as [|a l IH]; intros bs H; cbn in H.
  - now inversion H.
  - bind_ok H. bind_ok H. inversion H; subst; cbn. f_equal; now apply IH.
Qed.

Lemma traverse_nth {A B : Type} (f : A -> result B) (l : list A) (bs : list B)
  (k : nat) (a : A) :
  traverse f l = Ok bs -> nth_error l k = Some a ->
  exists b, nth_error bs k = Some b /\ f a = Ok b.
Proof.
  revert bs k; induction l as [|x l IH]; intros bs k H Hk; cbn in H.
  - destruct k; discriminate.
  - bind_ok H. bind_ok H. inversion H; subst.
    destruct k as [|k]; cbn in Hk |- *.
    + inversion Hk; subst. eauto.
    + eapply IH; eauto.
Qed.

Lemma for_each_collect {S B : Type} (body : nat -> S -> result S)
  (f : nat -> result B) (g : S -> B -> S) (l : list nat) (s : S) :
  (forall i s, body i s = x <- f i ;; Ok (g s x)) ->
  for_each l body s = xs <- traverse f l ;; Ok (fold_left g xs s).
Proof.
  intros Hbody; revert s; induction l as [|i l IH]; intros s; cbn.
  - reflexivity.
  - rewrite Hbody. destruct (f i) as [x|e]; cbn; [|reflexivity].
    rewrite IH. destruct (traverse f l); reflexivity.
Qed.

Lemma fold_left_snoc_pair {A B : Type} (xs : list (A * B)) (acc : list A * list B) :
  fold_left snoc_pair xs acc = (fst acc ++ map fst xs, snd acc ++ map snd xs).
Proof.
  revert acc; induction xs as [|x xs IH]; intros [a b]; cbn.
  - now rewrite !app_nil_r.
  - rewrite IH; cbn. now rewrite <- !app_assoc.
Qed.

Lemma fold_left_snoc_pairs {A B : Type} (xss : list (list (A * B)))
  (acc : list A * list B) :
  fold_left (fun acc xs => fold_left snoc_pair xs acc) xss acc
  = (fst acc ++ map fst (concat xss), snd acc ++ map snd (concat xss)).
Proof.
  revert acc; induction xss as [|xs xss IH]; intros [a b]; cbn.
  - now rewrite !app_nil_r.
  - rewrite fold_left_snoc_pair, IH; cbn.
    now rewrite !map_app, !app_assoc.
Qed.

Lemma length_concat_uniform {A : Type} (m : nat) (ls : list (list A)) :
  Forall (fun l => length l = m) ls -> length (concat ls) = (length ls * m)%nat.
Proof.
  induction 1 as [|l ls Hl _ IH]; cbn; [reflexivity|].
  rewrite length_app, IH, Hl. reflexivity.
Qed.

Lemma nth_error_concat_uniform {A : Type} (m : nat) (ls : list (list A))
  (i j : nat) (l : list A) :
  Forall (fun l => length l = m) ls ->
  nth_error ls i = Some l -> (j < m)%nat ->
  nth_error (concat ls) (i * m + j) = nth_error l j.
Proof.
  intros Hall; revert i; induction Hall as [|x ls Hx _ IH]; intros i Hi Hj.
  - destruct i; discriminate.
  - destruct i as [|i]; cbn in Hi |- *.
    + inversion Hi; subst. apply nth_error_app1. lia.
    + rewrite nth_error_app2 by lia.
      replace (m + i * m + j - length x)%nat with (i * m + j)%nat by lia.
      now apply IH.
Qed.

(** ** The frame loop *)

Section FrameLoop.

Context {env : Collaborators}.

Variable self : ParametricMap.
Variable pixel_array : ndarray.
Variable pixel_data_type : _PixelDataType.
Variable real_world_value_mappings : pyobj.
Variable coordinate_system : CoordinateSystemNames.
Variable plane_positions : list PlanePosition.

Local Abbreviation item_of :=
  (frame_item self pixel_array real_world_value_mappings coordinate_system
              plane_positions).

(** The two nested loops collect the turns position by position and, for
    each position, channel by channel. *)
Lemma _create_frame_items_collect :
  _create_frame_items self pixel_array pixel_data_type real_world_value_mappings
                      coordinate_system plane_positions
  = (turns <- traverse (fun i => traverse (item_of i) (seq 0 (dim pixel_array 3)))
                       (seq 0 (dim pixel_array 0)) ;;
     Ok (map fst (concat turns), map snd (concat turns))).
Proof.
  unfold _create_frame_items, for_range.
  rewrite (for_each_collect _
             (fun i => traverse (item_of i) (seq 0 (dim pixel_array 3)))
             (fun acc xs => fold_left snoc_pair xs acc)).
  - destruct (traverse _ (seq 0 (dim pixel_array 0))) as [turns|e]; cbn; [|reflexivity].
    now rewrite fold_left_snoc_pairs.
  - intros i acc. apply for_each_collect. intros j [frames groups].
    unfold frame_item.
    destruct (index plane_positions i); cbn [bind]; [|reflexivity].
    destruct (index (get_index_values coordinate_system plane_positions) i);
      cbn [bind]; [|reflexivity].
    destruct (1 <? dim pixel_array 3)%nat; cbn [bind].
    + destruct (getitem real_world_value_mappings j) as [m|]; cbn [bind];
        [|reflexivity].
      destruct (pydicom_Sequence m); cbn [bind]; [|reflexivity].
      destruct (_encode_frame self (plane pixel_array i j)); reflexivity.
    + destruct (_encode_frame self (plane pixel_array i j)); reflexivity.
Qed.

(** A loop that ends normally has made [n * m] turns, and the turn of
    position [i] and channel [j] stands at index [i * m + j] of both lists. *)
Lemma _create_frame_items_ok (frames : list bytes) (groups : list pffg) :
  _create_frame_items self pixel_array pixel_data_type real_world_value_mappings
                      coordinate_system plane_positions = Ok (frames, groups) ->
  let n := dim pixel_array 0 in
  let m := dim pixel_array 3 in
  length frames = (n * m)%nat /\ length groups = (n * m)%nat /\
  forall i j, (i < n)%nat -> (j < m)%nat ->
    exists frame item,
      item_of i j = Ok (frame, item)
      /\ nth_error frames (i * m + j) = Some frame
      /\ nth_error groups (i * m + j) = Some item.
Proof.
  rewrite _create_frame_items_collect. intros H n m. bind_ok H.
  rename a into turns. inversion H; subst frames groups; clear H.
  assert (Hlen : length turns = n) by (apply traverse_length in E; now rewrite length_seq in E).
  assert (Hall : Forall (fun l => length l = m) turns).
  { apply Forall_forall. intros l Hin.
    destruct (In_nth_error _ _ Hin) as [i Hi].
    assert (Hi' : (i < n)%nat) by (rewrite <- Hlen; apply nth_error_Some; congruence).
    assert (Hs : nth_error (seq 0 n) i = Some i).
    { rewrite nth_error_nth' with (d := 0%nat) by (now rewrite length_seq).
      now rewrite seq_nth. }
    destruct (traverse_nth _ _ _ _ _ E Hs) as (l' & Hl' & Ht).
    rewrite Hi in Hl'. inversion Hl'; subst l'.
    apply traverse_length in Ht. now rewrite length_seq in Ht. }
  rewrite !length_map, (length_concat_uniform m) by exact Hall.
  rewrite Hlen. repeat split; try reflexivity.
  intros i j Hi Hj.
  assert (Hsi : nth_error (seq 0 n) i = Some i).
  { rewrite nth_error_nth' with (d := 0%nat) by (now rewrite length_seq).
    now rewrite seq_nth. }
  assert (Hsj : nth_error (seq 0 m) j = Some j).
  { rewrite nth_error_nth' with (d := 0%nat) by (now rewrite length_seq).
    now rewrite seq_nth. }
  destruct (traverse_nth _ _ _ _ _ E Hsi) as (l & Hl & Ht).
  destruct (traverse_nth _ _ _ _ _ Ht Hsj) as ([frame item] & Hx & Hitem).
  exists frame, item. split; [exact Hitem|].
  rewrite !nth_error_map, (nth_error_concat_uniform m turns i j l) by assumption.
  rewrite Hx. split; reflexivity.
Qed.

End FrameLoop.

(** ** The checks of the constructor *)

Lemma shape_of_ndim_4 (a : ndarray) :
  ndim a = 4%nat -> shape a = [dim a 0; dim a 1; dim a 2; dim a 3].
Proof.
  unfold ndim, dim. destruct (shape a) as [|n [|r [|c [|m [|x l]]]]]; cbn; intros H;
    try discriminate; reflexivity.
Qed.

Lemma ndim_as_4d (a : ndarray) :
  (ndim a = 2 \/ ndim a = 3 \/ ndim a = 4)%nat -> ndim (as_4d a) = 4%nat.
Proof.
  unfold as_4d, ndim, newaxis_back, newaxis_front.
  intros [H | [H | H]]; rewrite H; cbn; try rewrite length_app; cbn; lia.
Qed.

Lemma dim_3_as_4d (a : ndarray) :
  (ndim a = 2 \/ ndim a = 3)%nat -> dim (as_4d a) 3 = 1%nat.
Proof.
  unfold as_4d, ndim, dim, newaxis_back, newaxis_front.
  destruct (shape a) as [|n [|r [|c [|m l]]]]; cbn; intros [H | H];
    try discriminate; reflexivity.
Qed.

Section Checks.

Context {env : Collaborators}.

Lemma pydicom_Sequence_ok (iterable sequence : pyobj) :
  pydicom_Sequence iterable = Ok sequence ->
  sequence = iterable
  /\ exists items, iterable = Sequence items
                   /\ forallb isinstance_Dataset items = true.
Proof.
  destruct iterable as [item| |items|]; cbn [pydicom_Sequence]; try discriminate.
  intros H. bind_ok H. inversion H; subst sequence.
  apply raise_if_ok_inv, negb_false_iff in E. split; [reflexivity|].
  now exists items.
Qed.

Lemma mapping_checks_ok (a : ndarray) (mappings : pyobj) (shared : option pyobj)
  (a4 : ndarray) (nested : pyobj) :
  mapping_checks a mappings = Ok (shared, a4, nested) ->
  len nested = Ok (dim a4 3)
  /\ (((ndim a = 2 \/ ndim a = 3)%nat
       /\ shared = Some mappings /\ nested = Sequence [mappings] /\ a4 = as_4d a
       /\ exists item, getitem mappings 0 = Ok (Mapping item)
                       /\ pydicom_Sequence mappings = Ok mappings)
      \/ (ndim a = 4%nat /\ shared = None /\ nested = mappings /\ a4 = a
          /\ exists channel item,
               getitem mappings 0 = Ok channel /\ getitem channel 0 = Ok (Mapping item))).
Proof.
  unfold mapping_checks. intros H. bind_ok H. destruct a0 as [[sh arr] nst].
  bind_ok H. bind_ok H. inversion H; subst sh arr nst; clear H.
  apply raise_if_ok_inv, negb_false_iff, Nat.eqb_eq in E1. subst a0.
  split; [exact E0|]. clear E0.
  destruct ((ndim a =? 2)%nat || (ndim a =? 3)%nat) eqn:Hflat.
  - left. bind_ok E. rename a0 into sequence. pose proof E0 as Hseq.
    apply pydicom_Sequence_ok in E0. destruct E0 as [-> _].
    bind_ok E. bind_ok E. inversion E; subst shared a4 nested; clear E.
    apply raise_if_ok_inv, negb_false_iff in E1.
    assert (Hn : (ndim a = 2 \/ ndim a = 3)%nat).
    { apply orb_true_iff in Hflat. destruct Hflat as [H|H]; apply Nat.eqb_eq in H; auto. }
    split; [exact Hn|]. split; [reflexivity|]. split; [reflexivity|]. split.
    + unfold as_4d. destruct Hn as [Hn|Hn]; rewrite Hn; reflexivity.
    + destruct a0 as [item| | |]; try discriminate. exists item.
      split; [|reflexivity].
      destruct (getitem mappings 0) as [x|[]]; cbn in E0; congruence.
  - right. apply orb_false_iff in Hflat. destruct Hflat as [H2 H3].
    destruct (ndim a =? 4)%nat eqn:H4; [|discriminate].
    apply Nat.eqb_eq in H4.
    bind_ok E. bind_ok E. inversion E; subst shared a4 nested; clear E.
    apply raise_if_ok_inv, negb_false_iff in E1.
    split; [exact H4|]. do 3 (split; [reflexivity|]).
    destruct a0 as [item| | |]; try discriminate.
    destruct (getitem mappings 0) as [channel|e] eqn:Hc; cbn [bind] in E0.
    + exists channel, item. split; [reflexivity|].
      destruct (getitem channel 0) as [x|[]]; cbn in E0; congruence.
    + destruct e; discriminate.
Qed.

Lemma plane_position_checks_ok (is_multiframe : bool) (src_img : Src.Dataset)
  (args : arguments) (a4 : ndarray) (positions : list PlanePosition) :
  plane_position_checks is_multiframe src_img (source_images args) a4
                        (plane_positions args) = Ok positions ->
  positions = positions_of args is_multiframe src_img
  /\ length positions = dim a4 0.
Proof.
  unfold plane_position_checks, positions_of.
  destruct (plane_positions args) as [given|]; intros H; bind_ok H;
    inversion H; subst; clear H;
    apply raise_if_ok_inv, negb_false_iff, Nat.eqb_eq in E; auto.
Qed.

(** What a successful set-up has established. *)
Lemma init_setup_ok (args : arguments) (self : ParametricMap) (loc : locals) :
  init_setup args = Ok (self, loc) ->
  exists src_img is_multiframe shared item,
    source_image_checks (source_images args) = Ok (src_img, is_multiframe)
    /\ transfer_syntax_check (pixel_array args) (transfer_syntax_uid args) = Ok tt
    /\ window_check (window_width args) = Ok tt
    /\ mapping_checks (if (ndim (pixel_array args) =? 2)%nat
                       then newaxis_front (pixel_array args) else pixel_array args)
                      (real_world_value_mappings args)
       = Ok (shared, loc_pixel_array loc, loc_real_world_value_mappings loc)
    /\ loc_plane_positions loc = positions_of args is_multiframe src_img
    /\ length (loc_plane_positions loc) = dim (loc_pixel_array loc) 0
    /\ loc_coordinate_system loc = coordinate_system_of src_img
    /\ _get_pixel_data_type_and_attr (loc_pixel_array loc)
       = Ok (loc_pixel_data_type loc, loc_pixel_data_attr loc)
    /\ TransferSyntaxUID self = transfer_syntax_uid args
    /\ PhotometricInterpretation self = "MONOCHROME2"%string
    /\ Rows self = dim (loc_pixel_array loc) 1
    /\ Columns self = dim (loc_pixel_array loc) 2
    /\ SharedFunctionalGroupsSequence self = [item]
    /\ sffg_RealWorldValueMappingSequence item = shared
    /\ RescaleIntercept item
       = (if Ascii.eqb (kind (dt (loc_pixel_array loc))) "i" then 2 ^ 15 else 0)
    /\ RescaleSlope item = 1
    /\ BitsAllocated self
       = Some (match loc_pixel_data_type loc with
               | SHORT | USHORT => 16 | SINGLE => 32 | DOUBLE => 64 end)
    /\ BitsStored self
       = match loc_pixel_data_type loc with
         | SHORT | USHORT => Some 16 | _ => None end
    /\ HighBit self
       = match loc_pixel_data_type loc with
         | SHORT | USHORT => Some 15 | _ => None end
    /\ PixelRepresentation self
       = match loc_pixel_data_type loc with
         | SHORT | USHORT => Some 0 | _ => None end
    /\ PixelData self = None /\ FloatPixelData self = None
    /\ DoubleFloatPixelData self = None.
Proof.
  unfold init_setup. intros H.
  bind_ok H. destruct a as [src_img is_multiframe].
  bind_ok H. destruct a. bind_ok H. destruct a.
  bind_ok H. destruct a as [[shared a4] nested].
  bind_ok H. rename a into positions.
  bind_ok H. destruct a as [pixel_data_type pixel_data_attr].
  inversion H; subst self loc; clear H. cbn.
  apply plane_position_checks_ok in E3. destruct E3 as [Hp Hl].
  eexists src_img, is_multiframe, shared, _.
  repeat (split; [first [reflexivity | eassumption]|]).
  repeat split; try reflexivity; destruct pixel_data_type; reflexivity.
Qed.

End Checks.

Lemma _get_pixel_data_type_and_attr_attr (a : ndarray) (t : _PixelDataType)
  (attr : string) :
  _get_pixel_data_type_and_attr a = Ok (t, attr) -> attr = _pixel_data_type_map t.
Proof.
  unfold _get_pixel_data_type_and_attr. intros H.
  repeat match type of H with
         | (if ?c then _ else _) = _ => destruct c
         end; inversion H; reflexivity.
Qed.

Lemma as_4d_promoted (a : ndarray) :
  as_4d (if (ndim a =? 2)%nat then newaxis_front a else a) = as_4d a.
Proof.
  destruct (ndim a =? 2)%nat eqn:H; [|reflexivity].
  apply Nat.eqb_eq in H. unfold as_4d, ndim in *. cbn. now rewrite H.
Qed.

Lemma ndim_promoted_4 (a : ndarray) :
  ndim (if (ndim a =? 2)%nat then newaxis_front a else a) = 4%nat ->
  (if (ndim a =? 2)%nat then newaxis_front a else a) = a /\ ndim a = 4%nat.
Proof.
  destruct (ndim a =? 2)%nat eqn:H; [|auto].
  apply Nat.eqb_eq in H. unfold ndim in *. cbn. lia.
Qed.

Lemma ndim_promoted_flat (a : ndarray) :
  (ndim (if (ndim a =? 2)%nat then newaxis_front a else a) = 2
   \/ ndim (if (ndim a =? 2)%nat then newaxis_front a else a) = 3)%nat ->
  (ndim a = 2 \/ ndim a = 3)%nat.
Proof.
  destruct (ndim a =? 2)%nat eqn:H; [apply Nat.eqb_eq in H; auto | auto].
Qed.

Section Claims.

Context {env : Collaborators}.

Lemma frame_item_record (self : ParametricMap) (loc : locals) (i j : nat)
  (frame : bytes) (item : pffg) :
  frame_item self (loc_pixel_array loc) (loc_real_world_value_mappings loc)
             (loc_coordinate_system loc) (loc_plane_positions loc) i j
  = Ok (frame, item) ->
  frame_record self loc i j frame item.
Proof.
  unfold frame_item, frame_record. intros H.
  bind_ok H. apply index_ok in E. bind_ok H. apply index_ok in E0.
  bind_ok H. bind_ok H. inversion H; subst frame item; clear H.
  cbn [pffg_PlanePositionSlideSequence pffg_PlanePositionSequence
       pffg_DimensionIndexValues pffg_RealWorldValueMappingSequence].
  split; [reflexivity|]. split.
  - exists a. split; [exact E|]. destruct (loc_coordinate_system loc); auto.
  - split; [exact E0|].
    destruct (1 <? dim (loc_pixel_array loc) 3)%nat.
    + bind_ok E1. bind_ok E1.
      match goal with
      | Hs : pydicom_Sequence _ = Ok _ |- _ =>
          apply pydicom_Sequence_ok in Hs; destruct Hs as [-> _]
      end.
      inversion E1; subst. eexists; split; reflexivity.
    + now inversion E1.
Qed.

(** The array the frame loop works on is the input array with its four
    dimensions; its first dimension counts the plane positions and its last
    the nested mappings. *)
Lemma init_setup_shape (args : arguments) (self : ParametricMap) (loc : locals) :
  init_setup args = Ok (self, loc) ->
  loc_pixel_array loc = as_4d (pixel_array args)
  /\ ndim (loc_pixel_array loc) = 4%nat
  /\ length (loc_plane_positions loc) = dim (loc_pixel_array loc) 0
  /\ len (loc_real_world_value_mappings loc) = Ok (dim (loc_pixel_array loc) 3).
Proof.
  intros H. apply init_setup_ok in H.
  destruct H as (src_img & is_multiframe & shared & item & _ & _ & _ & Hm & _ & Hl & _).
  apply mapping_checks_ok in Hm. destruct Hm as [Hlen Hcase].
  assert (H4 : loc_pixel_array loc = as_4d (pixel_array args)).
  { destruct Hcase as [(_ & _ & _ & Ha & _) | (Hn & _ & _ & Ha & _)].
    - now rewrite Ha, as_4d_promoted.
    - apply ndim_promoted_4 in Hn. destruct Hn as [Heq Hn].
      rewrite Ha, Heq. unfold as_4d. now rewrite Hn. }
  split; [exact H4|]. split; [|split; assumption].
  destruct Hcase as [(Hn & _ & _ & Ha & _) | (Hn & _ & _ & Ha & _)].
  - rewrite Ha. apply ndim_as_4d. tauto.
  - now rewrite Ha.
Qed.

(** C1.  In every build that succeeds, with [n] plane positions, [m]
    nested mappings and the array of shape [(n, r, c, m)], the number of
    frames is [n * m], and the encoded frames and the per-frame functional
    groups are ordered by position first and channel second: the records at
    index [i * m + j] are those of plane position [i] and channel [j]. *)
Theorem frames_are_position_major (args : arguments) (doc : ParametricMap) :
  __init__ args = Ok doc ->
  exists self loc frames groups n r c m,
    init_setup args = Ok (self, loc)
    /\ loc_pixel_array loc = as_4d (pixel_array args)
    /\ shape (loc_pixel_array loc) = [n; r; c; m]
    /\ length (loc_plane_positions loc) = n
    /\ len (loc_real_world_value_mappings loc) = Ok m
    /\ _create_frame_items self (loc_pixel_array loc) (loc_pixel_data_type loc)
                           (loc_real_world_value_mappings loc)
                           (loc_coordinate_system loc) (loc_plane_positions loc)
       = Ok (frames, groups)
    /\ NumberOfFrames doc = Some (n * m)%nat
    /\ length frames = (n * m)%nat
    /\ PerFrameFunctionalGroupsSequence doc = Some groups
    /\ length groups = (n * m)%nat
    /\ forall i j, (i < n)%nat -> (j < m)%nat ->
         exists frame item,
           nth_error frames (i * m + j) = Some frame
           /\ nth_error groups (i * m + j) = Some item
           /\ frame_record self loc i j frame item.
Proof.
  unfold __init__. intros H. bind_ok H. destruct a as [self loc].
  bind_ok H. destruct a as [frames groups]. inversion H; subst doc; clear H.
  destruct (init_setup_shape _ _ _ E) as (Ha & Hn & Hp & Hm).
  pose proof (_create_frame_items_ok _ _ _ _ _ _ _ _ E0) as (Hf & Hg & Hnth).
  exists self, loc, frames, groups,
    (dim (loc_pixel_array loc) 0), (dim (loc_pixel_array loc) 1),
    (dim (loc_pixel_array loc) 2), (dim (loc_pixel_array loc) 3).
  split; [reflexivity|]. split; [exact Ha|].
  split; [now apply shape_of_ndim_4|]. split; [exact Hp|]. split; [exact Hm|].
  split; [exact E0|]. cbn. rewrite Hf.
  split; [reflexivity|]. split; [reflexivity|]. split; [reflexivity|].
  split; [exact Hg|].
  intros i j Hi Hj. destruct (Hnth i j Hi Hj) as (frame & item & Hitem & Hfr & Hgr).
  exists frame, item. repeat split; try assumption.
  all: now apply frame_item_record in Hitem; destruct Hitem as (? & ? & ? & ?).
Qed.

(** *** Serialisation of 16-bit samples *)

Lemma u16_bytes (v : Z) : v mod 256 + 256 * ((v / 256) mod 256) = v mod 2 ^ 16.
Proof.
  change (2 ^ 16) with (256 * 256). rewrite Z.rem_mul_r by lia. reflexivity.
Qed.

Lemma frombuffer_sample_bytes (d : dtype) (v : Z) (rest : bytes) :
  itemsize d = 2 -> swapped d = false ->
  frombuffer_uint16 (sample_bytes d v ++ rest) = v mod 2 ^ 16 :: frombuffer_uint16 rest.
Proof.
  intros Hs Hw. unfold sample_bytes. rewrite Hs, Hw, xorb_false_r.
  change (Z.to_nat 2) with 2%nat. cbn [le_bytes].
  destruct big_endian_host eqn:Hb; cbn [rev app frombuffer_uint16]; rewrite Hb;
    rewrite <- (u16_bytes v); apply (f_equal2 cons); solve [ring | reflexivity].
Qed.

Lemma frombuffer_tobytes_app (d : dtype) (samples : list Z) (rest : bytes) :
  itemsize d = 2 -> swapped d = false ->
  frombuffer_uint16 (flat_map (sample_bytes d) samples ++ rest)
  = map (fun v => v mod 2 ^ 16) samples ++ frombuffer_uint16 rest.
Proof.
  intros Hs Hw. induction samples as [|v samples IH]; cbn [flat_map map app].
  - reflexivity.
  - rewrite <- app_assoc, frombuffer_sample_bytes, IH by assumption. reflexivity.
Qed.

Lemma length_tobytes_u16 (d : dtype) (samples : list Z) :
  itemsize d = 2 ->
  length (flat_map (sample_bytes d) samples) = (2 * length samples)%nat.
Proof.
  intros Hs. induction samples as [|v samples IH]; cbn [flat_map length].
  - reflexivity.
  - rewrite length_app, IH. unfold sample_bytes. rewrite Hs.
    change (Z.to_nat 2) with 2%nat. cbn [le_bytes].
    destruct (xorb _ _); cbn [rev app length]; lia.
Qed.

Lemma frombuffer_concat (frames : list bytes) :
  Forall (fun f => forall rest,
            frombuffer_uint16 (f ++ rest)
            = frombuffer_uint16 f ++ frombuffer_uint16 rest) frames ->
  frombuffer_uint16 (concat frames) = concat (map frombuffer_uint16 frames).
Proof.
  induction 1 as [|f frames Hf _ IH]; cbn [concat map]; [reflexivity|].
  now rewrite Hf, IH.
Qed.

(** *** Planes *)

Lemma length_plane_data (a : ndarray) (i j : nat) :
  length (data (plane a i j)) = (dim a 1 * dim a 2)%nat.
Proof.
  cbn [plane data]. rewrite flat_map_concat_map.
  rewrite (length_concat_uniform (dim a 2)).
  - now rewrite length_map, length_seq.
  - apply Forall_forall. intros l Hl. apply in_map_iff in Hl.
    destruct Hl as (r & <- & _). now rewrite length_map, length_seq.
Qed.

Lemma nth_error_seq_lt (n k : nat) : (k < n)%nat -> nth_error (seq 0 n) k = Some k.
Proof.
  intros H. rewrite nth_error_nth' with (d := 0%nat) by (now rewrite length_seq).
  now rewrite seq_nth.
Qed.

Lemma plane_data_nth (a : ndarray) (i j row col : nat) :
  (row < dim a 1)%nat -> (col < dim a 2)%nat ->
  nth_error (data (plane a i j)) (row * dim a 2 + col) = Some (item4 a i row col j).
Proof.
  intros Hr Hc. cbn [plane data]. rewrite flat_map_concat_map.
  rewrite (nth_error_concat_uniform (dim a 2) _ row col
             (map (fun c => item4 a i row c j) (seq 0 (dim a 2)))).
  - rewrite nth_error_map, nth_error_seq_lt by exact Hc. reflexivity.
  - apply Forall_forall. intros l Hl. apply in_map_iff in Hl.
    destruct Hl as (r & <- & _). now rewrite length_map, length_seq.
  - rewrite nth_error_map, nth_error_seq_lt by exact Hr. reflexivity.
  - exact Hc.
Qed.

(** Every frame of a loop that ended normally is the frame of some
    position and channel. *)
Lemma _create_frame_items_frames (self : ParametricMap) (a : ndarray)
  (t : _PixelDataType) (mappings : pyobj) (cs : CoordinateSystemNames)
  (positions : list PlanePosition) (frames : list bytes) (groups : list pffg)
  (k : nat) (frame : bytes) :
  _create_frame_items self a t mappings cs positions = Ok (frames, groups) ->
  nth_error frames k = Some frame ->
  exists i j, (i < dim a 0)%nat /\ (j < dim a 3)%nat /\ k = (i * dim a 3 + j)%nat
              /\ _encode_frame self (plane a i j) = Ok frame.
Proof.
  intros H Hk. apply _create_frame_items_ok in H. destruct H as (Hlen & _ & Hnth).
  assert (Hlt : (k < dim a 0 * dim a 3)%nat)
    by (rewrite <- Hlen; apply nth_error_Some; congruence).
  assert (Hm : (dim a 3 <> 0)%nat) by lia.
  assert (Hj : (k mod dim a 3 < dim a 3)%nat) by now apply Nat.mod_upper_bound.
  assert (Hi : (k / dim a 3 < dim a 0)%nat)
    by (apply Nat.Div0.div_lt_upper_bound; lia).
  assert (Hk' : k = (k / dim a 3 * dim a 3 + k mod dim a 3)%nat)
    by (rewrite (Nat.div_mod_eq k (dim a 3)) at 1; lia).
  exists (k / dim a 3)%nat, (k mod dim a 3)%nat. repeat split; try assumption.
  destruct (Hnth _ _ Hi Hj) as (frame' & item & Hitem & Hf & _).
  rewrite <- Hk', Hk in Hf. inversion Hf; subst frame'.
  unfold frame_item in Hitem. repeat bind_ok Hitem. now inversion Hitem.
Qed.

(** *** Native frames of unsigned samples *)

Lemma uint16_inv (d : dtype) :
  dtype_in d [np_uint8; np_uint16] = true -> dtype_eqb d np_uint8 = false ->
  itemsize d = 2 /\ swapped d = false.
Proof.
  unfold dtype_in. cbn [existsb]. intros H H8. rewrite H8, orb_false_r in H.
  cbn [orb] in H. unfold dtype_eqb in H. cbn [kind itemsize swapped np_uint16] in H.
  apply andb_true_iff in H. destruct H as [H Hs].
  apply andb_true_iff in H. destruct H as [_ Hi].
  apply Z.eqb_eq in Hi. rewrite Hi in Hs. cbn in Hs.
  split; [exact Hi|]. destruct (swapped d); [discriminate|reflexivity].
Qed.

Lemma native_unsigned_frame (self : ParametricMap) (p : ndarray) :
  is_encapsulated (TransferSyntaxUID self) = false ->
  ndim p = 2%nat -> kind (dt p) = "u"%char ->
  dtype_in (dt p) [np_uint8; np_uint16] = true ->
  exists frame,
    _encode_frame self p = Ok frame
    /\ length frame = (2 * length (data p))%nat
    /\ forall rest,
         frombuffer_uint16 (frame ++ rest)
         = map (fun v => v mod 2 ^ 16) (data p) ++ frombuffer_uint16 rest.
Proof.
  intros Hnative Hndim Hkind Hin. unfold _encode_frame.
  rewrite Hndim, Hnative. cbn [Nat.eqb negb].
  destruct (dtype_eqb (dt p) np_uint8) eqn:H8.
  - eexists. split; [reflexivity|]. unfold tobytes, flatten, astype. cbn [dt data]. split.
    + now rewrite length_tobytes_u16, length_map.
    + intros rest. rewrite frombuffer_tobytes_app by reflexivity.
      rewrite map_map. f_equal. apply map_ext. intros v.
      unfold cast, is_integer. rewrite Hkind. cbn. unfold wrap_unsigned.
      now rewrite Z.mod_mod.
  - rewrite Hkind. cbn [Ascii.eqb Bool.eqb andb].
    destruct (uint16_inv _ Hin H8) as [Hs Hw].
    eexists. split; [reflexivity|]. unfold tobytes, flatten. cbn [dt data]. split.
    + now rewrite length_tobytes_u16.
    + intros rest. now rewrite frombuffer_tobytes_app.
Qed.

Lemma unsigned_type_ok (a : ndarray) (t : _PixelDataType) (attr : string) :
  _get_pixel_data_type_and_attr a = Ok (t, attr) -> kind (dt a) = "u"%char ->
  dtype_in (dt a) [np_uint8; np_uint16] = true /\ t = USHORT
  /\ attr = "PixelData"%string.
Proof.
  unfold _get_pixel_data_type_and_attr. intros H Hk. rewrite Hk in H.
  cbn [Ascii.eqb Bool.eqb andb] in H.
  destruct (dtype_in (dt a) [np_uint8; np_uint16]); cbn [negb] in H;
    inversion H; auto.
Qed.

Lemma dt_as_4d (a : ndarray) : dt (as_4d a) = dt a.
Proof. unfold as_4d. destruct (ndim a =? 2)%nat, (ndim a =? 3)%nat; reflexivity. Qed.

Lemma data_as_4d (a : ndarray) : data (as_4d a) = data a.
Proof. unfold as_4d. destruct (ndim a =? 2)%nat, (ndim a =? 3)%nat; reflexivity. Qed.

Lemma unsigned_samples_in_range (a : ndarray) (k : nat) :
  ndarray_ok a = true -> kind (dt a) = "u"%char ->
  dtype_in (dt a) [np_uint8; np_uint16] = true ->
  0 <= nth k (data a) 0 < 2 ^ 16.
Proof.
  intros Hok Hk Hin. unfold ndarray_ok in Hok.
  apply andb_true_iff in Hok. destruct Hok as [_ Hall].
  assert (Hsize : itemsize (dt a) = 1 \/ itemsize (dt a) = 2).
  { unfold dtype_in in Hin. cbn [existsb] in Hin. rewrite orb_false_r in Hin.
    apply orb_true_iff in Hin. unfold dtype_eqb in Hin.
    destruct Hin as [H|H]; apply andb_true_iff in H; destruct H as [H _];
      apply andb_true_iff in H; destruct H as [_ H]; apply Z.eqb_eq in H;
      cbn in H; auto. }
  destruct (Nat.lt_ge_cases k (length (data a))) as [Hlt|Hge].
  - rewrite forallb_forall in Hall. specialize (Hall _ (nth_In _ 0 Hlt)).
    unfold in_range in Hall. rewrite Hk in Hall. cbn [Ascii.eqb Bool.eqb andb] in Hall.
    apply andb_true_iff in Hall. destruct Hall as [H0 H1].
    apply Z.leb_le in H0. apply Z.ltb_lt in H1.
    destruct Hsize as [Hs|Hs]; rewrite Hs in H1; cbn in H1; lia.
  - rewrite nth_overflow by exact Hge. lia.
Qed.

(** C4.  In every build from an unsigned integer array that succeeds in
    native mode, the pixel data are [2] bytes per sample of [n * m] frames
    of [r * c] samples, and read again as unsigned 16-bit samples they are
    the values of the array: the sample of row [row] and column [col] of
    frame [i * m + j] is [pixel_array[i, row, col, j]] ([uint8] values
    included, which are stored in 16 bits).  A [uint8] array of shape
    [(3, 4, 4, 1)] gives [3] frames and [3 * 4 * 4 * 2 = 96] bytes. *)
Theorem native_unsigned_round_trip (args : arguments) (doc : ParametricMap) :
  __init__ args = Ok doc ->
  kind (dt (pixel_array args)) = "u"%char ->
  is_encapsulated (transfer_syntax_uid args) = false ->
  ndarray_ok (pixel_array args) = true ->
  exists buf n r c m,
    shape (as_4d (pixel_array args)) = [n; r; c; m]
    /\ PixelData doc = Some buf
    /\ NumberOfFrames doc = Some (n * m)%nat
    /\ length buf = (n * m * (r * c) * 2)%nat
    /\ (forall i row col j,
          (i < n)%nat -> (row < r)%nat -> (col < c)%nat -> (j < m)%nat ->
          nth_error (frombuffer_uint16 buf) (((i * m + j) * r + row) * c + col)
          = Some (item4 (as_4d (pixel_array args)) i row col j))
    /\ (dt (pixel_array args) = np_uint8 ->
        shape (pixel_array args) = [3; 4; 4; 1]%nat ->
        NumberOfFrames doc = Some 3%nat /\ length buf = 96%nat).
Proof.
  unfold __init__. intros H Hkind Hnative Hok.
  bind_ok H. destruct a as [self loc]. bind_ok H. destruct a as [frames groups].
  inversion H; subst doc; clear H.
  destruct (init_setup_shape _ _ _ E) as (Ha & Hn4 & _ & _).
  destruct (init_setup_ok _ _ _ E) as
    (_ & _ & _ & _ & _ & _ & _ & _ & _ & _ & _ & Htype & Hts & _).
  set (a4 := loc_pixel_array loc) in *.
  assert (Hk4 : kind (dt a4) = "u"%char) by (rewrite Ha, dt_as_4d; exact Hkind).
  destruct (unsigned_type_ok _ _ _ Htype Hk4) as (Hin & _ & Hattr).
  rewrite Hts, Hnative. rewrite Hattr.
  pose proof (_create_frame_items_ok _ _ _ _ _ _ _ _ E0) as (Hlen & _ & Hnth).
  fold a4 in Hlen, Hnth.
  set (n := dim a4 0) in *. set (m := dim a4 3) in *.
  set (r := dim a4 1). set (c := dim a4 2).
  assert (Hframe : forall k frame, nth_error frames k = Some frame ->
            exists i j, (i < n)%nat /\ (j < m)%nat /\ k = (i * m + j)%nat
              /\ length frame = (2 * (r * c))%nat
              /\ forall rest, frombuffer_uint16 (frame ++ rest)
                   = map (fun v => v mod 2 ^ 16) (data (plane a4 i j))
                     ++ frombuffer_uint16 rest).
  { intros k frame Hk.
    destruct (_create_frame_items_frames _ _ _ _ _ _ _ _ _ _ E0 Hk)
      as (i & j & Hi & Hj & Hkij & Henc).
    exists i, j. repeat (split; [assumption|]).
    destruct (native_unsigned_frame self (plane a4 i j)) as (frame' & He & Hl & Hr);
      try assumption; try reflexivity.
    - now rewrite Hts.
    - fold a4 in Henc. rewrite Henc in He. inversion He; subst frame'.
      rewrite length_plane_data in Hl. split; assumption. }
  assert (Hall : Forall (fun f => forall rest,
            frombuffer_uint16 (f ++ rest)
            = frombuffer_uint16 f ++ frombuffer_uint16 rest) frames).
  { apply Forall_forall. intros f Hf. destruct (In_nth_error _ _ Hf) as [k Hk].
    destruct (Hframe _ _ Hk) as (i & j & _ & _ & _ & _ & Hr). intros rest.
    rewrite Hr. f_equal. rewrite <- (app_nil_r f) at 1. rewrite Hr. cbn.
    now rewrite app_nil_r. }
  assert (Hbytes : Forall (fun f => length f = (r * c * 2)%nat) frames).
  { apply Forall_forall. intros f Hf. destruct (In_nth_error _ _ Hf) as [k Hk].
    destruct (Hframe _ _ Hk) as (i & j & _ & _ & _ & Hl & _). lia. }
  assert (Hsamples : Forall (fun l => length l = (r * c)%nat)
                            (map frombuffer_uint16 frames)).
  { apply Forall_forall. intros l Hl. apply in_map_iff in Hl.
    destruct Hl as (f & <- & Hf). destruct (In_nth_error _ _ Hf) as [k Hk].
    destruct (Hframe _ _ Hk) as (i & j & _ & _ & _ & _ & Hr).
    rewrite <- (app_nil_r f), Hr. cbn. rewrite app_nil_r, length_map.
    apply length_plane_data. }
  exists (join frames), n, r, c, m. cbn.
  assert (Hshape : shape (as_4d (pixel_array args)) = [n; r; c; m])
    by (rewrite <- Ha; now apply shape_of_ndim_4).
  assert (Hbuf : length (join frames) = (n * m * (r * c) * 2)%nat).
  { unfold join. rewrite (length_concat_uniform (r * c * 2)) by exact Hbytes.
    unfold bytes in *. rewrite Hlen. lia. }
  split; [exact Hshape|]. split; [reflexivity|].
  split; [now rewrite Hlen|]. split; [exact Hbuf|]. split.
  - intros i row col j Hi Hrow Hcol Hj.
    destruct (Hnth i j Hi Hj) as (frame & item & _ & Hf & _).
    destruct (Hframe _ _ Hf) as (i' & j' & Hi' & Hj' & Hij & _ & Hr).
    assert (i' = i /\ j' = j) as [-> ->]
      by (apply (Nat.div_mod_unique m); lia).
    unfold join. rewrite frombuffer_concat by exact Hall.
    replace (((i * m + j) * r + row) * c + col)%nat
      with ((i * m + j) * (r * c) + (row * c + col))%nat by nia.
    rewrite (nth_error_concat_uniform (r * c) _ _ _ (frombuffer_uint16 frame));
      [| exact Hsamples | now rewrite nth_error_map, Hf | nia].
    rewrite <- (app_nil_r frame), Hr.
    change (frombuffer_uint16 []) with (@nil Z).
    rewrite app_nil_r, nth_error_map.
    unfold r, c. rewrite plane_data_nth by assumption.
    cbn [option_map]. f_equal.
    rewrite <- Ha. fold a4. unfold item4.
    apply Z.mod_small. subst a4. rewrite Ha, data_as_4d.
    apply unsigned_samples_in_range; try assumption.
    rewrite <- dt_as_4d, <- Ha. exact Hin.
  - intros _ Hs. assert (Hndim : ndim (pixel_array args) = 4%nat)
      by (unfold ndim; now rewrite Hs).
    unfold as_4d in Hshape. rewrite Hndim in Hshape. cbn in Hshape.
    rewrite Hs in Hshape. inversion Hshape. rewrite Hbuf, Hlen.
    replace n with 3%nat by congruence. replace m with 1%nat by congruence.
    replace r with 4%nat by congruence. replace c with 4%nat by congruence.
    split; reflexivity.
Qed.

(** *** Pixel representation *)

Lemma dtype_in_shorts (k : ascii) (s : Z) (w : bool) :
  dtype_in {| kind := k; itemsize := s; swapped := w |}
           [{| kind := k; itemsize := 1; swapped := false |};
            {| kind := k; itemsize := 2; swapped := false |}]
  = ((s =? 1) || (s =? 2)) && negb ((s =? 2) && w).
Proof.
  unfold dtype_in, dtype_eqb. cbn [existsb kind itemsize swapped].
  rewrite Ascii.eqb_refl.
  destruct (Z.eqb_spec s 1) as [->|H1]; [destruct w; reflexivity|].
  destruct (Z.eqb_spec s 2) as [->|H2]; [destruct w; reflexivity|].
  reflexivity.
Qed.

(** The resolution of the code on every data type: that of the
    specification, except that a 16-bit integer type in the byte order
    opposite to the host's is refused. *)
Lemma _get_pixel_data_type_and_attr_spec (a : ndarray) :
  _get_pixel_data_type_and_attr a
  = (if is_swapped_short (dt a)
     then Raise (ValueError (if Ascii.eqb (kind (dt a)) "u"
                             then MsgUnsignedType else MsgSignedType))
     else match representation_of (dt a) with
          | Some t => Ok (t, _pixel_data_type_map t)
          | None =>
              Raise (ValueError (if Ascii.eqb (kind (dt a)) "f" then MsgFloatType
                                 else if Ascii.eqb (kind (dt a)) "u" then MsgUnsignedType
                                 else if Ascii.eqb (kind (dt a)) "i" then MsgSignedType
                                 else MsgDataType))
          end).
Proof.
  unfold representation_of, is_swapped_short, is_integer,
    _get_pixel_data_type_and_attr, name_eqb, dtype_name.
  destruct (dt a) as [k s w]. cbn [kind itemsize swapped fst snd].
  destruct (Ascii.eqb k "f") eqn:Hf.
  - apply Ascii.eqb_eq in Hf. subst k.
    cbn [Ascii.eqb Bool.eqb andb orb String.eqb fst snd].
    replace (8 * s =? 32) with (s =? 4) by (destruct (Z.eqb_spec s 4); lia).
    replace (8 * s =? 64) with (s =? 8) by (destruct (Z.eqb_spec s 8); lia).
    destruct (s =? 4); [reflexivity|]. destruct (s =? 8); reflexivity.
  - destruct (Ascii.eqb k "u") eqn:Hu.
    + apply Ascii.eqb_eq in Hu. subst k. unfold np_uint8, np_uint16.
      rewrite dtype_in_shorts. cbn [Ascii.eqb Bool.eqb andb orb].
      destruct ((s =? 1) || (s =? 2)), (s =? 2), w; reflexivity.
    + destruct (Ascii.eqb k "i") eqn:Hi.
      * apply Ascii.eqb_eq in Hi. subst k. unfold np_int8, np_int16.
        rewrite dtype_in_shorts. cbn [Ascii.eqb Bool.eqb andb orb].
        destruct ((s =? 1) || (s =? 2)), (s =? 2), w; reflexivity.
      * cbn [andb orb]. reflexivity.
Qed.

Lemma _get_pixel_data_type_and_attr_ok (a : ndarray) (t : _PixelDataType)
  (attr : string) :
  _get_pixel_data_type_and_attr a = Ok (t, attr) ->
  representation_of (dt a) = Some t /\ is_swapped_short (dt a) = false.
Proof.
  rewrite _get_pixel_data_type_and_attr_spec.
  destruct (is_swapped_short (dt a)); [discriminate|].
  destruct (representation_of (dt a)) as [t'|]; [|discriminate].
  intros H. inversion H. split; reflexivity.
Qed.

(** C5, as the code has it.  The pixel representation is a function of the
    data type of the array alone, resolved once by the constructor.  For
    every data type but the 16-bit integers in the byte order opposite to
    the host's, it is the representation by kind and width of the
    specification: signed integers of 8 or 16 bits give [SHORT], unsigned
    integers of 8 or 16 bits give [USHORT], floats of 32 bits give
    [SINGLE], floats of 64 bits give [DOUBLE], and every other kind or
    width is refused as an unsupported element type.  A 16-bit integer type
    in the opposite byte order, to which the specification assigns a
    representation, is refused as an unsupported element type as well: it
    is neither [np.int16] nor [np.uint16].  In a build that succeeds, the
    bits allocated are 16 for both integer representations, 32 for
    [SINGLE] and 64 for [DOUBLE]; the bits stored equal the bits allocated
    and the high bit is one less in the integer case, and neither is set
    otherwise. *)
Theorem representation_is_resolved_from_dtype (args : arguments) :
  (forall a : ndarray,
     is_swapped_short (dt a) = false ->
     match representation_of (dt a) with
     | Some t => _get_pixel_data_type_and_attr a = Ok (t, _pixel_data_type_map t)
     | None => exists e, _get_pixel_data_type_and_attr a = Raise e
                         /\ failure_of e = Some UnsupportedElementType
     end)
  /\ (forall a : ndarray,
       is_swapped_short (dt a) = true ->
       (exists t, representation_of (dt a) = Some t)
       /\ exists e, _get_pixel_data_type_and_attr a = Raise e
                    /\ failure_of e = Some UnsupportedElementType)
  /\ (forall doc, __init__ args = Ok doc ->
      exists t,
        representation_of (dt (pixel_array args)) = Some t
        /\ _get_pixel_data_type_and_attr (pixel_array args)
           = Ok (t, _pixel_data_type_map t)
        /\ BitsAllocated doc
           = Some (match t with SHORT | USHORT => 16 | SINGLE => 32 | DOUBLE => 64 end)
        /\ match t with
           | SHORT | USHORT =>
               BitsStored doc = BitsAllocated doc /\ HighBit doc = Some (16 - 1)
               /\ PixelRepresentation doc = Some 0
           | SINGLE | DOUBLE =>
               BitsStored doc = None /\ HighBit doc = None
               /\ PixelRepresentation doc = None
           end).
Proof.
  split; [|split].
  - intros a Hs. rewrite _get_pixel_data_type_and_attr_spec, Hs.
    destruct (representation_of (dt a)) as [t|]; [reflexivity|].
    eexists; split; [reflexivity|].
    destruct (Ascii.eqb (kind (dt a)) "f"); [reflexivity|].
    destruct (Ascii.eqb (kind (dt a)) "u"); [reflexivity|].
    destruct (Ascii.eqb (kind (dt a)) "i"); reflexivity.
  - intros a Hs. split.
    + unfold is_swapped_short, is_integer in Hs. unfold representation_of.
      apply andb_true_iff in Hs. destruct Hs as [Hs _].
      apply andb_true_iff in Hs. destruct Hs as [Hk ->].
      rewrite orb_true_r, !andb_true_r.
      destruct (Ascii.eqb (kind (dt a)) "i"); [now exists SHORT|].
      cbn [orb] in Hk. rewrite Hk. now exists USHORT.
    + rewrite _get_pixel_data_type_and_attr_spec, Hs.
      eexists; split; [reflexivity|].
      destruct (Ascii.eqb (kind (dt a)) "u"); reflexivity.
  - unfold __init__. intros doc H.
    bind_ok H. destruct a as [self loc]. bind_ok H. destruct a as [frames groups].
    inversion H; subst doc; clear H. cbn.
    destruct (init_setup_shape _ _ _ E) as (Ha & _).
    destruct (init_setup_ok _ _ _ E) as
      (_ & _ & _ & _ & _ & _ & _ & _ & _ & _ & _ & Htype & _ & _ & _ & _ & _ & _
         & _ & _ & Hba & Hbs & Hhb & Hpr & _).
    pose proof (_get_pixel_data_type_and_attr_attr _ _ _ Htype) as Hattr.
    rewrite Hattr in Htype.
    destruct (_get_pixel_data_type_and_attr_ok _ _ _ Htype) as [Hrep _].
    assert (Hcode : _get_pixel_data_type_and_attr (pixel_array args)
                    = Ok (loc_pixel_data_type loc,
                          _pixel_data_type_map (loc_pixel_data_type loc))).
    { rewrite <- Htype. unfold _get_pixel_data_type_and_attr.
      now rewrite Ha, dt_as_4d. }
    rewrite Ha, dt_as_4d in Hrep.
    exists (loc_pixel_data_type loc).
    split; [exact Hrep|]. split; [exact Hcode|]. rewrite Hba, Hbs, Hhb, Hpr.
    destruct (loc_pixel_data_type loc); repeat split; reflexivity.
Qed.

(** *** Encapsulated frames *)

Lemma encapsulated_needs_integer (a : ndarray) (u : UID) :
  transfer_syntax_check a u = Ok tt -> is_encapsulated u = true ->
  is_integer (dt a) = true.
Proof.
  unfold transfer_syntax_check, supported_transfer_syntaxes. intros H Henc.
  apply raise_if_ok_inv, negb_false_iff in H.
  destruct (is_integer (dt a)); [reflexivity|].
  unfold uid_in in H. cbn [app existsb] in H. rewrite orb_false_r in H.
  apply orb_true_iff in H. destruct H as [H|H]; apply String.eqb_eq in H; subst u;
    vm_compute in Henc; discriminate.
Qed.

Lemma integer_type_is_short (a : ndarray) (t : _PixelDataType) (attr : string) :
  _get_pixel_data_type_and_attr a = Ok (t, attr) -> is_integer (dt a) = true ->
  t = SHORT \/ t = USHORT.
Proof.
  unfold _get_pixel_data_type_and_attr, is_integer. intros H Hint.
  apply orb_true_iff in Hint.
  destruct Hint as [Hk|Hk]; apply Ascii.eqb_eq in Hk; rewrite Hk in H;
    cbn [Ascii.eqb Bool.eqb andb] in H;
    match type of H with (if ?c then _ else _) = _ => destruct c end;
    inversion H; auto.
Qed.

(** C10.  In encapsulated mode the frame handed to the codec holds, for
    every sample [v] of the plane, the value [v mod 2 ^ 16] as an unsigned
    16-bit sample: [-1] becomes [65535].  The shift by [2 ^ 15] of the
    native path is not applied: for a signed sample [v] the value handed to
    the codec differs from [v + 2 ^ 15]. *)
Theorem encapsulated_frame_is_plain_cast (args : arguments) (self : ParametricMap)
  (loc : locals) (i j : nat) :
  init_setup args = Ok (self, loc) ->
  is_encapsulated (transfer_syntax_uid args) = true ->
  let p := plane (loc_pixel_array loc) i j in
  _encode_frame self p
  = encode_frame {| dt := np_uint16; shape := shape p;
                    data := map (fun v => v mod 2 ^ 16) (data p) |}
                 (transfer_syntax_uid args) 16 16 "MONOCHROME2"%string 0
  /\ (-1) mod 2 ^ 16 = 65535
  /\ forall v, - 2 ^ 15 <= v < 2 ^ 15 -> v mod 2 ^ 16 <> v + 2 ^ 15.
Proof.
  intros H Henc p.
  destruct (init_setup_shape _ _ _ H) as (Ha & _).
  destruct (init_setup_ok _ _ _ H) as
    (src_img & is_multiframe & shared & item & _ & Hsyntax & _ & _ & _ & _ & _
       & Htype & Hts & Hph & _ & _ & _ & _ & _ & _ & Hba & Hbs & _ & Hpr & _).
  assert (Hint : is_integer (dt (loc_pixel_array loc)) = true).
  { rewrite Ha, dt_as_4d. eapply encapsulated_needs_integer; eassumption. }
  split; [|split].
  - unfold _encode_frame. rewrite Hts, Henc, Hba, Hbs, Hpr, Hph.
    destruct (integer_type_is_short _ _ _ Htype Hint) as [-> | ->];
      cbn [getattr bind]; unfold astype, cast;
      change (dt p) with (dt (loc_pixel_array loc)); rewrite Hint; reflexivity.
  - reflexivity.
  - intros v Hv. destruct (Z.lt_ge_cases v 0) as [Hneg|Hpos].
    + replace v with (v + 2 ^ 16 - 1 * 2 ^ 16) at 1 by lia.
      rewrite Zminus_mod, Z_mod_mult, Z.sub_0_r, Z.mod_mod by lia.
      rewrite Z.mod_small by lia. lia.
    + rewrite Z.mod_small by lia. lia.
Qed.

End Claims.

(** ** The order of the checks *)

Section Order.

Context {env : Collaborators}.

(** A build whose set-up raises, raises the same exception: no frame is
    encoded and no instance is returned. *)
Lemma init_setup_raises (args : arguments) (e : exception) :
  init_setup args = Raise e -> __init__ args = Raise e.
Proof. unfold __init__. now intros ->. Qed.

Lemma window_check_raises (width : Q) :
  (width <= 0)%Q -> window_check width = Raise (ValueError MsgWindowWidth).
Proof.
  intros H. unfold window_check. apply raise_if_true. now apply Qle_bool_iff.
Qed.

(** C9, as the code has it.  With a window width that is zero or negative
    the build always fails in the set-up, before any frame is created: no
    instance and no pixel data come out.  The failure is the invalid-window
    error whenever the checks that run first, on the source images and on
    the transfer syntax, pass. *)
Theorem window_width_must_be_positive (args : arguments) :
  (window_width args <= 0)%Q ->
  (exists e, init_setup args = Raise e /\ __init__ args = Raise e)
  /\ (forall src_img is_multiframe,
        source_image_checks (source_images args) = Ok (src_img, is_multiframe) ->
        transfer_syntax_check (pixel_array args) (transfer_syntax_uid args) = Ok tt ->
        init_setup args = Raise (ValueError MsgWindowWidth)
        /\ __init__ args = Raise (ValueError MsgWindowWidth)
        /\ failure_of (ValueError MsgWindowWidth) = Some InvalidWindow).
Proof.
  intros Hw. apply window_check_raises in Hw.
  assert (Hset : forall src_img is_multiframe,
            source_image_checks (source_images args) = Ok (src_img, is_multiframe) ->
            transfer_syntax_check (pixel_array args) (transfer_syntax_uid args) = Ok tt ->
            init_setup args = Raise (ValueError MsgWindowWidth)).
  { intros src_img is_multiframe Hsrc Hts. unfold init_setup.
    rewrite Hsrc. cbn [bind]. rewrite Hts. cbn [bind]. now rewrite Hw. }
  split.
  - destruct (source_image_checks (source_images args)) as [[src_img is_multiframe]|e]
      eqn:Hsrc.
    + destruct (transfer_syntax_check (pixel_array args) (transfer_syntax_uid args))
        as [[]|e] eqn:Hts.
      * exists (ValueError MsgWindowWidth). split; [|apply init_setup_raises]; eauto.
      * assert (init_setup args = Raise e)
          by (unfold init_setup; rewrite Hsrc; cbn [bind]; now rewrite Hts).
        exists e. split; [|apply init_setup_raises]; assumption.
    + assert (init_setup args = Raise e) by (unfold init_setup; now rewrite Hsrc).
      exists e. split; [|apply init_setup_raises]; assumption.
  - intros src_img is_multiframe Hsrc Hts.
    split; [|split; [apply init_setup_raises|reflexivity]]; eauto.
Qed.

Lemma transfer_syntax_check_supported (a : ndarray) (u : UID) :
  uid_in u (supported_transfer_syntaxes a) = true -> transfer_syntax_check a u = Ok tt.
Proof. intros H. unfold transfer_syntax_check. now rewrite H. Qed.

Lemma transfer_syntax_check_unsupported (a : ndarray) (u : UID) :
  uid_in u (supported_transfer_syntaxes a) = false ->
  transfer_syntax_check a u = Raise (ValueError MsgTransferSyntax).
Proof. intros H. unfold transfer_syntax_check. now rewrite H. Qed.

(** A build whose transfer syntax is refused fails in the set-up, with the
    error of the transfer syntax once the source images have passed. *)
Lemma refused_transfer_syntax (args : arguments) :
  transfer_syntax_check (pixel_array args) (transfer_syntax_uid args)
  = Raise (ValueError MsgTransferSyntax) ->
  (exists e, init_setup args = Raise e /\ __init__ args = Raise e)
  /\ (forall src_img is_multiframe,
        source_image_checks (source_images args) = Ok (src_img, is_multiframe) ->
        __init__ args = Raise (ValueError MsgTransferSyntax)).
Proof.
  intros Hts.
  assert (Hset : forall src_img is_multiframe,
            source_image_checks (source_images args) = Ok (src_img, is_multiframe) ->
            init_setup args = Raise (ValueError MsgTransferSyntax)).
  { intros src_img is_multiframe Hsrc. unfold init_setup.
    rewrite Hsrc. cbn [bind]. now rewrite Hts. }
  split.
  - destruct (source_image_checks (source_images args)) as [[src_img is_multiframe]|e]
      eqn:Hsrc.
    + exists (ValueError MsgTransferSyntax). split; [|apply init_setup_raises]; eauto.
    + assert (init_setup args = Raise e) by (unfold init_setup; now rewrite Hsrc).
      exists e. split; [|apply init_setup_raises]; assumption.
  - intros src_img is_multiframe Hsrc. apply init_setup_raises. eauto.
Qed.

(** C6, as the code has it.  A floating-point array with JPEG 2000
    Lossless or RLE Lossless is refused by the check of the transfer syntax,
    and the build fails: with the unsupported-syntax error whenever the
    source images have passed their checks, which run first.  An integer
    array passes the check with these two syntaxes and with the two
    uncompressed little-endian ones.  A syntax outside these four is refused
    for every data type, and the build fails in the same way. *)
Theorem compressed_syntaxes_need_integers (args : arguments) :
  let a := pixel_array args in
  let u := transfer_syntax_uid args in
  let refused :=
    transfer_syntax_check a u = Raise (ValueError MsgTransferSyntax)
    /\ failure_of (ValueError MsgTransferSyntax) = Some UnsupportedStorageSyntax
    /\ (exists e, init_setup args = Raise e /\ __init__ args = Raise e)
    /\ (forall src_img is_multiframe,
          source_image_checks (source_images args) = Ok (src_img, is_multiframe) ->
          __init__ args = Raise (ValueError MsgTransferSyntax)) in
  (kind (dt a) = "f"%char -> u = JPEG2000Lossless \/ u = RLELossless -> refused)
  /\ (is_integer (dt a) = true ->
      uid_in u [ImplicitVRLittleEndian; ExplicitVRLittleEndian;
                JPEG2000Lossless; RLELossless] = true ->
      transfer_syntax_check a u = Ok tt)
  /\ (uid_in u [ImplicitVRLittleEndian; ExplicitVRLittleEndian;
                JPEG2000Lossless; RLELossless] = false -> refused).
Proof.
  intros a u refused. subst refused.
  assert (Hrefused : uid_in u (supported_transfer_syntaxes a) = false ->
            transfer_syntax_check a u = Raise (ValueError MsgTransferSyntax)
            /\ failure_of (ValueError MsgTransferSyntax) = Some UnsupportedStorageSyntax
            /\ (exists e, init_setup args = Raise e /\ __init__ args = Raise e)
            /\ (forall src_img is_multiframe,
                  source_image_checks (source_images args) = Ok (src_img, is_multiframe) ->
                  __init__ args = Raise (ValueError MsgTransferSyntax))).
  { intros H. apply transfer_syntax_check_unsupported in H.
    split; [exact H|]. split; [reflexivity|]. now apply refused_transfer_syntax. }
  split; [|split].
  - intros Hk Hu. apply Hrefused. unfold supported_transfer_syntaxes, is_integer.
    rewrite Hk. destruct Hu as [-> | ->]; reflexivity.
  - intros Hint Hu. apply transfer_syntax_check_supported.
    unfold supported_transfer_syntaxes. now rewrite Hint.
  - intros Hu. apply Hrefused. unfold supported_transfer_syntaxes.
    destruct (is_integer (dt a)); [exact Hu|].
    unfold uid_in in *. cbn [existsb app] in *.
    repeat (apply orb_false_iff in Hu; destruct Hu as [? Hu]).
    repeat (apply orb_false_iff; split; try assumption).
Qed.

Lemma init_setup_mapping_raises (args : arguments) (src_img : Src.Dataset)
  (is_multiframe : bool) (e : exception) :
  source_image_checks (source_images args) = Ok (src_img, is_multiframe) ->
  transfer_syntax_check (pixel_array args) (transfer_syntax_uid args) = Ok tt ->
  window_check (window_width args) = Ok tt ->
  mapping_checks (if (ndim (pixel_array args) =? 2)%nat
                  then newaxis_front (pixel_array args) else pixel_array args)
                 (real_world_value_mappings args) = Raise e ->
  init_setup args = Raise e /\ __init__ args = Raise e.
Proof.
  intros Hsrc Hts Hw Hmap.
  assert (init_setup args = Raise e).
  { unfold init_setup. rewrite Hsrc. cbn [bind]. rewrite Hts. cbn [bind].
    rewrite Hw. cbn [bind]. now rewrite Hmap. }
  split; [|apply init_setup_raises]; assumption.
Qed.





(** C8, as the code has it.  Once the checks that run first have passed (on
    the source images, the transfer syntax, the window width, and the rank
    of the array and its mappings), a number of plane positions, given or
    taken from the source images, that differs from the first dimension [n]
    of the array with its four dimensions makes the build fail with a
    plane-count-mismatch error, in the set-up and so before any frame is
    encoded. *)
Theorem plane_positions_must_match_the_array (args : arguments)
  (src_img : Src.Dataset) (is_multiframe : bool) (shared : option pyobj)
  (nested : pyobj) :
  source_image_checks (source_images args) = Ok (src_img, is_multiframe) ->
  transfer_syntax_check (pixel_array args) (transfer_syntax_uid args) = Ok tt ->
  window_check (window_width args) = Ok tt ->
  mapping_checks (if (ndim (pixel_array args) =? 2)%nat
                  then newaxis_front (pixel_array args) else pixel_array args)
                 (real_world_value_mappings args)
  = Ok (shared, as_4d (pixel_array args), nested) ->
  length (positions_of args is_multiframe src_img) <> dim (as_4d (pixel_array args)) 0 ->
  let e := ValueError (match plane_positions args with
                       | Some _ => MsgPlaneCountArgument
                       | None => MsgPlaneCountSource
                       end) in
  init_setup args = Raise e /\ __init__ args = Raise e
  /\ failure_of e = Some PlaneCountMismatch.
Proof.
  intros Hsrc Hts Hw Hmap Hlen e.
  assert (Hset : init_setup args = Raise e).
  { unfold init_setup. rewrite Hsrc. cbn [bind]. rewrite Hts. cbn [bind].
    rewrite Hw. cbn [bind]. rewrite Hmap. cbn [bind].
    unfold plane_position_checks, positions_of in *. apply Nat.eqb_neq in Hlen.
    subst e. destruct (plane_positions args) as [given|]; rewrite Hlen; reflexivity. }
  split; [exact Hset|]. split; [now apply init_setup_raises|].
  subst e. destruct (plane_positions args); reflexivity.
Qed.

End Order.

(** ** The native path of signed samples *)

Section NativeSigned.

Context {env : Collaborators}.

(** In native mode a signed sample [v] is stored as the unsigned 16-bit
    sample [v + 2 ^ 15]: the stored sample minus [2 ^ 15] is [v]. *)
Lemma native_signed_frame (self : ParametricMap) (p : ndarray) :
  is_encapsulated (TransferSyntaxUID self) = false ->
  ndim p = 2%nat -> kind (dt p) = "i"%char ->
  Forall (fun v => - 2 ^ 15 <= v < 2 ^ 15) (data p) ->
  exists frame,
    _encode_frame self p = Ok frame
    /\ forall rest,
         frombuffer_uint16 (frame ++ rest)
         = map (fun v => v + 2 ^ 15) (data p) ++ frombuffer_uint16 rest.
Proof.
  intros Hnative Hndim Hkind Hrange. unfold _encode_frame.
  rewrite Hndim, Hnative. cbn [Nat.eqb negb].
  assert (H8 : dtype_eqb (dt p) np_uint8 = false)
    by (unfold dtype_eqb; rewrite Hkind; reflexivity).
  rewrite H8, Hkind. cbn [Ascii.eqb Bool.eqb andb].
  eexists. split; [reflexivity|]. intros rest.
  unfold tobytes, flatten, astype, add_scalar. cbn [dt data].
  rewrite frombuffer_tobytes_app by reflexivity.
  rewrite !map_map. f_equal. apply map_ext_Forall.
  eapply Forall_impl; [|exact Hrange]. intros v Hv. cbn beta.
  unfold cast, is_integer. rewrite Hkind.
  cbn [Ascii.eqb Bool.eqb andb orb kind itemsize wide np_int16 np_uint16].
  unfold wrap_unsigned, wrap_signed. change (8 * 2) with 16.
  change (2 ^ (16 - 1)) with (2 ^ 15). change (2 ^ 16 / 2) with (2 ^ 15).
  assert (Hv' : - 32768 <= v < 32768) by exact Hv.
  change (2 ^ 15) with 32768. change (2 ^ 16) with 65536.
  rewrite (Z.mod_small (v + 32768)) by lia.
  replace (v + 32768 - 32768 + 32768) with (v + 32768) by lia.
  rewrite Z.mod_mod by lia. apply Z.mod_small. lia.
Qed.

End NativeSigned.

(** ** Placement of the mappings *)

Section Placement.

Context {env : Collaborators}.

(** Every per-frame item of a loop that ended normally is the item of some
    position and channel. *)
Lemma _create_frame_items_groups (self : ParametricMap) (a : ndarray)
  (t : _PixelDataType) (mappings : pyobj) (cs : CoordinateSystemNames)
  (positions : list PlanePosition) (frames : list bytes) (groups : list pffg)
  (k : nat) (group : pffg) :
  _create_frame_items self a t mappings cs positions = Ok (frames, groups) ->
  nth_error groups k = Some group ->
  exists i j frame,
    (i < dim a 0)%nat /\ (j < dim a 3)%nat /\ k = (i * dim a 3 + j)%nat
    /\ frame_item self a mappings cs positions i j = Ok (frame, group).
Proof.
  intros H Hk. apply _create_frame_items_ok in H. destruct H as (_ & Hlen & Hnth).
  assert (Hlt : (k < dim a 0 * dim a 3)%nat)
    by (rewrite <- Hlen; apply nth_error_Some; congruence).
  assert (Hm : (dim a 3 <> 0)%nat) by lia.
  assert (Hj : (k mod dim a 3 < dim a 3)%nat) by now apply Nat.mod_upper_bound.
  assert (Hi : (k / dim a 3 < dim a 0)%nat)
    by (apply Nat.Div0.div_lt_upper_bound; lia).
  assert (Hk' : k = (k / dim a 3 * dim a 3 + k mod dim a 3)%nat)
    by (rewrite (Nat.div_mod_eq k (dim a 3)) at 1; lia).
  destruct (Hnth _ _ Hi Hj) as (frame & item & Hitem & _ & Hg).
  rewrite <- Hk', Hk in Hg. inversion Hg; subst item.
  exists (k / dim a 3)%nat, (k mod dim a 3)%nat, frame. repeat split; assumption.
Qed.

(** Where a build that succeeds stores the mappings.  For a 2D or 3D array
    the shared functional group holds the flat sequence and no per-frame
    item holds a mapping.  For a 4D array the shared functional group holds
    no mapping; with several channels the item at index [i * m + j] holds
    the mappings of channel [j], and with a single channel no item holds a
    mapping. *)
Lemma mapping_placement (args : arguments) (doc : ParametricMap) :
  __init__ args = Ok doc ->
  exists item groups n m,
    SharedFunctionalGroupsSequence doc = [item]
    /\ PerFrameFunctionalGroupsSequence doc = Some groups
    /\ dim (as_4d (pixel_array args)) 0 = n /\ dim (as_4d (pixel_array args)) 3 = m
    /\ ((ndim (pixel_array args) = 2 \/ ndim (pixel_array args) = 3)%nat ->
        m = 1%nat
        /\ sffg_RealWorldValueMappingSequence item
           = Some (real_world_value_mappings args)
        /\ Forall (fun group => pffg_RealWorldValueMappingSequence group = None) groups)
    /\ (ndim (pixel_array args) = 4%nat ->
        sffg_RealWorldValueMappingSequence item = None
        /\ (m = 1%nat ->
            Forall (fun group => pffg_RealWorldValueMappingSequence group = None) groups)
        /\ ((1 < m)%nat ->
            forall i j, (i < n)%nat -> (j < m)%nat ->
              exists group mapping,
                nth_error groups (i * m + j) = Some group
                /\ getitem (real_world_value_mappings args) j = Ok mapping
                /\ pffg_RealWorldValueMappingSequence group = Some mapping)).
Proof.
  unfold __init__. intros H.
  bind_ok H. destruct a as [self loc]. bind_ok H. destruct a as [frames groups].
  inversion H; subst doc; clear H. cbn.
  destruct (init_setup_shape _ _ _ E) as (Ha & _).
  destruct (init_setup_ok _ _ _ E) as
    (src_img & is_multiframe & shared & item & _ & _ & _ & Hmap & _ & _ & _ & _ & _
       & _ & _ & _ & Hshared & Hsm & _).
  apply mapping_checks_ok in Hmap. destruct Hmap as [_ Hcase].
  assert (Hnone : dim (loc_pixel_array loc) 3 = 1%nat ->
            Forall (fun group => pffg_RealWorldValueMappingSequence group = None) groups).
  { intros Hm. apply Forall_forall. intros group Hin.
    destruct (In_nth_error _ _ Hin) as [k Hk].
    destruct (_create_frame_items_groups _ _ _ _ _ _ _ _ _ _ E0 Hk)
      as (i & j & frame & _ & _ & _ & Hitem).
    apply frame_item_record in Hitem. destruct Hitem as (_ & _ & _ & Hmapping).
    now rewrite Hm in Hmapping. }
  exists item, groups, (dim (as_4d (pixel_array args)) 0),
    (dim (as_4d (pixel_array args)) 3).
  split; [exact Hshared|]. do 3 (split; [reflexivity|]). rewrite <- Ha. split.
  - intros Hn. destruct Hcase as [(_ & Hs & _ & _ & _) | (Hn4 & _)].
    + assert (Hm : dim (loc_pixel_array loc) 3 = 1%nat)
        by (rewrite Ha; now apply dim_3_as_4d).
      split; [exact Hm|]. split; [now rewrite Hsm, Hs|]. now apply Hnone.
    + apply ndim_promoted_4 in Hn4. destruct Hn4 as [_ Hn4]. lia.
  - intros Hn. destruct Hcase as [(Hflat & _) | (_ & Hs & Hnested & _)].
    + apply ndim_promoted_flat in Hflat. lia.
    + split; [now rewrite Hsm, Hs|]. split; [exact Hnone|].
      intros Hm i j Hi Hj.
      pose proof (_create_frame_items_ok _ _ _ _ _ _ _ _ E0) as (_ & _ & Hnth).
      destruct (Hnth i j Hi Hj) as (frame & group & Hitem & _ & Hg).
      apply frame_item_record in Hitem. destruct Hitem as (_ & _ & _ & Hmapping).
      apply Nat.ltb_lt in Hm. rewrite Hm in Hmapping.
      destruct Hmapping as (mapping & Hget & Hgroup).
      exists group, mapping. rewrite <- Hnested. repeat split; assumption.
Qed.

End Placement.

(** * Worked builds

    The statements above at the inputs of [Example], and the builds in
    which the specification and the code part. *)

(** int16, shape (2, 1, 2, 2): four frames. *)
Lemma frames_are_position_major_int16_2122 :
  exists doc,
    __init__ Example.int16_2122 = Ok doc
    /\ NumberOfFrames doc = Some (2 * 2)%nat
    /\ exists groups,
         PerFrameFunctionalGroupsSequence doc = Some groups
         /\ length groups = (2 * 2)%nat.
Proof.
  destruct (__init__ Example.int16_2122) as [doc|e] eqn:H;
    [|vm_compute in H; discriminate H].
  exists doc. split; [reflexivity|].
  destruct (frames_are_position_major _ _ H)
    as (self & loc & frames & groups & n & r & c & m
        & _ & Ha & Hshape & _ & _ & _ & Hn & _ & Hg & Hlen & _).
  rewrite Ha in Hshape. vm_compute in Hshape.
  injection Hshape as <- <- <- <-.
  split; [exact Hn|]. exists groups. split; assumption.
Defined.

(** uint8, shape (3, 4, 4, 1): three frames and 96 bytes. *)
Lemma native_unsigned_round_trip_uint8_3441 :
  exists doc buf,
    __init__ Example.uint8_3441 = Ok doc
    /\ kind (dt (pixel_array Example.uint8_3441)) = "u"%char
    /\ is_encapsulated (transfer_syntax_uid Example.uint8_3441) = false
    /\ ndarray_ok (pixel_array Example.uint8_3441) = true
    /\ PixelData doc = Some buf
    /\ NumberOfFrames doc = Some 3%nat
    /\ length buf = 96%nat.
Proof.
  destruct (__init__ Example.uint8_3441) as [doc|e] eqn:H;
    [|vm_compute in H; discriminate H].
  destruct (native_unsigned_round_trip _ _ H eq_refl eq_refl eq_refl)
    as (buf & n & r & c & m & _ & Hbuf & _ & _ & _ & Hex).
  destruct (Hex eq_refl eq_refl) as [Hn Hl].
  exists doc, buf. repeat split; assumption.
Defined.

(** uint8 is stored as unsigned short with 16 bits allocated and stored. *)
Lemma representation_is_resolved_from_dtype_uint8 :
  exists doc,
    __init__ Example.uint8_3441 = Ok doc
    /\ BitsAllocated doc = Some 16 /\ BitsStored doc = Some 16
    /\ HighBit doc = Some 15.
Proof.
  destruct (__init__ Example.uint8_3441) as [doc|e] eqn:H;
    [|vm_compute in H; discriminate H].
  destruct (representation_is_resolved_from_dtype Example.uint8_3441)
    as (_ & _ & Hbits).
  destruct (Hbits doc H) as (t & Ht & _ & Hba & Hrest).
  vm_compute in Ht. injection Ht as <-. destruct Hrest as (Hbs & Hhb & _).
  exists doc. split; [reflexivity|]. split; [exact Hba|].
  split; [now rewrite Hbs|exact Hhb].
Defined.

(** int16 with RLE Lossless: the codec receives 65535 for the sample -1. *)
Lemma encapsulated_frame_is_plain_cast_int16_rle :
  exists self loc,
    init_setup Example.int16_rle = Ok (self, loc)
    /\ is_encapsulated (transfer_syntax_uid Example.int16_rle) = true
    /\ data (plane (loc_pixel_array loc) 0 0) = [-1; 0]
    /\ _encode_frame self (plane (loc_pixel_array loc) 0 0)
       = encode_frame (Collaborators := Example.env)
           {| dt := np_uint16; shape := [1; 2]%nat; data := [65535; 0] |}
           RLELossless 16 16 "MONOCHROME2"%string 0.
Proof.
  destruct (init_setup Example.int16_rle) as [[self loc]|e] eqn:H;
    [|vm_compute in H; discriminate H].
  destruct (encapsulated_frame_is_plain_cast _ _ _ 0 0 H eq_refl) as [Henc _].
  destruct (init_setup_shape _ _ _ H) as (Ha & _).
  exists self, loc. split; [reflexivity|]. split; [reflexivity|].
  rewrite Henc, Ha. split; reflexivity.
Defined.

(** float32 with RLE Lossless is refused. *)
Lemma compressed_syntaxes_need_integers_float32_rle :
  kind (dt (pixel_array Example.float32_rle)) = "f"%char
  /\ transfer_syntax_uid Example.float32_rle = RLELossless
  /\ source_image_checks (source_images Example.float32_rle)
     = Ok (Example.image, false)
  /\ __init__ Example.float32_rle = Raise (ValueError MsgTransferSyntax).
Proof.
  split; [reflexivity|]. split; [reflexivity|]. split; [reflexivity|].
  destruct (compressed_syntaxes_need_integers Example.float32_rle) as [Hfloat _].
  destruct (Hfloat eq_refl (or_intror eq_refl)) as (_ & _ & _ & Hbuild).
  exact (Hbuild Example.image false eq_refl).
Defined.


(** One plane position for an array of two planes is refused. *)
Lemma plane_positions_must_match_the_array_2111 :
  dim (as_4d (pixel_array Example.one_position_for_two_planes)) 0 = 2%nat
  /\ plane_positions Example.one_position_for_two_planes = Some [0]
  /\ __init__ Example.one_position_for_two_planes
     = Raise (ValueError MsgPlaneCountArgument).
Proof.
  split; [reflexivity|]. split; [reflexivity|].
  destruct (plane_positions_must_match_the_array Example.one_position_for_two_planes
              Example.image false None
              (real_world_value_mappings Example.one_position_for_two_planes)
              eq_refl eq_refl eq_refl eq_refl) as (_ & H & _).
  - discriminate.
  - exact H.
Defined.

(** Window width 0 is refused. *)
Lemma window_width_must_be_positive_zero :
  (window_width Example.zero_width <= 0)%Q
  /\ __init__ Example.zero_width = Raise (ValueError MsgWindowWidth).
Proof.
  assert (Hw : (window_width Example.zero_width <= 0)%Q) by apply Qle_refl.
  split; [exact Hw|].
  destruct (window_width_must_be_positive Example.zero_width Hw) as [_ Hexact].
  destruct (Hexact Example.image false eq_refl eq_refl) as (_ & Hbuild & _).
  exact Hbuild.
Defined.

(** Window width 0 with a transfer syntax that is not supported: the
    transfer syntax is checked first. *)
Lemma window_error_is_preceded_by_transfer_syntax :
  (window_width Example.zero_width_big_endian <= 0)%Q
  /\ __init__ Example.zero_width_big_endian = Raise (ValueError MsgTransferSyntax)
  /\ failure_of (ValueError MsgTransferSyntax) <> Some InvalidWindow.
Proof.
  split; [apply Qle_refl|]. split; [reflexivity|discriminate].
Qed.

(** float32 with RLE Lossless and no source image: the source images are
    checked first. *)
Lemma compressed_float_without_source_image :
  kind (dt (pixel_array Example.float32_rle_no_source)) = "f"%char
  /\ transfer_syntax_uid Example.float32_rle_no_source = RLELossless
  /\ __init__ Example.float32_rle_no_source = Raise (ValueError MsgNoSourceImage)
  /\ failure_of (ValueError MsgNoSourceImage) <> Some UnsupportedStorageSyntax.
Proof.
  split; [reflexivity|]. split; [reflexivity|]. split; [reflexivity|discriminate].
Qed.


(** int16 in the byte order opposite to the host's, shape (1, 2): the
    specification assigns the signed-short representation to its kind and
    width, the code refuses it as an unsupported element type, and the
    build fails, while the build of the same samples in the byte order of
    the host succeeds. *)
Lemma byte_swapped_int16_is_refused :
  kind (dt (pixel_array Input.int16_swapped)) = "i"%char
  /\ itemsize (dt (pixel_array Input.int16_swapped)) = 2
  /\ representation_of (dt (pixel_array Input.int16_swapped)) = Some SHORT
  /\ _get_pixel_data_type_and_attr (pixel_array Input.int16_swapped)
     = Raise (ValueError MsgSignedType)
  /\ failure_of (ValueError MsgSignedType) = Some UnsupportedElementType
  /\ __init__ Input.int16_swapped = Raise (ValueError MsgSignedType)
  /\ data (pixel_array Input.int16_swapped) = data (pixel_array Example.int16_native)
  /\ returns (__init__ Example.int16_native) = true.
Proof.
  repeat split; vm_compute; reflexivity.
Qed.

(** One plane position for two planes and two mappings for one channel:
    the mappings are checked first. *)
Lemma plane_count_error_is_preceded_by_mappings :
  dim (as_4d (pixel_array Example.one_position_two_mappings)) 0 = 2%nat
  /\ plane_positions Example.one_position_two_mappings = Some [0]
  /\ __init__ Example.one_position_two_mappings = Raise (ValueError MsgMappingCount)
  /\ failure_of (ValueError MsgMappingCount) <> Some PlaneCountMismatch.
Proof.
  split; [reflexivity|]. split; [reflexivity|]. split; [reflexivity|discriminate].
Qed.

(** C2 at a 4D array with a single channel, shape (3, 4, 4, 1): the build
    succeeds and the mapping of the channel is stored neither in the shared
    functional group nor in any per-frame functional group. *)
Theorem single_channel_4d_mapping_is_dropped :
  exists doc item groups,
    __init__ Example.uint8_3441 = Ok doc
    /\ shape (pixel_array Example.uint8_3441) = [3; 4; 4; 1]%nat
    /\ real_world_value_mappings Example.uint8_3441
       = Sequence [Sequence [Example.rwvm "identity"]]
    /\ SharedFunctionalGroupsSequence doc = [item]
    /\ sffg_RealWorldValueMappingSequence item = None
    /\ PerFrameFunctionalGroupsSequence doc = Some groups
    /\ Forall (fun group => pffg_RealWorldValueMappingSequence group = None) groups.
Proof.
  destruct (__init__ Example.uint8_3441) as [doc|e] eqn:H; vm_compute in H;
    [|discriminate H].
  injection H as <-. eexists _, _, _.
  repeat (split; [reflexivity|]). repeat constructor.
Qed.

(** C3 at an int16 array stored with RLE Lossless: the rescale intercept
    is [2 ^ 15], the codec receives the samples of [-1; 0] as [65535; 0],
    and a stored sample minus [2 ^ 15] is not the sample of the array. *)
Theorem encapsulated_signed_samples_are_not_shifted :
  exists doc item buf,
    __init__ Example.int16_rle = Ok doc
    /\ data (pixel_array Example.int16_rle) = [-1; 0]
    /\ SharedFunctionalGroupsSequence doc = [item]
    /\ RescaleIntercept item = 2 ^ 15 /\ RescaleSlope item = 1
    /\ PixelData doc = Some buf
    /\ frombuffer_uint16 (env := Example.env) buf = [65535; 0]
    /\ map (fun stored => stored - 2 ^ 15) (frombuffer_uint16 (env := Example.env) buf)
       = [32767; -32768].
Proof.
  destruct (__init__ Example.int16_rle) as [doc|e] eqn:H; vm_compute in H;
    [|discriminate H].
  injection H as <-. eexists _, _, _.
  repeat (split; [reflexivity|]). reflexivity.
Qed.

(** The same array stored natively: a stored sample minus [2 ^ 15] is the
    sample of the array. *)
Lemma native_signed_samples_are_shifted :
  exists doc buf,
    __init__ Example.int16_native = Ok doc
    /\ PixelData doc = Some buf
    /\ map (fun stored => stored - 2 ^ 15) (frombuffer_uint16 (env := Example.env) buf)
       = data (pixel_array Example.int16_native).
Proof.
  destruct (__init__ Example.int16_native) as [doc|e] eqn:H; vm_compute in H;
    [|discriminate H].
  injection H as <-. eexists _, _. repeat (split; [reflexivity|]). reflexivity.
Qed.

(** * Further properties of the constructor *)

(** ** The source images *)

Lemma nodup_at_most_one {A : Type} (dec : forall x y : A, {x = y} + {x <> y})
  (l : list A) :
  (1 <? length (nodup dec l))%nat = false <->
  (forall a b, In a l -> In b l -> a = b).
Proof.
  rewrite Nat.ltb_ge. split.
  - intros Hlen a b Ha Hb. destruct (dec a b) as [Heq|Hne]; [exact Heq|].
    exfalso.
    assert (Hincl : incl [a; b] (nodup dec l)).
    { intros x [<- | [<- | []]]; now apply nodup_In. }
    assert (Hnd : NoDup [a; b]).
    { constructor; [intros [H | []]; congruence | constructor; [intros []|constructor]]. }
    pose proof (NoDup_incl_length Hnd Hincl) as H. cbn in H. lia.
  - intros Hall. pose proof (NoDup_nodup dec l) as Hnd.
    destruct (nodup dec l) as [|a [|b t]] eqn:E; cbn; try lia.
    assert (Ha : In a l) by (apply (nodup_In dec); rewrite E; now left).
    assert (Hb : In b l) by (apply (nodup_In dec); rewrite E; right; now left).
    pose proof (Hall a b Ha Hb) as Heq. subst b.
    inversion Hnd as [|? ? Hnot _]. exfalso. apply Hnot. now left.
Qed.


Lemma returns_ok {A : Type} (r : result A) : returns r = true -> exists a, r = Ok a.
Proof. destruct r as [a|e]; [now exists a | discriminate]. Qed.

(** ** The rank of the array *)

Section Rank.

Context {env : Collaborators}.

Lemma mapping_checks_rank (a : ndarray) (mappings : pyobj) :
  (ndim a < 2 \/ 4 < ndim a)%nat ->
  mapping_checks a mappings = Raise (ValueError MsgArrayRank).
Proof.
  intros H. unfold mapping_checks.
  destruct (ndim a =? 2)%nat eqn:H2; [apply Nat.eqb_eq in H2; lia|].
  destruct (ndim a =? 3)%nat eqn:H3; [apply Nat.eqb_eq in H3; lia|].
  destruct (ndim a =? 4)%nat eqn:H4; [apply Nat.eqb_eq in H4; lia|].
  reflexivity.
Qed.

(** X2.  Once the source images, the transfer syntax and the window width have
    passed their checks, an array with fewer than two or more than four
    dimensions makes the build fail with the invalid-rank error, in the
    set-up: the data type of the array and the plane positions are not
    looked at. *)
Theorem array_rank_must_be_2_3_or_4 (args : arguments) (src_img : Src.Dataset)
  (is_multiframe : bool) :
  source_image_checks (source_images args) = Ok (src_img, is_multiframe) ->
  transfer_syntax_check (pixel_array args) (transfer_syntax_uid args) = Ok tt ->
  window_check (window_width args) = Ok tt ->
  (ndim (pixel_array args) < 2 \/ 4 < ndim (pixel_array args))%nat ->
  init_setup args = Raise (ValueError MsgArrayRank)
  /\ __init__ args = Raise (ValueError MsgArrayRank)
  /\ failure_of (ValueError MsgArrayRank) = Some InvalidArrayRank.
Proof.
  intros Hsrc Hts Hw Hn.
  destruct (init_setup_mapping_raises args src_img is_multiframe
              (ValueError MsgArrayRank) Hsrc Hts Hw) as [H1 H2].
  - apply mapping_checks_rank.
    destruct (ndim (pixel_array args) =? 2)%nat eqn:H2;
      [apply Nat.eqb_eq in H2; lia | exact Hn].
  - repeat split; assumption.
Qed.

End Rank.

(** ** Native frames read back *)

Section ReadBack.

Context {env : Collaborators}.

(** When every frame of a native build reads back as the samples of its
    plane under [g], the pixel data read back as the samples of the array
    under [g], frame after frame and row after row. *)
Lemma native_frames_read_back (g : Z -> Z) (self : ParametricMap) (a : ndarray)
  (t : _PixelDataType) (mappings : pyobj) (cs : CoordinateSystemNames)
  (positions : list PlanePosition) (frames : list bytes) (groups : list pffg) :
  _create_frame_items self a t mappings cs positions = Ok (frames, groups) ->
  (forall i j frame, (i < dim a 0)%nat -> (j < dim a 3)%nat ->
     _encode_frame self (plane a i j) = Ok frame ->
     length frame = (2 * length (data (plane a i j)))%nat
     /\ forall rest, frombuffer_uint16 (frame ++ rest)
                     = map g (data (plane a i j)) ++ frombuffer_uint16 rest) ->
  length (join frames) = (dim a 0 * dim a 3 * (dim a 1 * dim a 2) * 2)%nat
  /\ forall i row col j,
       (i < dim a 0)%nat -> (row < dim a 1)%nat -> (col < dim a 2)%nat ->
       (j < dim a 3)%nat ->
       nth_error (frombuffer_uint16 (join frames))
                 (((i * dim a 3 + j) * dim a 1 + row) * dim a 2 + col)
       = Some (g (item4 a i row col j)).
Proof.
  intros E0 Henc.
  pose proof (_create_frame_items_ok _ _ _ _ _ _ _ _ E0) as (Hlen & _ & Hnth).
  set (n := dim a 0) in *. set (m := dim a 3) in *.
  set (r := dim a 1) in *. set (c := dim a 2) in *.
  assert (Hframe : forall k frame, nth_error frames k = Some frame ->
            exists i j, (i < n)%nat /\ (j < m)%nat /\ k = (i * m + j)%nat
              /\ length frame = (2 * (r * c))%nat
              /\ forall rest, frombuffer_uint16 (frame ++ rest)
                   = map g (data (plane a i j)) ++ frombuffer_uint16 rest).
  { intros k frame Hk.
    destruct (_create_frame_items_frames _ _ _ _ _ _ _ _ _ _ E0 Hk)
      as (i & j & Hi & Hj & Hkij & He).
    exists i, j. repeat (split; [assumption|]).
    destruct (Henc i j frame Hi Hj He) as [Hl Hr].
    rewrite length_plane_data in Hl. split; assumption. }
  assert (Hall : Forall (fun f => forall rest,
            frombuffer_uint16 (f ++ rest)
            = frombuffer_uint16 f ++ frombuffer_uint16 rest) frames).
  { apply Forall_forall. intros f Hf. destruct (In_nth_error _ _ Hf) as [k Hk].
    destruct (Hframe _ _ Hk) as (i & j & _ & _ & _ & _ & Hr). intros rest.
    rewrite Hr. f_equal. rewrite <- (app_nil_r f) at 1. rewrite Hr.
    change (frombuffer_uint16 []) with (@nil Z). now rewrite app_nil_r. }
  assert (Hbytes : Forall (fun f => length f = (r * c * 2)%nat) frames).
  { apply Forall_forall. intros f Hf. destruct (In_nth_error _ _ Hf) as [k Hk].
    destruct (Hframe _ _ Hk) as (i & j & _ & _ & _ & Hl & _). lia. }
  assert (Hsamples : Forall (fun l => length l = (r * c)%nat)
                            (map frombuffer_uint16 frames)).
  { apply Forall_forall. intros l Hl. apply in_map_iff in Hl.
    destruct Hl as (f & <- & Hf). destruct (In_nth_error _ _ Hf) as [k Hk].
    destruct (Hframe _ _ Hk) as (i & j & _ & _ & _ & _ & Hr).
    rewrite <- (app_nil_r f), Hr.
    change (frombuffer_uint16 []) with (@nil Z).
    rewrite app_nil_r, length_map. apply length_plane_data. }
  split.
  - unfold join. rewrite (length_concat_uniform (r * c * 2)) by exact Hbytes.
    unfold bytes in *. rewrite Hlen. lia.
  - intros i row col j Hi Hrow Hcol Hj.
    destruct (Hnth i j Hi Hj) as (frame & item & _ & Hf & _).
    destruct (Hframe _ _ Hf) as (i' & j' & Hi' & Hj' & Hij & _ & Hr).
    assert (i' = i /\ j' = j) as [-> ->]
      by (apply (Nat.div_mod_unique m); lia).
    unfold join. rewrite frombuffer_concat by exact Hall.
    replace (((i * m + j) * r + row) * c + col)%nat
      with ((i * m + j) * (r * c) + (row * c + col))%nat by nia.
    rewrite (nth_error_concat_uniform (r * c) _ _ _ (frombuffer_uint16 frame));
      [| exact Hsamples | now rewrite nth_error_map, Hf | nia].
    rewrite <- (app_nil_r frame), Hr.
    change (frombuffer_uint16 []) with (@nil Z).
    rewrite app_nil_r, nth_error_map.
    unfold r, c. rewrite plane_data_nth by assumption. reflexivity.
Qed.

Lemma signed_type_ok (a : ndarray) (t : _PixelDataType) (attr : string) :
  _get_pixel_data_type_and_attr a = Ok (t, attr) -> kind (dt a) = "i"%char ->
  dtype_in (dt a) [np_int8; np_int16] = true /\ t = SHORT
  /\ attr = "PixelData"%string.
Proof.
  unfold _get_pixel_data_type_and_attr. intros H Hk. rewrite Hk in H.
  cbn [Ascii.eqb Bool.eqb andb] in H.
  destruct (dtype_in (dt a) [np_int8; np_int16]); cbn [negb] in H;
    inversion H; auto.
Qed.

Lemma signed_samples_in_range (a : ndarray) (k : nat) :
  forallb (in_range (dt a)) (data a) = true -> kind (dt a) = "i"%char ->
  dtype_in (dt a) [np_int8; np_int16] = true ->
  - 2 ^ 15 <= nth k (data a) 0 < 2 ^ 15.
Proof.
  intros Hall Hk Hin.
  assert (Hsize : itemsize (dt a) = 1 \/ itemsize (dt a) = 2).
  { unfold dtype_in in Hin. cbn [existsb] in Hin. rewrite orb_false_r in Hin.
    apply orb_true_iff in Hin. unfold dtype_eqb in Hin.
    destruct Hin as [H|H]; apply andb_true_iff in H; destruct H as [H _];
      apply andb_true_iff in H; destruct H as [_ H]; apply Z.eqb_eq in H;
      cbn in H; auto. }
  destruct (Nat.lt_ge_cases k (length (data a))) as [Hlt|Hge].
  - rewrite forallb_forall in Hall. specialize (Hall _ (nth_In _ 0 Hlt)).
    unfold in_range in Hall. rewrite Hk in Hall. cbn [Ascii.eqb Bool.eqb andb] in Hall.
    apply andb_true_iff in Hall. destruct Hall as [H0 H1].
    apply Z.leb_le in H0. apply Z.ltb_lt in H1.
    destruct Hsize as [Hs|Hs]; rewrite Hs in H0, H1; cbn in H0, H1; lia.
  - rewrite nth_overflow by exact Hge. lia.
Qed.

Lemma native_signed_frame_length (self : ParametricMap) (p : ndarray) (frame : bytes) :
  is_encapsulated (TransferSyntaxUID self) = false ->
  ndim p = 2%nat -> kind (dt p) = "i"%char ->
  _encode_frame self p = Ok frame ->
  length frame = (2 * length (data p))%nat.
Proof.
  intros Hnative Hndim Hkind. unfold _encode_frame.
  rewrite Hndim, Hnative. cbn [Nat.eqb negb].
  assert (H8 : dtype_eqb (dt p) np_uint8 = false)
    by (unfold dtype_eqb; rewrite Hkind; reflexivity).
  rewrite H8, Hkind. cbn [Ascii.eqb Bool.eqb andb].
  intros H; inversion H; subst frame.
  unfold tobytes, flatten, astype, add_scalar. cbn [dt data].
  rewrite length_tobytes_u16 by reflexivity. now rewrite !length_map.
Qed.

(** X3.  In every build from a signed integer array that succeeds in native
    mode, the pixel data are [2] bytes per sample and, read again as
    unsigned 16-bit samples, they are the values of the array moved up by
    the rescale intercept [2 ^ 15] that the shared functional group records:
    the sample of row [row] and column [col] of frame [i * m + j] is
    [pixel_array[i, row, col, j] + 2 ^ 15]. *)
Theorem native_signed_round_trip (args : arguments) (doc : ParametricMap) :
  __init__ args = Ok doc ->
  kind (dt (pixel_array args)) = "i"%char ->
  is_encapsulated (transfer_syntax_uid args) = false ->
  ndarray_ok (pixel_array args) = true ->
  exists buf item n r c m,
    shape (as_4d (pixel_array args)) = [n; r; c; m]
    /\ PixelData doc = Some buf
    /\ length buf = (n * m * (r * c) * 2)%nat
    /\ SharedFunctionalGroupsSequence doc = [item]
    /\ RescaleIntercept item = 2 ^ 15
    /\ RescaleSlope item = 1
    /\ forall i row col j,
         (i < n)%nat -> (row < r)%nat -> (col < c)%nat -> (j < m)%nat ->
         nth_error (frombuffer_uint16 buf) (((i * m + j) * r + row) * c + col)
         = Some (item4 (as_4d (pixel_array args)) i row col j + RescaleIntercept item).
Proof.
  unfold __init__. intros H Hkind Hnative Hok.
  bind_ok H. destruct a as [self loc]. bind_ok H. destruct a as [frames groups].
  inversion H; subst doc; clear H.
  destruct (init_setup_shape _ _ _ E) as (Ha & Hn4 & _ & _).
  destruct (init_setup_ok _ _ _ E) as
    (src_img & is_multiframe & shared & item & _ & _ & _ & _ & _ & _ & _ & Htype
       & Hts & _ & _ & _ & Hshared & _ & Hri & Hrs & _).
  assert (Hk4 : kind (dt (loc_pixel_array loc)) = "i"%char)
    by (rewrite Ha, dt_as_4d; exact Hkind).
  destruct (signed_type_ok _ _ _ Htype Hk4) as (Hin & _ & Hattr).
  rewrite Hk4 in Hri. change (RescaleIntercept item = 2 ^ 15) in Hri.
  assert (Hrange : forall k, - 2 ^ 15 <= nth k (data (loc_pixel_array loc)) 0 < 2 ^ 15).
  { intros k. apply signed_samples_in_range; try assumption.
    rewrite Ha, dt_as_4d, data_as_4d. unfold ndarray_ok in Hok.
    now apply andb_true_iff in Hok. }
  rewrite Hts, Hnative, Hattr.
  destruct (native_frames_read_back (fun v => v + 2 ^ 15) _ _ _ _ _ _ _ _ E0)
    as [Hbuf Hread].
  { intros i j frame Hi Hj He. split.
    - apply (native_signed_frame_length self (plane (loc_pixel_array loc) i j) frame);
        [now rewrite Hts | reflexivity | exact Hk4 | exact He].
    - destruct (native_signed_frame self (plane (loc_pixel_array loc) i j))
        as (frame' & He' & Hr); try assumption; try reflexivity.
      + now rewrite Hts.
      + apply Forall_forall. intros v Hv. cbn [plane data] in Hv.
        apply in_flat_map in Hv. destruct Hv as (row & _ & Hv).
        apply in_map_iff in Hv. destruct Hv as (col & <- & _). apply Hrange.
      + rewrite He in He'. inversion He'; subst frame'. exact Hr. }
  exists (join frames), item, (dim (loc_pixel_array loc) 0),
    (dim (loc_pixel_array loc) 1), (dim (loc_pixel_array loc) 2),
    (dim (loc_pixel_array loc) 3).
  split; [rewrite <- Ha; now apply shape_of_ndim_4|].
  split; [reflexivity|]. split; [exact Hbuf|]. split; [exact Hshared|].
  split; [exact Hri|]. split; [exact Hrs|].
  intros i row col j Hi Hrow Hcol Hj. rewrite Hri, <- Ha. now apply Hread.
Qed.

End ReadBack.

(** ** The bytes of native frames *)

Section Pixels.

Context {env : Collaborators}.

Lemma length_le_bytes (width : nat) (v : Z) : length (le_bytes width v) = width.
Proof.
  revert v; induction width as [|w IH]; intros v; cbn [le_bytes length];
    [reflexivity | now rewrite IH].
Qed.

Lemma length_sample_bytes (d : dtype) (v : Z) :
  length (sample_bytes d v) = Z.to_nat (itemsize d).
Proof.
  unfold sample_bytes. destruct (xorb _ _); [rewrite length_rev|];
    apply length_le_bytes.
Qed.

Lemma length_tobytes (a : ndarray) :
  length (tobytes a) = (length (data a) * Z.to_nat (itemsize (dt a)))%nat.
Proof.
  unfold tobytes. rewrite flat_map_concat_map.
  rewrite (length_concat_uniform (Z.to_nat (itemsize (dt a)))).
  - now rewrite length_map.
  - apply Forall_forall. intros l Hl. apply in_map_iff in Hl.
    destruct Hl as (v & <- & _). apply length_sample_bytes.
Qed.

(** The frames of a loop that ended normally, in the order of the loop. *)
Lemma _create_frame_items_frames_eq (self : ParametricMap) (a : ndarray)
  (t : _PixelDataType) (mappings : pyobj) (cs : CoordinateSystemNames)
  (positions : list PlanePosition) (frames : list bytes) (groups : list pffg)
  (encoded : nat -> nat -> bytes) :
  _create_frame_items self a t mappings cs positions = Ok (frames, groups) ->
  (forall i j, (i < dim a 0)%nat -> (j < dim a 3)%nat ->
     _encode_frame self (plane a i j) = Ok (encoded i j)) ->
  frames = map (fun k => encoded (k / dim a 3) (k mod dim a 3))%nat
               (seq 0 (dim a 0 * dim a 3)).
Proof.
  intros E Henc. apply nth_error_ext. intros k.
  pose proof (_create_frame_items_ok _ _ _ _ _ _ _ _ E) as (Hlen & _ & _).
  destruct (nth_error frames k) as [frame|] eqn:Hk.
  - destruct (_create_frame_items_frames _ _ _ _ _ _ _ _ _ _ E Hk)
      as (i & j & Hi & Hj & Hkij & He).
    rewrite Henc in He by assumption. inversion He; subst frame.
    rewrite nth_error_map, nth_error_seq_lt by nia. cbn [option_map].
    assert (k / dim a 3 = i /\ k mod dim a 3 = j)%nat as [-> ->]; [|reflexivity].
    apply (Nat.div_mod_unique (dim a 3)); [apply Nat.mod_upper_bound; lia | lia |].
    rewrite <- Nat.div_mod_eq. lia.
  - apply nth_error_None in Hk. symmetry. apply nth_error_None.
    rewrite length_map, length_seq. unfold bytes in *. lia.
Qed.

Lemma float_type_ok (a : ndarray) (t : _PixelDataType) (attr : string) :
  _get_pixel_data_type_and_attr a = Ok (t, attr) -> kind (dt a) = "f"%char ->
  (itemsize (dt a) = 4 /\ t = SINGLE /\ attr = "FloatPixelData"%string)
  \/ (itemsize (dt a) = 8 /\ t = DOUBLE /\ attr = "DoubleFloatPixelData"%string).
Proof.
  unfold _get_pixel_data_type_and_attr, name_eqb, dtype_name. intros H Hk.
  rewrite Hk in H. cbn [Ascii.eqb Bool.eqb andb fst snd String.eqb] in H.
  destruct (Z.eqb_spec (8 * itemsize (dt a)) 32) as [H32|_].
  - inversion H. left. repeat split. lia.
  - destruct (Z.eqb_spec (8 * itemsize (dt a)) 64) as [H64|_]; inversion H.
    right. repeat split. lia.
Qed.

Lemma native_float_frame (self : ParametricMap) (p : ndarray) :
  is_encapsulated (TransferSyntaxUID self) = false ->
  ndim p = 2%nat -> kind (dt p) = "f"%char ->
  _encode_frame self p = Ok (tobytes (flatten p)).
Proof.
  intros Hnative Hndim Hkind. unfold _encode_frame.
  rewrite Hndim, Hnative. cbn [Nat.eqb negb].
  assert (H8 : dtype_eqb (dt p) np_uint8 = false)
    by (unfold dtype_eqb; rewrite Hkind; reflexivity).
  rewrite H8, Hkind. reflexivity.
Qed.

Lemma float_is_native (a : ndarray) (u : UID) :
  transfer_syntax_check a u = Ok tt -> kind (dt a) = "f"%char ->
  is_encapsulated u = false.
Proof.
  intros Hts Hk. destruct (is_encapsulated u) eqn:He; [|reflexivity].
  pose proof (encapsulated_needs_integer a u Hts He) as Hint.
  unfold is_integer in Hint. rewrite Hk in Hint. discriminate.
Qed.

(** X4.  In every build from a floating-point array that succeeds, the pixel
    data are stored natively, under [FloatPixelData] for 4-byte samples and
    under [DoubleFloatPixelData] for 8-byte samples, and [PixelData] is not
    set.  The bytes are those of numpy for each plane, frame after frame in
    the order of the frames: no sample is cast, moved or put into another
    byte order. *)
Theorem float_samples_are_stored_unchanged (args : arguments) (doc : ParametricMap) :
  __init__ args = Ok doc ->
  kind (dt (pixel_array args)) = "f"%char ->
  let a := as_4d (pixel_array args) in
  let size := itemsize (dt (pixel_array args)) in
  exists buf,
    is_encapsulated (TransferSyntaxUID doc) = false
    /\ PixelData doc = None
    /\ (size = 4 /\ FloatPixelData doc = Some buf /\ DoubleFloatPixelData doc = None
        \/ size = 8 /\ DoubleFloatPixelData doc = Some buf /\ FloatPixelData doc = None)
    /\ buf = concat (map (fun k => tobytes (flatten (plane a (k / dim a 3) (k mod dim a 3))))
                         (seq 0 (dim a 0 * dim a 3)))
    /\ length buf = (dim a 0 * dim a 3 * (dim a 1 * dim a 2) * Z.to_nat size)%nat.
Proof.
  unfold __init__. intros H Hkind.
  bind_ok H. destruct a as [self loc]. bind_ok H. destruct a as [frames groups].
  inversion H; subst doc; clear H. cbv zeta.
  set (a := as_4d (pixel_array args)).
  set (size := itemsize (dt (pixel_array args))).
  destruct (init_setup_shape _ _ _ E) as (Ha & Hn4 & _ & _).
  destruct (init_setup_ok _ _ _ E) as
    (src_img & is_multiframe & shared & item & _ & Hsyn & _ & _ & _ & _ & _ & Htype
       & Hts & _ & _ & _ & _ & _ & _ & _ & _ & _ & _ & _ & Hpd & Hfd & Hdd).
  assert (Hk4 : kind (dt (loc_pixel_array loc)) = "f"%char)
    by (rewrite Ha, dt_as_4d; exact Hkind).
  assert (Hnative : is_encapsulated (transfer_syntax_uid args) = false)
    by (eapply float_is_native; eassumption).
  assert (Hframes : frames = map (fun k => tobytes (flatten (plane a (k / dim a 3)
                                                              (k mod dim a 3))))%nat
                                 (seq 0 (dim a 0 * dim a 3))).
  { subst a. rewrite <- Ha.
    apply (_create_frame_items_frames_eq _ _ _ _ _ _ _ _
             (fun i j => tobytes (flatten (plane (loc_pixel_array loc) i j))) E0).
    intros i j _ _. apply native_float_frame;
      [now rewrite Hts | reflexivity | exact Hk4]. }
  assert (Hlen : length (join frames)
                 = (dim a 0 * dim a 3 * (dim a 1 * dim a 2) * Z.to_nat size)%nat).
  { unfold join. rewrite (length_concat_uniform (dim a 1 * dim a 2 * Z.to_nat size)).
    - rewrite Hframes, length_map, length_seq. lia.
    - rewrite Hframes. apply Forall_forall. intros f Hf. apply in_map_iff in Hf.
      destruct Hf as (k & <- & _). rewrite length_tobytes.
      cbn [flatten data dt]. rewrite length_plane_data. cbn [plane dt].
      subst a size. now rewrite dt_as_4d. }
  rewrite Hts, Hnative.
  assert (Hsize : itemsize (dt (loc_pixel_array loc)) = size)
    by (subst size; now rewrite Ha, dt_as_4d).
  exists (join frames).
  split; [cbn [TransferSyntaxUID set_frames]; now rewrite Hts|].
  destruct (float_type_ok _ _ _ Htype Hk4) as [(Hs & _ & Hattr) | (Hs & _ & Hattr)];
    rewrite Hattr; cbn [set_frames PixelData FloatPixelData DoubleFloatPixelData].
  - split; [exact Hpd|]. split; [left; rewrite <- Hsize; auto|].
    split; [now rewrite <- Hframes | exact Hlen].
  - split; [exact Hpd|]. split; [right; rewrite <- Hsize; auto|].
    split; [now rewrite <- Hframes | exact Hlen].
Qed.

(** X5.  A build that succeeds stores the pixel data under exactly one
    attribute, the one of the representation of the data type of the array,
    which the code has accepted: [PixelData] for the two integer
    representations, [FloatPixelData] for single and [DoubleFloatPixelData]
    for double precision; the other two attributes are not set. *)
Theorem pixel_data_is_stored_under_one_attribute (args : arguments)
  (doc : ParametricMap) :
  __init__ args = Ok doc ->
  exists t buf,
    representation_of (dt (pixel_array args)) = Some t
    /\ _get_pixel_data_type_and_attr (pixel_array args)
       = Ok (t, _pixel_data_type_map t)
    /\ match t with
       | SHORT | USHORT =>
           PixelData doc = Some buf /\ FloatPixelData doc = None
           /\ DoubleFloatPixelData doc = None
       | SINGLE =>
           FloatPixelData doc = Some buf /\ PixelData doc = None
           /\ DoubleFloatPixelData doc = None
       | DOUBLE =>
           DoubleFloatPixelData doc = Some buf /\ PixelData doc = None
           /\ FloatPixelData doc = None
       end.
Proof.
  unfold __init__. intros H.
  bind_ok H. destruct a as [self loc]. bind_ok H. destruct a as [frames groups].
  inversion H; subst doc; clear H.
  destruct (init_setup_shape _ _ _ E) as (Ha & _).
  destruct (init_setup_ok _ _ _ E) as
    (src_img & is_multiframe & shared & item & _ & _ & _ & _ & _ & _ & _ & Htype
       & _ & _ & _ & _ & _ & _ & _ & _ & _ & _ & _ & _ & Hpd & Hfd & Hdd).
  pose proof (_get_pixel_data_type_and_attr_attr _ _ _ Htype) as Hattr.
  destruct (_get_pixel_data_type_and_attr_ok _ _ _ Htype) as [Hrep _].
  rewrite Ha, dt_as_4d in Hrep.
  assert (Hcode : _get_pixel_data_type_and_attr (pixel_array args)
                  = Ok (loc_pixel_data_type loc,
                        _pixel_data_type_map (loc_pixel_data_type loc))).
  { rewrite <- Hattr, <- Htype. unfold _get_pixel_data_type_and_attr.
    now rewrite Ha, dt_as_4d. }
  exists (loc_pixel_data_type loc). eexists.
  split; [exact Hrep|]. split; [exact Hcode|].
  rewrite Hattr.
  destruct (loc_pixel_data_type loc); cbn; rewrite ?Hpd, ?Hfd, ?Hdd;
    repeat split; reflexivity.
Qed.


Lemma sample_bytes_swapped (d : dtype) (v : Z) :
  swapped d = true ->
  sample_bytes d v
  = rev (sample_bytes {| kind := kind d; itemsize := itemsize d; swapped := false |} v).
Proof.
  intros Hs. unfold sample_bytes. rewrite Hs. cbn [swapped itemsize].
  destruct big_endian_host; cbn [xorb]; [now rewrite rev_involutive | reflexivity].
Qed.

(** X7.  An array whose samples are not in the byte order of the host.  With
    16-bit integers it is refused as an unsupported element type, since its
    data type is neither [np.int16] nor [np.uint16].  With 32-bit floats it
    is accepted, since only the name of the data type is looked at, and a
    native frame holds the bytes of every sample in the order of the array,
    the reverse of the order of the host: the constructor never swaps
    bytes. *)
Theorem byte_order_of_the_array_is_kept (self : ParametricMap) (p : ndarray) :
  swapped (dt p) = true ->
  ((kind (dt p) = "u"%char \/ kind (dt p) = "i"%char) -> itemsize (dt p) = 2 ->
   exists e, _get_pixel_data_type_and_attr p = Raise e
             /\ failure_of e = Some UnsupportedElementType)
  /\ (kind (dt p) = "f"%char -> itemsize (dt p) = 4 ->
      _get_pixel_data_type_and_attr p = Ok (SINGLE, "FloatPixelData"%string)
      /\ (ndim p = 2%nat -> is_encapsulated (TransferSyntaxUID self) = false ->
          _encode_frame self p
          = Ok (flat_map (fun v => rev (sample_bytes np_float32 v)) (data p)))).
Proof.
  intros Hs. split.
  - intros Hk Hi. unfold _get_pixel_data_type_and_attr, dtype_in, dtype_eqb.
    destruct (dt p) as [k s w]. cbn [kind itemsize swapped] in *. subst s w.
    destruct Hk as [-> | ->]; cbn; eexists; split; reflexivity.
  - intros Hk Hi. split.
    + unfold _get_pixel_data_type_and_attr, name_eqb, dtype_name.
      rewrite Hk, Hi. reflexivity.
    + intros Hn Hnative. rewrite native_float_frame by assumption.
      unfold tobytes. cbn [flatten data dt]. f_equal.
      apply flat_map_ext. intros v. rewrite sample_bytes_swapped by exact Hs.
      rewrite Hk, Hi. reflexivity.
Qed.

End Pixels.

(** ** When the frame loop returns *)

Section Returns.

Context {env : Collaborators}.

Lemma traverse_total {A B : Type} (f : A -> result B) (l : list A) :
  (forall a, In a l -> exists b, f a = Ok b) -> exists bs, traverse f l = Ok bs.
Proof.
  induction l as [|a l IH]; intros H; cbn [traverse].
  - eexists; reflexivity.
  - destruct (H a (or_introl eq_refl)) as [b ->]. cbn [bind].
    destruct IH as [bs ->]; [intros x Hx; apply H; now right|].
    cbn [bind]. eexists; reflexivity.
Qed.

Lemma _create_frame_items_returns (self : ParametricMap) (a : ndarray)
  (t : _PixelDataType) (mappings : pyobj) (cs : CoordinateSystemNames)
  (positions : list PlanePosition) :
  (forall i j, (i < dim a 0)%nat -> (j < dim a 3)%nat ->
     exists x, frame_item self a mappings cs positions i j = Ok x) ->
  exists frames groups,
    _create_frame_items self a t mappings cs positions = Ok (frames, groups).
Proof.
  intros H. rewrite _create_frame_items_collect.
  destruct (traverse_total
              (fun i => traverse (frame_item self a mappings cs positions i)
                                 (seq 0 (dim a 3)))
              (seq 0 (dim a 0))) as [turns Ht].
  - intros i Hi. apply in_seq in Hi. apply traverse_total.
    intros j Hj. apply in_seq in Hj. apply H; lia.
  - rewrite Ht. cbn [bind]. eexists _, _. reflexivity.
Qed.

Lemma frame_item_returns (self : ParametricMap) (a : ndarray) (mappings : pyobj)
  (cs : CoordinateSystemNames) (positions : list PlanePosition) (i j : nat)
  (frame : bytes) :
  (i < length positions)%nat ->
  (i < length (get_index_values cs positions))%nat ->
  ((1 < dim a 3)%nat ->
   exists mapping, getitem mappings j = Ok mapping
                   /\ pydicom_Sequence mapping = Ok mapping) ->
  _encode_frame self (plane a i j) = Ok frame ->
  exists item, frame_item self a mappings cs positions i j = Ok (frame, item).
Proof.
  intros Hp Hv Hm He. unfold frame_item, index.
  destruct (nth_error positions i) as [position|] eqn:Hpos;
    [|apply nth_error_None in Hpos; lia].
  destruct (nth_error (get_index_values cs positions) i) as [values|] eqn:Hval;
    [|apply nth_error_None in Hval; lia].
  cbn [bind]. destruct (1 <? dim a 3)%nat eqn:Hmulti.
  - destruct Hm as (mapping & -> & Hseq); [now apply Nat.ltb_lt|]. cbn [bind].
    rewrite Hseq. cbn [bind]. rewrite He. cbn [bind]. eexists; reflexivity.
  - cbn [bind]. rewrite He. cbn [bind]. eexists; reflexivity.
Qed.

Lemma getitem_of_len (mappings : pyobj) (m j : nat) :
  len mappings = Ok m -> (j < m)%nat -> exists mapping, getitem mappings j = Ok mapping.
Proof.
  destruct mappings as [item| |items|]; cbn [len]; intros H Hj; try discriminate.
  inversion H; subst m. cbn [getitem]. unfold index.
  destruct (nth_error items j) eqn:Hn; [eexists; reflexivity|].
  apply nth_error_None in Hn. lia.
Qed.

Lemma channels_are_sequences_getitem (mappings mapping : pyobj) (j : nat) :
  channels_are_sequences mappings = true -> getitem mappings j = Ok mapping ->
  pydicom_Sequence mapping = Ok mapping.
Proof.
  destruct mappings as [item| |channels|]; cbn [channels_are_sequences getitem];
    try discriminate.
  intros Hall Hj. unfold index in Hj.
  destruct (nth_error channels j) as [channel|] eqn:Hn; [|discriminate].
  inversion Hj; subst channel. apply nth_error_In in Hn.
  rewrite forallb_forall in Hall. specialize (Hall _ Hn).
  destruct mapping as [item| |items|]; try discriminate.
  cbn [pydicom_Sequence]. now rewrite Hall.
Qed.


(** With several channels the array was given with four dimensions, and
    the nested mappings are the argument itself. *)
Lemma init_setup_nested (args : arguments) (self : ParametricMap) (loc : locals) :
  init_setup args = Ok (self, loc) ->
  (1 < dim (loc_pixel_array loc) 3)%nat ->
  loc_real_world_value_mappings loc = real_world_value_mappings args.
Proof.
  intros H Hmulti. apply init_setup_ok in H.
  destruct H as (src_img & is_multiframe & shared & item & _ & _ & _ & Hm & _).
  apply mapping_checks_ok in Hm. destruct Hm as [_ Hcase].
  destruct Hcase as [(Hn & _ & _ & Ha & _) | (_ & _ & Hnested & _)];
    [|exact Hnested].
  rewrite Ha, dim_3_as_4d in Hmulti by exact Hn. lia.
Qed.

(** After a set-up that succeeded, the frame loop returns when every plane
    can be encoded and the geometry provider has given index values for
    every plane position. *)
Lemma frame_loop_returns (args : arguments) (self : ParametricMap) (loc : locals)
  (encoded : nat -> nat -> bytes) :
  init_setup args = Ok (self, loc) ->
  (length (loc_plane_positions loc)
   <= length (get_index_values (loc_coordinate_system loc) (loc_plane_positions loc)))%nat ->
  ((1 < dim (loc_pixel_array loc) 3)%nat ->
   channels_are_sequences (loc_real_world_value_mappings loc) = true) ->
  (forall i j, (i < dim (loc_pixel_array loc) 0)%nat ->
     (j < dim (loc_pixel_array loc) 3)%nat ->
     _encode_frame self (plane (loc_pixel_array loc) i j) = Ok (encoded i j)) ->
  exists groups,
    _create_frame_items self (loc_pixel_array loc) (loc_pixel_data_type loc)
                        (loc_real_world_value_mappings loc)
                        (loc_coordinate_system loc) (loc_plane_positions loc)
    = Ok (map (fun k => encoded (k / dim (loc_pixel_array loc) 3)
                                (k mod dim (loc_pixel_array loc) 3))%nat
              (seq 0 (dim (loc_pixel_array loc) 0 * dim (loc_pixel_array loc) 3)),
          groups).
Proof.
  intros Hset Hvalues Hchannels Henc.
  destruct (init_setup_shape _ _ _ Hset) as (_ & _ & Hp & Hm).
  destruct (_create_frame_items_returns self (loc_pixel_array loc)
              (loc_pixel_data_type loc) (loc_real_world_value_mappings loc)
              (loc_coordinate_system loc) (loc_plane_positions loc))
    as (frames & groups & Hloop).
  - intros i j Hi Hj.
    destruct (frame_item_returns self (loc_pixel_array loc)
                (loc_real_world_value_mappings loc) (loc_coordinate_system loc)
                (loc_plane_positions loc) i j (encoded i j)) as [item Hitem];
      [lia | lia | | now apply Henc | eauto].
    intros Hmulti. destruct (getitem_of_len _ _ _ Hm Hj) as [mapping Hget].
    exists mapping. split; [exact Hget|].
    now apply (channels_are_sequences_getitem _ _ j (Hchannels Hmulti)).
  - exists groups. rewrite Hloop. f_equal. f_equal.
    now apply (_create_frame_items_frames_eq _ _ _ _ _ _ _ _ encoded Hloop).
Qed.




Lemma encapsulated_frame (args : arguments) (self : ParametricMap) (loc : locals)
  (i j : nat) :
  init_setup args = Ok (self, loc) ->
  is_encapsulated (transfer_syntax_uid args) = true ->
  _encode_frame self (plane (loc_pixel_array loc) i j)
  = encode_frame (astype (plane (loc_pixel_array loc) i j) np_uint16)
                 (transfer_syntax_uid args) 16 16 "MONOCHROME2"%string 0.
Proof.
  intros H Henc.
  destruct (init_setup_shape _ _ _ H) as (Ha & _).
  destruct (init_setup_ok _ _ _ H) as
    (src_img & is_multiframe & shared & item & _ & Hsyntax & _ & _ & _ & _ & _
       & Htype & Hts & Hph & _ & _ & _ & _ & _ & _ & Hba & Hbs & _ & Hpr & _).
  assert (Hint : is_integer (dt (loc_pixel_array loc)) = true).
  { rewrite Ha, dt_as_4d. eapply encapsulated_needs_integer; eassumption. }
  unfold _encode_frame. rewrite Hts, Henc, Hba, Hbs, Hpr, Hph.
  destruct (integer_type_is_short _ _ _ Htype Hint) as [-> | ->]; reflexivity.
Qed.

(** X9.  In encapsulated mode, after a set-up that succeeded and with index
    values for every plane position: when the codec returns for the plane
    of every position and channel and, if there are several channels, every
    entry of the nested mappings is a list or tuple of data sets, the
    constructor returns an instance whose [PixelData] is the encapsulation
    of the codec's frames in position-major order, one for every position
    and channel; when the codec raises for some plane, the constructor
    raises and returns no instance. *)
Theorem encapsulated_build_encodes_every_plane (args : arguments)
  (self : ParametricMap) (loc : locals) :
  init_setup args = Ok (self, loc) ->
  is_encapsulated (transfer_syntax_uid args) = true ->
  (length (loc_plane_positions loc)
   <= length (get_index_values (loc_coordinate_system loc) (loc_plane_positions loc)))%nat ->
  let a := loc_pixel_array loc in
  let codec i j :=
    encode_frame (astype (plane a i j) np_uint16) (transfer_syntax_uid args)
                 16 16 "MONOCHROME2"%string 0 in
  (forall encoded : nat -> nat -> bytes,
     (forall i j, (i < dim a 0)%nat -> (j < dim a 3)%nat -> codec i j = Ok (encoded i j)) ->
     ((1 < dim a 3)%nat ->
      channels_are_sequences (real_world_value_mappings args) = true) ->
     exists doc,
       __init__ args = Ok doc
       /\ PixelData doc
          = Some (encapsulate (map (fun k => encoded (k / dim a 3) (k mod dim a 3))%nat
                                   (seq 0 (dim a 0 * dim a 3))))
       /\ NumberOfFrames doc = Some (dim a 0 * dim a 3)%nat)
  /\ (forall i j e, (i < dim a 0)%nat -> (j < dim a 3)%nat -> codec i j = Raise e ->
      exists e', __init__ args = Raise e').
Proof.
  intros Hset Henc Hvalues a codec.
  destruct (init_setup_shape _ _ _ Hset) as (Ha & _).
  destruct (init_setup_ok _ _ _ Hset) as
    (src_img & is_multiframe & shared & item & _ & Hsyntax & _ & _ & _ & _ & _
       & Htype & Hts & _).
  split.
  - intros encoded Hcodec Hchannels.
    destruct (frame_loop_returns args self loc encoded Hset Hvalues) as [groups Hloop].
    { intros Hmulti. rewrite (init_setup_nested _ _ _ Hset Hmulti).
      now apply Hchannels. }
    { intros i j Hi Hj. rewrite (encapsulated_frame args self loc i j Hset Henc).
      now apply Hcodec. }
    unfold __init__. rewrite Hset. cbn [bind]. rewrite Hloop. cbn [bind].
    eexists. split; [reflexivity|].
    assert (Hint4 : is_integer (dt (loc_pixel_array loc)) = true).
    { rewrite Ha, dt_as_4d. eapply encapsulated_needs_integer; eassumption. }
    assert (Hattr : loc_pixel_data_attr loc = "PixelData"%string).
    { rewrite (_get_pixel_data_type_and_attr_attr _ _ _ Htype).
      destruct (integer_type_is_short _ _ _ Htype Hint4) as [-> | ->]; reflexivity. }
    rewrite Hattr, Hts, Henc. cbn [NumberOfFrames PixelData set_frames].
    split; [reflexivity|]. now rewrite length_map, length_seq.
  - intros i j e Hi Hj Hraise.
    destruct (__init__ args) as [doc|e'] eqn:Hbuild; [|now exists e'].
    exfalso. unfold __init__ in Hbuild. rewrite Hset in Hbuild. cbn [bind] in Hbuild.
    bind_ok Hbuild. destruct a0 as [frames groups].
    pose proof (_create_frame_items_ok _ _ _ _ _ _ _ _ E) as (_ & _ & Hnth).
    destruct (Hnth i j Hi Hj) as (frame & group & Hitem & _).
    unfold frame_item in Hitem. repeat bind_ok Hitem.
    rewrite (encapsulated_frame args self loc i j Hset Henc) in E3.
    unfold codec, a in Hraise. congruence.
Qed.

End Returns.

(** ** The attributes of a build *)

Section Attributes.

Context {env : Collaborators}.

Lemma source_image_checks_first (source_images : list Src.Dataset)
  (src_img : Src.Dataset) (is_multiframe : bool) :
  source_image_checks source_images = Ok (src_img, is_multiframe) ->
  (exists rest, source_images = src_img :: rest)
  /\ is_multiframe = hasattr (Src.NumberOfFrames src_img).
Proof.
  unfold source_image_checks. intros H.
  bind_ok H. bind_ok H. bind_ok H. bind_ok H. inversion H; subst; clear H.
  apply index_ok in E1. destruct source_images as [|first rest]; [discriminate|].
  inversion E1; subst. split; [now exists rest | reflexivity].
Qed.

(** X10.  In a build that succeeds, the per-frame functional group at index [k]
    holds the plane position [k / m] of the positions given, or else of
    those of the source image(s), under exactly one attribute:
    [PlanePositionSlideSequence] when the first source image has
    [ImageOrientationSlide] or [ImageCenterPointCoordinatesSequence], and
    [PlanePositionSequence] otherwise. *)
Theorem plane_positions_follow_the_coordinate_system (args : arguments)
  (doc : ParametricMap) :
  __init__ args = Ok doc ->
  exists src_img rest groups,
    source_images args = src_img :: rest
    /\ PerFrameFunctionalGroupsSequence doc = Some groups
    /\ forall k group, nth_error groups k = Some group ->
         exists position,
           nth_error (positions_of args (hasattr (Src.NumberOfFrames src_img)) src_img)
                     (k / dim (as_4d (pixel_array args)) 3)
           = Some position
           /\ if Src.has_ImageOrientationSlide src_img
                 || Src.has_ImageCenterPointCoordinatesSequence src_img
              then pffg_PlanePositionSlideSequence group = Some position
                   /\ pffg_PlanePositionSequence group = None
              else pffg_PlanePositionSequence group = Some position
                   /\ pffg_PlanePositionSlideSequence group = None.
Proof.
  unfold __init__. intros H.
  bind_ok H. destruct a as [self loc]. bind_ok H. destruct a as [frames groups].
  inversion H; subst doc; clear H.
  destruct (init_setup_shape _ _ _ E) as (Ha & _).
  destruct (init_setup_ok _ _ _ E) as
    (src_img & is_multiframe & shared & item & Hsrc & _ & _ & _ & Hpos & _ & Hcs & _).
  destruct (source_image_checks_first _ _ _ Hsrc) as [[rest Hrest] Hmf].
  exists src_img, rest, groups. split; [exact Hrest|]. split; [reflexivity|].
  intros k group Hk.
  destruct (_create_frame_items_groups _ _ _ _ _ _ _ _ _ _ E0 Hk)
    as (i & j & frame & Hi & Hj & Hkij & Hitem).
  apply frame_item_record in Hitem.
  destruct Hitem as (_ & (position & Hp & Hattr) & _).
  exists position. rewrite <- Hmf, <- Hpos, <- Ha.
  assert (Hdiv : (k / dim (loc_pixel_array loc) 3 = i)%nat).
  { subst k. rewrite Nat.div_add_l by lia. rewrite Nat.div_small by lia. lia. }
  rewrite Hdiv. split; [exact Hp|].
  rewrite Hcs in Hattr. unfold coordinate_system_of in Hattr.
  destruct (Src.has_ImageOrientationSlide src_img
            || Src.has_ImageCenterPointCoordinatesSequence src_img); exact Hattr.
Qed.

Lemma shape_as_4d_cases (a : ndarray) :
  (ndim a = 2 \/ ndim a = 3 \/ ndim a = 4)%nat ->
  match shape a with
  | [r'; c'] =>
      dim (as_4d a) 0 = 1%nat /\ dim (as_4d a) 1 = r' /\ dim (as_4d a) 2 = c'
      /\ dim (as_4d a) 3 = 1%nat
  | [n'; r'; c'] =>
      dim (as_4d a) 0 = n' /\ dim (as_4d a) 1 = r' /\ dim (as_4d a) 2 = c'
      /\ dim (as_4d a) 3 = 1%nat
  | [n'; r'; c'; m'] =>
      dim (as_4d a) 0 = n' /\ dim (as_4d a) 1 = r' /\ dim (as_4d a) 2 = c'
      /\ dim (as_4d a) 3 = m'
  | _ => False
  end.
Proof.
  unfold as_4d, ndim, dim, newaxis_back, newaxis_front.
  destruct (shape a) as [|x0 [|x1 [|x2 [|x3 [|x4 l]]]]] eqn:Hs; cbn;
    rewrite ?Hs; cbn; intros H; try lia; repeat split; reflexivity.
Qed.

(** X11.  A build that succeeds has an array of two, three or four dimensions.
    Its rows and columns are those of the planes of the array and its
    number of frames is the product of the numbers of plane positions and of
    channels: a 2D array of shape [(r, c)] gives one frame, a 3D array of
    shape [(n, r, c)] gives [n] frames, and a 4D array of shape
    [(n, r, c, m)] gives [n * m] frames. *)
Theorem rows_and_columns_of_the_array (args : arguments) (doc : ParametricMap) :
  __init__ args = Ok doc ->
  exists n r c m,
    Rows doc = r /\ Columns doc = c /\ NumberOfFrames doc = Some (n * m)%nat
    /\ match shape (pixel_array args) with
       | [r'; c'] => n = 1%nat /\ r = r' /\ c = c' /\ m = 1%nat
       | [n'; r'; c'] => n = n' /\ r = r' /\ c = c' /\ m = 1%nat
       | [n'; r'; c'; m'] => n = n' /\ r = r' /\ c = c' /\ m = m'
       | _ => False
       end.
Proof.
  unfold __init__. intros H.
  bind_ok H. destruct a as [self loc]. bind_ok H. destruct a as [frames groups].
  inversion H; subst doc; clear H.
  destruct (init_setup_shape _ _ _ E) as (Ha & _).
  destruct (init_setup_ok _ _ _ E) as
    (src_img & is_multiframe & shared & item & _ & _ & _ & Hmap & _ & _ & _ & _ & _
       & _ & Hrows & Hcols & _).
  pose proof (_create_frame_items_ok _ _ _ _ _ _ _ _ E0) as (Hlen & _).
  exists (dim (loc_pixel_array loc) 0), (dim (loc_pixel_array loc) 1),
    (dim (loc_pixel_array loc) 2), (dim (loc_pixel_array loc) 3).
  cbn [Rows Columns NumberOfFrames set_frames].
  split; [exact Hrows|]. split; [exact Hcols|]. split; [now rewrite Hlen|].
  apply mapping_checks_ok in Hmap. destruct Hmap as [_ Hcase].
  assert (Hrank : (ndim (pixel_array args) = 2 \/ ndim (pixel_array args) = 3
                   \/ ndim (pixel_array args) = 4)%nat).
  { destruct Hcase as [(Hn & _) | (Hn & _)].
    - apply ndim_promoted_flat in Hn. tauto.
    - apply ndim_promoted_4 in Hn. tauto. }
  rewrite Ha. now apply shape_as_4d_cases.
Qed.

(** X12.  A build that succeeds has one shared functional group.  It holds the
    window centre and the window width asked for; the VOI LUT function is
    linear exact; the rescale slope is [1], the rescale type is unspecified
    units, and the rescale intercept is [2 ^ 15] for an array of signed
    integers and [0] for any other array, whatever the transfer syntax; the
    frame type is the image type, derived and primary, and the image has
    one sample per pixel. *)
Theorem shared_group_of_a_build (args : arguments) (doc : ParametricMap) :
  __init__ args = Ok doc ->
  exists item,
    SharedFunctionalGroupsSequence doc = [item]
    /\ WindowCenter item = window_center args
    /\ WindowWidth item = window_width args
    /\ VOILUTFunction item = "LINEAR_EXACT"%string
    /\ RescaleSlope item = 1
    /\ RescaleType item = "US"%string
    /\ RescaleIntercept item
       = (if Ascii.eqb (kind (dt (pixel_array args))) "i" then 2 ^ 15 else 0)
    /\ FrameType item = ImageType doc
    /\ ImageType doc = ["DERIVED"; "PRIMARY"]%string
    /\ SamplesPerPixel doc = 1
    /\ PhotometricInterpretation doc = "MONOCHROME2"%string.
Proof.
  unfold __init__. intros H.
  bind_ok H. destruct a as [self loc]. bind_ok H. destruct a as [frames groups].
  inversion H; subst doc; clear H.
  destruct (init_setup_shape _ _ _ E) as (Ha & _).
  assert (Hdt : dt (loc_pixel_array loc) = dt (pixel_array args))
    by (now rewrite Ha, dt_as_4d).
  unfold init_setup in E.
  bind_ok E. destruct a as [src_img is_multiframe].
  bind_ok E. destruct a. bind_ok E. destruct a.
  bind_ok E. destruct a as [[shared a4] nested].
  bind_ok E. rename a into positions.
  bind_ok E. destruct a as [pixel_data_type pixel_data_attr].
  inversion E; subst self loc; clear E.
  cbn [loc_pixel_array] in Hdt.
  eexists. cbn [SharedFunctionalGroupsSequence set_frames ImageType SamplesPerPixel
                PhotometricInterpretation].
  split; [reflexivity|].
  cbn [WindowCenter WindowWidth VOILUTFunction RescaleSlope RescaleType
       RescaleIntercept FrameType].
  rewrite Hdt. repeat split; reflexivity.
Qed.

End Attributes.

(** ** The mappings that pass the checks *)

Section Mappings.

Context {env : Collaborators}.

Lemma getitem_first (o first : pyobj) :
  getitem o 0 = Ok first -> exists rest, o = Sequence (first :: rest).
Proof.
  destruct o as [item| |items|]; cbn [getitem]; try discriminate.
  unfold index. destruct items as [|x rest]; cbn [nth_error]; [discriminate|].
  intros H; inversion H; subst. now exists rest.
Qed.

(** X13.  The mappings pass the checks of the set-up (lines 382-437) exactly
    in two cases: for an array of two or three dimensions, when they are a
    list or tuple of data sets, as pydicom asks of the value assigned at
    line 388, whose first item is a mapping; for an array of four
    dimensions, when they are a sequence of as many items as the array has
    channels whose first item is a sequence that starts with a mapping.
    For an array of four dimensions these checks ask nothing of the other
    entries, nor of the other items of the first entry. *)
Theorem mappings_that_pass_the_checks (a : ndarray) (mappings : pyobj) :
  (exists shared a4 nested, mapping_checks a mappings = Ok (shared, a4, nested))
  <-> (((ndim a = 2 \/ ndim a = 3)%nat
        /\ exists item rest, mappings = Sequence (Mapping item :: rest)
                             /\ forallb isinstance_Dataset rest = true)
       \/ (ndim a = 4%nat
           /\ exists item channel rest,
                mappings = Sequence (Sequence (Mapping item :: channel) :: rest)
                /\ S (length rest) = dim a 3)).
Proof.
  split.
  - intros (shared & a4 & nested & H). apply mapping_checks_ok in H.
    destruct H as [Hlen [(Hn & _ & _ & _ & item & Hget & Hseq)
                        | (Hn & _ & -> & -> & channel & item & Hget & Hget')]].
    + left. split; [exact Hn|]. apply getitem_first in Hget.
      destruct Hget as [rest ->]. exists item, rest. split; [reflexivity|].
      apply pydicom_Sequence_ok in Hseq. destruct Hseq as (_ & items & Heq & Hall).
      inversion Heq; subst items. exact Hall.
    + right. split; [exact Hn|].
      apply getitem_first in Hget. destruct Hget as [rest ->].
      apply getitem_first in Hget'. destruct Hget' as [rest' ->].
      exists item, rest', rest. split; [reflexivity|].
      cbn [len length] in Hlen. now inversion Hlen.
  - intros [(Hn & item & rest & -> & Hrest)
            | (Hn & item & channel & rest & -> & Hlen)].
    + unfold mapping_checks, pydicom_Sequence, ndim, dim, newaxis_back,
        newaxis_front in *.
      cbn [forallb isinstance_Dataset andb]. rewrite Hrest.
      destruct (shape a) as [|x0 [|x1 [|x2 [|x3 l]]]]; cbn in Hn;
        try lia; eexists _, _, _; reflexivity.
    + unfold mapping_checks. rewrite Hn.
      cbn [Nat.eqb orb getitem index nth_error bind except_IndexError
           isinstance_RealWorldValueMapping negb raise_if len length].
      rewrite <- Hlen, Nat.eqb_refl. eexists _, _, _; reflexivity.
Qed.



End Mappings.

(** ** Single planes *)

Section SinglePlane.

Context {env : Collaborators}.

(** X15.  [_encode_frame] refuses every array that is not a single plane, in
    native and in encapsulated mode alike, and before it looks at the
    samples.  In native mode it returns for every single plane: two bytes
    per sample for [uint8] and for signed integers, and the bytes of the
    samples as they are, [itemsize] bytes each, for every other array. *)
Theorem only_a_single_plane_is_encoded (self : ParametricMap) (p : ndarray) :
  (ndim p <> 2%nat ->
   _encode_frame self p = Raise (ValueError MsgSinglePlane)
   /\ failure_of (ValueError MsgSinglePlane) = Some NotASinglePlane)
  /\ (ndim p = 2%nat -> is_encapsulated (TransferSyntaxUID self) = false ->
      exists frame,
        _encode_frame self p = Ok frame
        /\ length frame
           = (length (data p)
              * (if dtype_eqb (dt p) np_uint8 || Ascii.eqb (kind (dt p)) "i"
                 then 2 else Z.to_nat (itemsize (dt p))))%nat).
Proof.
  split.
  - intros Hn. apply Nat.eqb_neq in Hn. unfold _encode_frame. rewrite Hn.
    split; reflexivity.
  - intros Hn Hnative. unfold _encode_frame. rewrite Hn, Hnative.
    cbn [Nat.eqb negb].
    destruct (dtype_eqb (dt p) np_uint8); cbn [orb].
    + eexists. split; [reflexivity|]. rewrite length_tobytes.
      cbn [flatten astype data dt]. now rewrite length_map.
    + destruct (Ascii.eqb (kind (dt p)) "i").
      * eexists. split; [reflexivity|]. rewrite length_tobytes.
        cbn [flatten astype add_scalar data dt]. now rewrite !length_map.
      * eexists. split; [reflexivity|]. now rewrite length_tobytes.
Qed.

End SinglePlane.

(** * Grouping by series *)

Lemma existsb_eqb_In (k : string) (l : list string) :
  existsb (String.eqb k) l = true <-> In k l.
Proof.
  rewrite existsb_exists. split.
  - intros (x & Hx & He). apply String.eqb_eq in He. now subst.
  - intros H. exists k. split; [exact H | apply String.eqb_refl].
Qed.

Lemma distinct_snoc (keys : list string) (k : string) :
  distinct (keys ++ [k])
  = distinct keys ++ (if existsb (String.eqb k) (distinct keys) then [] else [k]).
Proof.
  unfold distinct. rewrite fold_left_app. cbn [fold_left].
  destruct (existsb _ _); [now rewrite app_nil_r | reflexivity].
Qed.

Lemma In_distinct (keys : list string) (k : string) :
  In k (distinct keys) <-> In k keys.
Proof.
  revert k. induction keys as [|k' keys IH] using rev_ind; intros k; [reflexivity|].
  rewrite distinct_snoc, !in_app_iff, IH.
  destruct (existsb (String.eqb k') (distinct keys)) eqn:E.
  - apply existsb_eqb_In, IH in E.
    cbn. split; [tauto|]. intros [H0 | [Heq | []]]; [auto | subst; auto].
  - cbn. tauto.
Qed.

Lemma NoDup_distinct (keys : list string) : NoDup (distinct keys).
Proof.
  induction keys as [|k keys IH] using rev_ind; [constructor|].
  rewrite distinct_snoc.
  destruct (existsb (String.eqb k) (distinct keys)) eqn:E;
    [now rewrite app_nil_r|].
  apply (NoDup_Add (Add_app k (distinct keys) [])). rewrite app_nil_r.
  split; [exact IH|]. intros Hin. apply existsb_eqb_In in Hin. congruence.
Qed.

Lemma append_to_map {V : Type} (F : string -> list V) (L : list string)
  (key : string) (value : V) :
  NoDup L ->
  append_to (map (fun k => (k, F k)) L) key value
  = map (fun k => (k, F k ++ (if String.eqb k key then [value] else []))) L
    ++ (if existsb (String.eqb key) L then [] else [(key, [value])]).
Proof.
  induction L as [|k L IH]; intros Hnd; cbn [map append_to existsb app].
  - reflexivity.
  - inversion Hnd as [|? ? Hnot Hnd']; subst.
    rewrite (String.eqb_sym key k).
    destruct (String.eqb k key) eqn:E; cbn [orb].
    + apply String.eqb_eq in E. subst k. rewrite app_nil_r. f_equal.
      apply map_ext_in. intros k' Hk'. destruct (String.eqb k' key) eqn:E'.
      * apply String.eqb_eq in E'. subst. contradiction.
      * now rewrite app_nil_r.
    + rewrite IH by assumption. now rewrite (app_nil_r (F k)).
Qed.

(** The loop that appends every item to the list of its key computes, for
    every key in the order of first occurrence, the items of that key in the
    order of the list. *)
Lemma fold_append_to {A V : Type} (key : A -> string) (item : A -> V) (l : list A) :
  fold_left (fun d x => append_to d (key x) (item x)) l []
  = map (fun k => (k, map item (filter (fun x => String.eqb (key x) k) l)))
        (distinct (map key l)).
Proof.
  induction l as [|x l IH] using rev_ind; [reflexivity|].
  rewrite fold_left_app. cbn [fold_left]. rewrite IH.
  rewrite (append_to_map
             (fun k => map item (filter (fun x => String.eqb (key x) k) l)))
    by apply NoDup_distinct.
  rewrite (map_app key). cbn [map]. rewrite distinct_snoc, map_app.
  f_equal.
  - apply map_ext. intros k. rewrite filter_app, map_app. cbn [filter].
    rewrite (String.eqb_sym k (key x)).
    destruct (String.eqb (key x) k); reflexivity.
  - destruct (existsb (String.eqb (key x)) (distinct (map key l))) eqn:E;
      [reflexivity|].
    cbn [map]. rewrite filter_app, map_app. cbn [filter].
    rewrite String.eqb_refl. cbn [map].
    assert (Hnone : filter (fun y => String.eqb (key y) (key x)) l = []).
    { destruct (filter (fun y => String.eqb (key y) (key x)) l) as [|y ys] eqn:Hf;
        [reflexivity|].
      assert (Hy : In y (filter (fun y => String.eqb (key y) (key x)) l))
        by (rewrite Hf; now left).
      apply filter_In in Hy. destruct Hy as [Hy Heq]. apply String.eqb_eq in Heq.
      assert (Hin : In (key x) (distinct (map key l)))
        by (apply In_distinct; rewrite <- Heq; now apply in_map).
      apply existsb_eqb_In in Hin. congruence. }
    rewrite Hnone. reflexivity.
Qed.

Lemma fold_append_to_one_key {A V : Type} (key : A -> string) (item : A -> V)
  (k : string) (l : list A) (values : list V) :
  (forall x, In x l -> key x = k) ->
  fold_left (fun d x => append_to d (key x) (item x)) l [(k, values)]
  = [(k, values ++ map item l)].
Proof.
  revert values. induction l as [|x l IH]; intros values Hall; cbn [fold_left map].
  - now rewrite app_nil_r.
  - cbn [append_to]. rewrite (Hall x (or_introl eq_refl)), String.eqb_refl.
    rewrite IH by (intros y Hy; apply Hall; now right).
    now rewrite <- app_assoc.
Qed.

(** ** The references to the source images *)

Section References.

Variable SOPClassUID : Src.Dataset -> string.
Variable SOPInstanceUID : Src.Dataset -> string.

Local Abbreviation reference_of :=
  (fun s_img => {| ReferencedSOPClassUID := SOPClassUID s_img;
                   ReferencedSOPInstanceUID := SOPInstanceUID s_img |}).

Lemma source_image_references_fold (source_images : list Src.Dataset)
  (sequence : list SOPReference) (series : list (string * list SOPReference)) :
  fold_left
    (fun '(SourceImageSequence, referenced_series) s_img =>
       let ref := {| ReferencedSOPClassUID := SOPClassUID s_img;
                     ReferencedSOPInstanceUID := SOPInstanceUID s_img |} in
       (SourceImageSequence ++ [ref],
        append_to referenced_series (Src.SeriesInstanceUID s_img) ref))
    source_images (sequence, series)
  = (sequence ++ map reference_of source_images,
     fold_left (fun d s_img => append_to d (Src.SeriesInstanceUID s_img)
                                         (reference_of s_img))
               source_images series).
Proof.
  revert sequence series.
  induction source_images as [|s_img l IH]; intros sequence series; cbn [fold_left map].
  - now rewrite app_nil_r.
  - rewrite IH. now rewrite <- app_assoc.
Qed.

Lemma source_image_checks_criteria (source_images : list Src.Dataset)
  (src_img : Src.Dataset) (is_multiframe : bool) :
  source_image_checks source_images = Ok (src_img, is_multiframe) ->
  (exists rest, source_images = src_img :: rest)
  /\ forall image, In image source_images -> criteria_of image = criteria_of src_img.
Proof.
  unfold source_image_checks. intros H.
  bind_ok H. bind_ok H. bind_ok H. bind_ok H. inversion H; subst; clear H.
  apply index_ok in E1. destruct source_images as [|first rest]; [discriminate|].
  inversion E1; subst. split; [now exists rest|].
  apply raise_if_ok_inv in E0.
  intros image Hin. apply (proj1 (nodup_at_most_one _ _) E0).
  - now apply in_map.
  - apply in_map. now left.
Qed.

(** X16.  When the source images have passed their checks, [SourceImageSequence]
    refers to every source image, in order, by its SOP class and SOP
    instance, and [ReferencedSeriesSequence] has exactly one item: the
    series of the first source image, with the same references. *)
Theorem source_images_are_referenced_under_one_series
  (source_images : list Src.Dataset) (src_img : Src.Dataset) (is_multiframe : bool) :
  source_image_checks source_images = Ok (src_img, is_multiframe) ->
  let references :=
    map (fun s_img => {| ReferencedSOPClassUID := SOPClassUID s_img;
                         ReferencedSOPInstanceUID := SOPInstanceUID s_img |})
        source_images in
  fst (source_image_references SOPClassUID SOPInstanceUID source_images) = references
  /\ referenced_series_sequence
       (snd (source_image_references SOPClassUID SOPInstanceUID source_images))
     = [{| SeriesInstanceUID := Src.SeriesInstanceUID src_img;
           ReferencedInstanceSequence := references |}].
Proof.
  intros H references. apply source_image_checks_criteria in H.
  destruct H as [[rest Hrest] Hall].
  unfold source_image_references. rewrite source_image_references_fold.
  cbn [fst snd app]. split; [reflexivity|].
  subst source_images. cbn [fold_left append_to].
  rewrite (fold_append_to_one_key Src.SeriesInstanceUID _ (Src.SeriesInstanceUID src_img)).
  - reflexivity.
  - intros x Hx. specialize (Hall x (or_intror Hx)).
    unfold criteria_of in Hall. now inversion Hall.
Qed.

End References.

(** * Properties of the SR constructor *)

Module SRFacts.

Import SR.
Local Open Scope sr_scope.

Ltac sr_bind_ok H :=
  match type of H with
  | SR.bind ?c _ = SR.Ok _ =>
      let E := fresh "E" in
      destruct c eqn:E; [cbn [SR.bind] in H | discriminate H]
  end.

Section Facts.

Context {environment : Environment}.

Lemma collect_spec (evidence : list Evd.Dataset) (e : exception)
  (instances : list Evd.Dataset) (collection : list (string * list SOPReference)) :
  collect evidence e instances collection
  = match instances, evidence with
    | [], _ => Ok collection
    | _ :: _, [] => Raise IndexError
    | _ :: _, first :: _ =>
        if same_study first instances
        then Ok (fold_left (fun d x => append_to d (Evd.SeriesInstanceUID x)
                                                 (reference_of x))
                           instances collection)
        else Raise e
    end.
Proof.
  revert collection. induction instances as [|x l IH]; intros collection;
    [reflexivity|].
  cbn [collect]. destruct evidence as [|first rest]; [reflexivity|].
  cbn [index nth_error bind same_study forallb].
  destruct (String.eqb (Evd.StudyInstanceUID x) (Evd.StudyInstanceUID first));
    cbn [negb raise_if bind andb]; [|reflexivity].
  rewrite IH. destruct l as [|y l']; reflexivity.
Qed.

Lemma study_item_of_collection (uid : string) (instances : list Evd.Dataset) :
  study_item_of uid
    (fold_left (fun d x => append_to d (Evd.SeriesInstanceUID x) (reference_of x))
               instances [])
  = {| study_StudyInstanceUID := uid;
       study_ReferencedSeriesSequence := by_series instances |}.
Proof.
  unfold study_item_of, by_series. rewrite fold_append_to, map_map. reflexivity.
Qed.

Lemma same_study_Forall (first : Evd.Dataset) (instances : list Evd.Dataset) :
  same_study first instances = true
  <-> Forall (fun instance =>
                Evd.StudyInstanceUID instance = Evd.StudyInstanceUID first) instances.
Proof.
  unfold same_study. rewrite forallb_forall, Forall_forall.
  split; intros H x Hx; apply String.eqb_eq; auto.
Qed.

(** A collection that was made: the instances are of the study of the first
    item of the evidence. *)
Lemma collect_ok (evidence : list Evd.Dataset) (e : exception)
  (instances : list Evd.Dataset) (collection : list (string * list SOPReference))
  (first : Evd.Dataset) (rest : list Evd.Dataset) :
  evidence = first :: rest ->
  collect evidence e instances [] = Ok collection ->
  same_study first instances = true
  /\ collection
     = fold_left (fun d x => append_to d (Evd.SeriesInstanceUID x) (reference_of x))
                 instances [].
Proof.
  intros -> H. rewrite collect_spec in H. destruct instances as [|x l].
  - inversion H. split; reflexivity.
  - destruct (same_study first (x :: l)); inversion H. split; reflexivity.
Qed.

Lemma index_first {A : Type} (l : list A) (x : A) :
  index l 0 = Ok x -> exists rest, l = x :: rest.
Proof.
  unfold index. destruct l as [|y rest]; cbn [nth_error]; intros H; inversion H.
  now exists rest.
Qed.

(** What a constructor that returned has established. *)
Lemma __init___ok (args : arguments) (doc : Comprehensive3DSR) :
  __init__ args = Ok doc ->
  is_verified args = false
  /\ exists first rest,
       evidence args = first :: rest
       /\ same_study first (evidence args) = true
       /\ ReferencedRequestSequence doc = requested_procedures args
       /\ (let evd_study_item :=
             {| study_StudyInstanceUID := Evd.StudyInstanceUID first;
                study_ReferencedSeriesSequence := by_series (evidence args) |} in
           CurrentRequestedProcedureEvidenceSequence doc
           = match requested_procedures args with
             | Some _ => Some [evd_study_item]
             | None => None
             end
           /\ PertinentOtherEvidenceSequence doc
              = match requested_procedures args with
                | Some _ => None
                | None => if record_evidence args then Some [evd_study_item] else None
                end)
       /\ match previous_versions args with
          | None => PredecessorDocumentsSequence doc = None
          | Some previous =>
              exists first_previous others,
                previous = first_previous :: others
                /\ same_study first previous = true
                /\ PredecessorDocumentsSequence doc
                   = Some [{| study_StudyInstanceUID :=
                                Evd.StudyInstanceUID first_previous;
                              study_ReferencedSeriesSequence := by_series previous |}]
          end.
Proof.
  unfold __init__. intros H.
  sr_bind_ok H. destruct (is_verified args) eqn:Hv.
  { exfalso. destruct (verifying_observer_name args); cbn in H; [|discriminate].
    destruct (verifying_organization args); cbn in H; [|discriminate].
    destruct verification_date_time; cbn in H; discriminate. }
  cbn [bind] in H. sr_bind_ok H. sr_bind_ok H. rename a1 into evd_collection.
  sr_bind_ok H. rename a1 into first.
  destruct (index_first _ _ E2) as [rest Hevd].
  destruct (collect_ok _ _ _ _ _ _ Hevd E1) as [Hsame ->].
  rewrite study_item_of_collection in H.
  split; [reflexivity|]. exists first, rest.
  split; [exact Hevd|]. split; [exact Hsame|].
  destruct (requested_procedures args) as [requested|];
    cbv zeta beta iota in H; sr_bind_ok H; sr_bind_ok H;
    inversion H; subst doc; clear H;
    cbn [ReferencedRequestSequence CurrentRequestedProcedureEvidenceSequence
         PertinentOtherEvidenceSequence PredecessorDocumentsSequence];
    (split; [reflexivity|]); (split; [split; reflexivity|]);
    (destruct (previous_versions args) as [previous|];
     [ sr_bind_ok E3; sr_bind_ok E3; inversion E3; subst; clear E3;
       match goal with
       | Hc : collect _ _ previous [] = Ok _, Hi : index previous 0 = Ok _ |- _ =>
           destruct (index_first _ _ Hi) as [others Hp];
           destruct (collect_ok _ _ _ _ _ _ Hevd Hc) as [Hsp ->]
       end;
       rewrite study_item_of_collection;
       eexists _, others; split; [exact Hp|]; split; [exact Hsp | reflexivity]
     | now inversion E3 ]).
Qed.

(** X17.  A report that is marked as verified is never built.  Without the name
    of the verifying observer or of the verifying organization the
    constructor raises the error of the missing argument; with both, it
    reads the name [observer_item], which is bound nowhere (the item it has
    just filled is called [ovserver_item]), and raises [NameError]. *)
Theorem verified_report_is_never_built (args : arguments) :
  is_verified args = true ->
  (forall doc, __init__ args <> Ok doc)
  /\ (construct = Ok tt ->
      match verifying_observer_name args, verifying_organization args with
      | None, _ => __init__ args = Raise (ValueError MsgObserverName)
      | Some _, None => __init__ args = Raise (ValueError MsgOrganization)
      | Some _, Some _ =>
          verification_date_time = Ok tt ->
          __init__ args = Raise (NameError "observer_item")
      end).
Proof.
  intros Hv. split.
  - intros doc H. apply __init___ok in H. destruct H as [H _]. congruence.
  - unfold __init__. rewrite Hv. intros ->. cbn [bind].
    destruct (verifying_observer_name args); cbn; [|reflexivity].
    destruct (verifying_organization args); cbn; [|reflexivity].
    intros ->. reflexivity.
Qed.



Lemma same_study_Exists (first : Evd.Dataset) (instances : list Evd.Dataset) :
  Exists (fun instance =>
            Evd.StudyInstanceUID instance <> Evd.StudyInstanceUID first) instances ->
  same_study first instances = false.
Proof.
  intros H. destruct (same_study first instances) eqn:E; [|reflexivity].
  apply same_study_Forall in E. apply Exists_exists in H.
  destruct H as (x & Hx & Hne). rewrite Forall_forall in E. now specialize (E x Hx).
Qed.

(** X20.  With collaborators that return and a report that is not marked as
    verified: without any evidence the constructor raises [IndexError]; with
    an instance of another study than the first instance, it raises the
    error of the evidence. *)
Theorem evidence_must_share_one_study (args : arguments) :
  construct = Ok tt ->
  is_verified args = false ->
  add_content (content args) = Ok tt ->
  (evidence args = [] -> __init__ args = Raise IndexError)
  /\ (forall first rest,
        evidence args = first :: rest ->
        Exists (fun instance =>
                  Evd.StudyInstanceUID instance <> Evd.StudyInstanceUID first) rest ->
        __init__ args = Raise (ValueError MsgEvidenceStudy)).
Proof.
  intros Hc Hv Ha. unfold __init__. rewrite Hc, Hv, Ha. cbn [bind]. split.
  - intros ->. reflexivity.
  - intros first rest -> Hex. rewrite collect_spec.
    rewrite (same_study_Exists first (first :: rest)); [reflexivity|].
    now apply Exists_cons_tl.
Qed.

(** X21.  With collaborators that return, a report that is not marked as verified
    and evidence of one study: an empty list of previous versions makes the
    constructor raise [IndexError], and a previous version of another study
    than the first instance of the evidence makes it raise the error of the
    previous versions. *)
Theorem previous_versions_must_share_the_study (args : arguments)
  (first : Evd.Dataset) (rest : list Evd.Dataset) :
  construct = Ok tt ->
  is_verified args = false ->
  add_content (content args) = Ok tt ->
  evidence args = first :: rest ->
  same_study first (evidence args) = true ->
  (previous_versions args = Some [] -> __init__ args = Raise IndexError)
  /\ (forall previous,
        previous_versions args = Some previous ->
        Exists (fun instance =>
                  Evd.StudyInstanceUID instance <> Evd.StudyInstanceUID first)
               previous ->
        __init__ args = Raise (ValueError MsgPreviousStudy)).
Proof.
  intros Hc Hv Ha Hevd Hsame. unfold __init__. rewrite Hc, Hv, Ha. cbn [bind].
  rewrite collect_spec, Hevd. rewrite Hevd in Hsame. rewrite Hsame.
  cbn [bind index nth_error]. split.
  - intros ->. destruct (requested_procedures args); reflexivity.
  - intros previous -> Hex. rewrite collect_spec.
    rewrite (same_study_Exists first previous Hex).
    destruct previous as [|p ps]; [inversion Hex|].
    destruct (requested_procedures args); reflexivity.
Qed.


End Facts.

End SRFacts.

(** * Worked builds of the further properties *)

(** One source image, referred to twice. *)
Lemma source_images_are_referenced_under_one_series_twice :
  referenced_series_sequence
    (snd (source_image_references (fun _ => "1.2.840.10008.5.1.4.1.1.2"%string)
                                  (fun _ => "1.2.3.4.1"%string)
                                  [Example.image; Example.image]))
  = [{| SeriesInstanceUID := "1.2.3.4";
        ReferencedInstanceSequence :=
          [{| ReferencedSOPClassUID := "1.2.840.10008.5.1.4.1.1.2";
              ReferencedSOPInstanceUID := "1.2.3.4.1" |};
           {| ReferencedSOPClassUID := "1.2.840.10008.5.1.4.1.1.2";
              ReferencedSOPInstanceUID := "1.2.3.4.1" |}] |}].
Proof.
  exact (proj2 (source_images_are_referenced_under_one_series
                  (fun _ => "1.2.840.10008.5.1.4.1.1.2"%string)
                  (fun _ => "1.2.3.4.1"%string)
                  [Example.image; Example.image] Example.image false eq_refl)).
Defined.

(** A one-dimensional array is refused. *)
Lemma array_rank_must_be_2_3_or_4_1d :
  ndim (pixel_array Input.uint8_1d) = 1%nat
  /\ __init__ Input.uint8_1d = Raise (ValueError MsgArrayRank).
Proof.
  split; [reflexivity|].
  destruct (array_rank_must_be_2_3_or_4 Input.uint8_1d Example.image false
              eq_refl eq_refl eq_refl) as (_ & H & _).
  - left. cbn. lia.
  - exact H.
Defined.


(** int16, shape (1, 2): one frame of one row and two columns. *)
Lemma rows_and_columns_of_the_array_int16_12 :
  exists doc,
    __init__ Example.int16_native = Ok doc
    /\ Rows doc = 1%nat /\ Columns doc = 2%nat /\ NumberOfFrames doc = Some 1%nat.
Proof.
  destruct (returns_ok (__init__ Example.int16_native)) as [doc H];
    [vm_compute; reflexivity|].
  destruct (rows_and_columns_of_the_array _ _ H)
    as (n & r & c & m & Hr & Hc & Hn & Hshape).
  cbn in Hshape. destruct Hshape as (-> & -> & -> & ->).
  exists doc. repeat split; assumption.
Defined.

(** int16, shape (1, 2): the intercept is [2 ^ 15] and the width is the
    one asked for. *)
Lemma shared_group_of_a_build_int16 :
  exists doc item,
    __init__ Example.int16_native = Ok doc
    /\ SharedFunctionalGroupsSequence doc = [item]
    /\ RescaleIntercept item = 32768
    /\ WindowWidth item = window_width Example.int16_native.
Proof.
  destruct (returns_ok (__init__ Example.int16_native)) as [doc H];
    [vm_compute; reflexivity|].
  destruct (shared_group_of_a_build _ _ H)
    as (item & Hs & _ & Hw & _ & _ & _ & Hri & _).
  exists doc, item. repeat split; assumption.
Defined.


(** uint8 is stored under [PixelData] alone. *)
Lemma pixel_data_is_stored_under_one_attribute_uint8 :
  exists doc buf,
    __init__ Example.uint8_3441 = Ok doc
    /\ PixelData doc = Some buf /\ FloatPixelData doc = None
    /\ DoubleFloatPixelData doc = None.
Proof.
  destruct (returns_ok (__init__ Example.uint8_3441)) as [doc H];
    [vm_compute; reflexivity|].
  destruct (pixel_data_is_stored_under_one_attribute _ _ H)
    as (t & buf & Ht & _ & Hcase).
  vm_compute in Ht. injection Ht as <-. destruct Hcase as (Hp & Hf & Hd).
  exists doc, buf. repeat split; assumption.
Defined.

(** int16, shape (2, 1, 2, 2), native: 16 bytes. *)
Lemma native_signed_round_trip_int16_2122 :
  exists doc buf,
    __init__ Example.int16_2122 = Ok doc
    /\ kind (dt (pixel_array Example.int16_2122)) = "i"%char
    /\ is_encapsulated (transfer_syntax_uid Example.int16_2122) = false
    /\ PixelData doc = Some buf
    /\ length buf = 16%nat.
Proof.
  destruct (returns_ok (__init__ Example.int16_2122)) as [doc H];
    [vm_compute; reflexivity|].
  destruct (native_signed_round_trip _ _ H eq_refl eq_refl eq_refl)
    as (buf & item & n & r & c & m & Hshape & Hbuf & Hlen & _).
  vm_compute in Hshape. injection Hshape as <- <- <- <-.
  exists doc, buf. repeat split; assumption.
Defined.

(** float32, shape (1, 2): eight bytes under [FloatPixelData]. *)
Lemma float_samples_are_stored_unchanged_float32 :
  exists doc buf,
    __init__ Input.float32_native = Ok doc
    /\ kind (dt (pixel_array Input.float32_native)) = "f"%char
    /\ FloatPixelData doc = Some buf /\ PixelData doc = None
    /\ length buf = 8%nat.
Proof.
  destruct (returns_ok (__init__ Input.float32_native)) as [doc H];
    [vm_compute; reflexivity|].
  pose proof (float_samples_are_stored_unchanged _ _ H eq_refl) as Hfloat.
  cbv zeta in Hfloat. destruct Hfloat as (buf & _ & Hpd & Hcase & _ & Hlen).
  destruct Hcase as [(_ & Hf & _) | (Hs & _)]; [|vm_compute in Hs; discriminate Hs].
  exists doc, buf. repeat split; assumption.
Defined.

(** The sample [1.0], with the bit pattern [0x3F800000], of a [float32]
    array in the byte order opposite to the host's: on a little-endian host
    its bytes are stored with the most significant byte first. *)
Lemma byte_order_of_the_array_is_kept_float32 :
  swapped (dt Input.float32_swapped) = true
  /\ exists self,
       _encode_frame (env := Example.env) self Input.float32_swapped
       = Ok [0; 0; 0; 0; 63; 128; 0; 0].
Proof.
  split; [reflexivity|].
  destruct (returns_ok (init_setup Input.float32_native)) as [[self loc] H];
    [vm_compute; reflexivity|].
  exists self.
  destruct (byte_order_of_the_array_is_kept self Input.float32_swapped eq_refl)
    as [_ Hfloat].
  destruct (Hfloat eq_refl eq_refl) as [_ Hframe].
  rewrite Hframe; [reflexivity | reflexivity |].
  destruct (init_setup_ok _ _ _ H) as (_ & _ & _ & _ & _ & _ & _ & _ & _ & _ & _
                                       & _ & Hts & _).
  rewrite Hts. reflexivity.
Defined.


(** int16, shape (2, 1, 2, 2), with RLE Lossless, a codec that returns and
    a list of one mapping for each of the two channels: four frames. *)
Lemma encapsulated_build_encodes_every_plane_int16_rle :
  exists doc,
    __init__ Input.int16_rle_2122 = Ok doc /\ NumberOfFrames doc = Some 4%nat.
Proof.
  destruct (returns_ok (init_setup Input.int16_rle_2122)) as [[self loc] H];
    [vm_compute; reflexivity|].
  pose proof (encapsulated_build_encodes_every_plane _ _ _ H eq_refl) as Hbuild.
  destruct Hbuild as [Hbuild _].
  - cbn [get_index_values Example.env]. rewrite length_map, length_seq. apply le_n.
  - destruct (Hbuild (fun i j =>
                flat_map (le_bytes 2)
                         (data (astype (env := Example.env)
                                       (plane (loc_pixel_array loc) i j) np_uint16))))
      as (doc & Hd & _ & Hn).
    + intros i j _ _. reflexivity.
    + intros _. reflexivity.
    + destruct (init_setup_shape _ _ _ H) as (Ha & _). rewrite Ha in Hn.
      exists doc. split; assumption.
Defined.

(** A source image without slide attributes: every per-frame functional
    group has its position under [PlanePositionSequence]. *)
Lemma plane_positions_follow_the_coordinate_system_patient :
  exists doc groups,
    __init__ Example.uint8_3441 = Ok doc
    /\ PerFrameFunctionalGroupsSequence doc = Some groups
    /\ forall k group, nth_error groups k = Some group ->
         pffg_PlanePositionSlideSequence group = None
         /\ exists position, pffg_PlanePositionSequence group = Some position.
Proof.
  destruct (returns_ok (__init__ Example.uint8_3441)) as [doc H];
    [vm_compute; reflexivity|].
  destruct (plane_positions_follow_the_coordinate_system _ _ H)
    as (src_img & rest & groups & Hsrc & Hg & Hall).
  injection Hsrc as <- <-.
  exists doc, groups. split; [exact H|]. split; [exact Hg|].
  intros k group Hk. destruct (Hall k group Hk) as (position & _ & Hp & Hs).
  split; [exact Hs | now exists position].
Defined.

(** A report marked as verified, with observer and organization. *)
Lemma verified_report_is_never_built_example :
  SR.is_verified SR.Example.verified = true
  /\ SR.__init__ SR.Example.verified = SR.Raise (SR.NameError "observer_item").
Proof.
  split; [reflexivity|].
  destruct (SRFacts.verified_report_is_never_built SR.Example.verified eq_refl)
    as [_ H].
  exact (H eq_refl eq_refl).
Defined.



(** A report without any evidence. *)
Lemma evidence_must_share_one_study_empty :
  SR.evidence SR.Example.without_evidence = []
  /\ SR.__init__ SR.Example.without_evidence = SR.Raise SR.IndexError.
Proof.
  split; [reflexivity|].
  exact (proj1 (SRFacts.evidence_must_share_one_study SR.Example.without_evidence
                  eq_refl eq_refl eq_refl) eq_refl).
Defined.

(** A report with an empty list of previous versions. *)
Lemma previous_versions_must_share_the_study_empty :
  SR.previous_versions SR.Example.with_no_previous = Some []
  /\ SR.__init__ SR.Example.with_no_previous = SR.Raise SR.IndexError.
Proof.
  split; [reflexivity|].
  exact (proj1 (SRFacts.previous_versions_must_share_the_study
                  SR.Example.with_no_previous _ _ eq_refl eq_refl eq_refl eq_refl
                  eq_refl) eq_refl).
Defined.

